(** * Socket and network statistics collector (tcollector [netstat.py])

    A shallow embedding of
    [scalyr_agent/third_party/tcollector/collectors/0/netstat.py]:
    the sockstat grammar [REGEXP], [parse_and_print_metrics], the two
    static tables, [drop_privileges] and the [main] loop.

    Modelling conventions.
    - Text is a [string] whose characters are read as code points below
      256; the character classes of [str.split], [str.splitlines],
      [\d], [int] and [repr] are the Python 3 ones restricted to that
      range.
    - Every effect of the program is an [event]; a computation returns
      the events it performed together with a value or the exception
      it raised (monad [M]).
    - [print(text, file=s)] is the event [EvPrint s text]: the text
      followed by one line feed is written to [s].
    - The clock, the page size, the file contents and the parent pid
      are read from an explicit environment. *)

From Stdlib Require Import String Ascii List ZArith NArith Bool Lia.
From Stdlib Require Import DecimalString.
Import ListNotations.

Local Open Scope string_scope.
Local Open Scope Z_scope.

(* ===================================================================== *)
(** ** Python text primitives *)
(* ===================================================================== *)

Module PyStr.

Definition code (c : ascii) : N := N_of_ascii c.

Definition LF : ascii := "010"%char.
Definition CR : ascii := "013"%char.
Definition nl : string := String LF "".

(** [\d] on code points below 256. *)
Definition is_digit (c : ascii) : bool :=
  ((48 <=? code c) && (code c <=? 57))%N.

Definition digit_val (c : ascii) : Z := Z.of_N (code c) - 48.

(** [str.isspace] on code points below 256. *)
Definition is_space (c : ascii) : bool :=
  let n := code c in
  (((9 <=? n) && (n <=? 13)) || ((28 <=? n) && (n <=? 32))
   || (n =? 133) || (n =? 160))%N.

(** The line boundaries of [str.splitlines] other than the pair CR LF. *)
Definition is_linebreak (c : ascii) : bool :=
  let n := code c in
  (((10 <=? n) && (n <=? 13)) || ((28 <=? n) && (n <=? 30)) || (n =? 133))%N.

Definition snoc (s : string) (c : ascii) : string := s ++ String c "".

(** [s.splitlines()]: a boundary closes the current line, CR LF counts
    once, and a final boundary opens no empty last line. *)
Fixpoint splitlines_from (cur : string) (s : string) : list string :=
  match s with
  | EmptyString => if (cur =? "")%string then [] else [cur]
  | String c s' =>
      if is_linebreak c then
        match s' with
        | String c' s'' =>
            if (Ascii.eqb c CR && Ascii.eqb c' LF)%bool
            then cur :: splitlines_from "" s''
            else cur :: splitlines_from "" s'
        | EmptyString => [cur]
        end
      else splitlines_from (snoc cur c) s'
  end.

Definition splitlines (s : string) : list string := splitlines_from "" s.

(** [s.split()]: the maximal runs of characters that are not white space. *)
Fixpoint split_from (cur : string) (s : string) : list string :=
  match s with
  | EmptyString => if (cur =? "")%string then [] else [cur]
  | String c s' =>
      if is_space c
      then (if (cur =? "")%string then split_from "" s'
            else cur :: split_from "" s')
      else split_from (snoc cur c) s'
  end.

Definition split (s : string) : list string := split_from "" s.

(** [sep.join(xs)]. *)
Fixpoint join (sep : string) (xs : list string) : string :=
  match xs with
  | [] => ""
  | [x] => x
  | x :: rest => x ++ sep ++ join sep rest
  end.

(** [str(n)] and [%d] for an integer. *)
Definition dec (z : Z) : string := NilZero.string_of_int (Z.to_int z).

Fixpoint lstrip (s : string) : string :=
  match s with
  | String c s' => if is_space c then lstrip s' else s
  | EmptyString => ""
  end.

Fixpoint rstrip (s : string) : string :=
  match s with
  | String c s' =>
      let r := rstrip s' in
      if (is_space c && (r =? "")%string)%bool then "" else String c r
  | EmptyString => ""
  end.

(** The digits of a base-10 [int] literal: single underscores are allowed
    between digits. *)
Fixpoint int_digits (s : string) (acc : Z) (after_digit : bool) : option Z :=
  match s with
  | EmptyString => if after_digit then Some acc else None
  | String c s' =>
      if is_digit c then int_digits s' (10 * acc + digit_val c) true
      else if (Ascii.eqb c "_" && after_digit)%bool then int_digits s' acc false
      else None
  end.

(** [int(s)] for a text [s]; [None] is [ValueError].  The limit that
    recent interpreters put on the number of digits is not modelled. *)
Definition int_of_str (s : string) : option Z :=
  match rstrip (lstrip s) with
  | String "-" d => option_map Z.opp (int_digits d 0 false)
  | String "+" d => int_digits d 0 false
  | d => int_digits d 0 false
  end.

Definition hex_digit (n : N) : ascii :=
  if (n <? 10)%N then ascii_of_N (48 + n) else ascii_of_N (87 + n).

(** [str.isprintable] on one code point below 256. *)
Definition is_printable (c : ascii) : bool :=
  let n := code c in
  (((32 <=? n) && (n <=? 126)) || ((161 <=? n) && negb (n =? 173)))%N.

Definition repr_char (quote : ascii) (c : ascii) : string :=
  if (Ascii.eqb c quote || Ascii.eqb c "\")%bool then String "\" (String c "")
  else if Ascii.eqb c "009" then "\t"
  else if Ascii.eqb c LF then "\n"
  else if Ascii.eqb c CR then "\r"
  else if is_printable c then String c ""
  else String "\" (String "x" (String (hex_digit (code c / 16))
                                 (String (hex_digit (code c mod 16)) ""))).

Fixpoint contains_char (c : ascii) (s : string) : bool :=
  match s with
  | EmptyString => false
  | String c' s' => (Ascii.eqb c c' || contains_char c s')%bool
  end.

Fixpoint flat_map_str (f : ascii -> string) (s : string) : string :=
  match s with
  | EmptyString => ""
  | String c s' => f c ++ flat_map_str f s'
  end.

Definition apostrophe : ascii := "039"%char.
Definition dquote : ascii := "034"%char.

(** [repr(s)] for a text: single quotes unless the text holds a single
    quote and no double quote. *)
Definition repr (s : string) : string :=
  let quote :=
    if (contains_char apostrophe s && negb (contains_char dquote s))%bool
    then dquote else apostrophe in
  String quote (flat_map_str (repr_char quote) s) ++ String quote "".

(** [repr(xs)] for a list of texts. *)
Definition repr_list (xs : list string) : string :=
  "[" ++ join ", " (map repr xs) ++ "]".

Fixpoint strip_prefix (p s : string) : option string :=
  match p, s with
  | EmptyString, _ => Some s
  | String a p', String b s' => if Ascii.eqb a b then strip_prefix p' s' else None
  | String _ _, EmptyString => None
  end.

Fixpoint count_char (c : ascii) (s : string) : nat :=
  match s with
  | EmptyString => 0%nat
  | String c' s' => ((if Ascii.eqb c c' then 1 else 0) + count_char c s')%nat
  end.

End PyStr.

Import PyStr.

(* ===================================================================== *)
(** ** Effects: events, exceptions and the monad [M] *)
(* ===================================================================== *)

(** A text stream the program writes to. *)
Inductive stream : Type :=
| Stdout
| Stderr
| Handle (n : nat).

Definition stream_eqb (a b : stream) : bool :=
  match a, b with
  | Stdout, Stdout | Stderr, Stderr => true
  | Handle n, Handle m => Nat.eqb n m
  | _, _ => false
  end.

(** The two kernel files. *)
Inductive procfile : Type := Sockstat | Netstat.

Inductive event : Type :=
| EvSetgid (gid : Z)
| EvSetuid (uid : Z)
| EvCloseStdin
| EvOpen (f : procfile)
| EvGetppid
| EvTime
| EvSeek (f : procfile)
| EvRead (f : procfile)
| EvPrint (s : stream) (text : string)
| EvFlush (s : stream)
| EvSleep.

Definition trace := list event.

(** [statsdikt]: logical section name to the token lists appended to it,
    in order of first appearance (an [OrderedDict]). *)
Definition statsdikt_t := list (string * list (list string)).

Inductive exn : Type :=
| IndexError
| AssertionError (context : statsdikt_t)
| ValueError (literal : string)
| TypeError
| AttributeError
| OSError
| SystemExit (code : Z).

Inductive result (A : Type) : Type :=
| Ok (a : A)
| Raise (e : exn).
Arguments Ok {A} a.
Arguments Raise {A} e.

(** The events performed, then the value or the exception. *)
Definition M (A : Type) : Type := trace * result A.

Definition ret {A} (a : A) : M A := ([], Ok a).
Definition raise {A} (e : exn) : M A := ([], Raise e).
Definition emit (e : event) : M unit := ([e], Ok tt).

Definition bind {A B} (m : M A) (f : A -> M B) : M B :=
  match m with
  | (t, Ok a) => let (t', r) := f a in ((t ++ t')%list, r)
  | (t, Raise e) => (t, Raise e)
  end.

Declare Scope py_scope.
Delimit Scope py_scope with py.
Notation "x <- m ;; k" := (bind m (fun x => k))
  (at level 61, m at next level, right associativity) : py_scope.
Notation "m ;; k" := (bind m (fun _ => k))
  (at level 61, right associativity) : py_scope.
Local Open Scope py_scope.

(** A [for] loop whose body threads an accumulator. *)
Fixpoint for_fold {A S} (body : A -> S -> M S) (xs : list A) (s : S) : M S :=
  match xs with
  | [] => ret s
  | x :: rest => s' <- body x s ;; for_fold body rest s'
  end.

(** A [for] loop run for its effects. *)
Fixpoint for_each {A} (body : A -> M unit) (xs : list A) : M unit :=
  match xs with
  | [] => ret tt
  | x :: rest => body x ;; for_each body rest
  end.

(** [print(text, file=s)]. *)
Definition print (text : string) (s : stream) : M unit := emit (EvPrint s text).

(** [x or default] for an optional stream argument. *)
Definition or_default (x : option stream) (d : stream) : stream :=
  match x with Some s => s | None => d end.

(* ===================================================================== *)
(** ** The sockstat grammar [REGEXP] *)
(* ===================================================================== *)

(** The fragment of regular expressions [REGEXP] is written in: literal
    text, [\d+] (a named group when [group] is given), and the optional
    non-capturing group [(?:...)?]. *)
#[local] Unset Elimination Schemes.
Inductive re_item : Type :=
| Lit (text : string)
| Digits (group : option string)
| Opt (body : list re_item).
#[local] Set Elimination Schemes.

Definition captures := list (string * string).

Definition capture (g : option string) (d : string) (c : captures) : captures :=
  match g with Some name => (name, d) :: c | None => c end.

(** [\d+], greedy: the longest run first, then shorter ones when the
    rest of the pattern does not match. *)
Fixpoint digits_bt {R} (s : string) (acc : string)
  (k : string -> string -> option R) : option R :=
  match s with
  | String c s' =>
      if is_digit c then
        match digits_bt s' (snoc acc c) k with
        | Some r => Some r
        | None => k (snoc acc c) s'
        end
      else None
  | EmptyString => None
  end.

(** A backtracking matcher in continuation style. *)
Fixpoint match_item (r : re_item) (s : string) (c : captures)
  (k : string -> captures -> option captures) {struct r} : option captures :=
  match r with
  | Lit text =>
      match strip_prefix text s with
      | Some s' => k s' c
      | None => None
      end
  | Digits g => digits_bt s "" (fun d s' => k s' (capture g d c))
  | Opt body =>
      let fix match_seq (rs : list re_item) (s : string) (c : captures)
            (k : string -> captures -> option captures) : option captures :=
        match rs with
        | [] => k s c
        | r' :: rs' => match_item r' s c (fun s' c' => match_seq rs' s' c' k)
        end in
      match match_seq body s c k with
      | Some c' => Some c'
      | None => k s c
      end
  end.

Fixpoint match_seq (rs : list re_item) (s : string) (c : captures)
  (k : string -> captures -> option captures) : option captures :=
  match rs with
  | [] => k s c
  | r :: rs' => match_item r s c (fun s' c' => match_seq rs' s' c' k)
  end.

(** [re.match(pattern, data)]: anchored at the start, the end is free. *)
Definition re_match (pattern : list re_item) (data : string) : option captures :=
  match_seq pattern data [] (fun _ c => Some c).

(** [m.group(name)]; [None] when the group took no part in the match. *)
Fixpoint group (m : captures) (name : string) : option string :=
  match m with
  | [] => None
  | (n, v) :: rest => if (n =? name)%string then Some v else group rest name
  end.

Definition REGEXP : list re_item :=
  [ Lit "sockets: used "; Digits None; Lit nl;
    Lit "TCP: inuse "; Digits (Some "tcp_inuse");
    Lit " orphan "; Digits (Some "orphans");
    Lit " tw "; Digits (Some "tw_count");
    Lit " alloc "; Digits (Some "tcp_sockets");
    Lit " mem "; Digits (Some "tcp_pages"); Lit nl;
    Lit "UDP: inuse "; Digits (Some "udp_inuse");
    Opt [ Lit " mem "; Digits (Some "udp_pages") ]; Lit nl;
    Opt [ Lit "UDPLITE: inuse "; Digits (Some "udplite_inuse"); Lit nl ];
    Lit "RAW: inuse "; Digits (Some "raw_inuse"); Lit nl;
    Lit "FRAG: inuse "; Digits (Some "ip_frag_nqueues");
    Lit " memory "; Digits (Some "ip_frag_mem"); Lit nl ].

(** The sockstat content of the specification's end-to-end example. *)
Definition sockstat_example : string :=
  "sockets: used 42" ++ nl ++
  "TCP: inuse 5 orphan 1 tw 2 alloc 5 mem 10" ++ nl ++
  "UDP: inuse 3" ++ nl ++
  "RAW: inuse 0" ++ nl ++
  "FRAG: inuse 0 memory 0" ++ nl.

(** A sockstat content of a current kernel, with the optional parts. *)
Definition sockstat_full : string :=
  "sockets: used 290" ++ nl ++
  "TCP: inuse 12 orphan 0 tw 7 alloc 15 mem 3" ++ nl ++
  "UDP: inuse 4 mem 2" ++ nl ++
  "UDPLITE: inuse 0" ++ nl ++
  "RAW: inuse 1" ++ nl ++
  "FRAG: inuse 0 memory 0" ++ nl.

(* ===================================================================== *)
(** ** The static tables *)
(* ===================================================================== *)

(** Lookup in an ordered table with text keys. *)
Fixpoint lookup {V} (table : list (string * V)) (key : string) : option V :=
  match table with
  | [] => None
  | (k, v) :: rest => if (k =? key)%string then Some v else lookup rest key
  end.

(** Raw section header to logical section name. *)
Definition known_netstatstypes : list (string * string) :=
  [ ("TcpExt:", "tcp");
    ("IpExt:", "ip");
    ("Ip:", "ip");
    ("Icmp:", "icmp");
    ("IcmpMsg:", "icmpmsg");
    ("Tcp:", "tcp");
    ("Udp:", "udp");
    ("UdpLite:", "udplite");
    ("Arista:", "arista") ].

(** Raw counter name to (metric name, tags); [None] is Python's [None]. *)
Definition known_netstats : list (string * (string * option string)) :=
  [ ("SyncookiesSent", ("syncookies", Some "type=sent"));
    ("SyncookiesRecv", ("syncookies", Some "type=received"));
    ("SyncookiesFailed", ("syncookies", Some "type=failed"));
    ("OfoPruned", ("memory.prune", Some "type=drop_ofo_queue"));
    ("RcvPruned", ("memory.prune", Some "type=drop_received"));
    ("DelayedACKs", ("delayedack", Some "type=sent"));
    ("DelayedACKLocked", ("delayedack", Some "type=locked"));
    ("DelayedACKLost", ("delayedack", Some "type=lost"));
    ("ListenOverflows", ("failed_accept", Some "reason=full_acceptq"));
    ("ListenDrops", ("failed_accept", Some "reason=other"));
    ("TCPRenoRecovery", ("packetloss.recovery", Some "type=fast_retransmit"));
    ("TCPSackRecovery", ("packetloss.recovery", Some "type=sack"));
    ("TCPFACKReorder", ("reording", Some "detectedby=fack"));
    ("TCPSACKReorder", ("reording", Some "detectedby=sack"));
    ("TCPRenoReorder", ("reording", Some "detectedby=fast_retransmit"));
    ("TCPTSReorder", ("reording", Some "detectedby=timestamp"));
    ("TCPFullUndo", ("congestion.recovery", Some "type=full_undo"));
    ("TCPPartialUndo", ("congestion.recovery", Some "type=hoe_heuristic"));
    ("TCPDSACKUndo", ("congestion.recovery", Some "type=sack"));
    ("TCPLossUndo", ("congestion.recovery", Some "type=ack"));
    ("TCPAbortOnSyn", ("abort", Some "type=unexpected_syn"));
    ("TCPAbortOnData", ("abort", Some "type=data_after_fin_wait1"));
    ("TCPAbortOnClose", ("abort", Some "type=data_after_close"));
    ("TCPAbortOnMemory", ("abort", Some "type=out_of_memory"));
    ("TCPAbortOnTimeout", ("abort", Some "type=timeout"));
    ("TCPAbortOnLinger", ("abort", Some "type=linger"));
    ("TCPAbortFailed", ("abort.failed", None));
    ("TCPMemoryPressures", ("memory.pressure", None));
    ("TCPSACKDiscard", ("invalid_sack", Some "type=invalid"));
    ("TCPDSACKIgnoredOld", ("invalid_sack", Some "type=retransmit"));
    ("TCPDSACKIgnoredNoUndo", ("invalid_sack", Some "type=olddup"));
    ("TCPBacklogDrop", ("receive.queue.full", None));
    ("OutRsts", ("resets", Some "direction=out"));
    ("InErrs", ("errors", Some "direction=in")) ].

(* ===================================================================== *)
(** ** Python values held by the per-section dict *)
(* ===================================================================== *)

(** A counter value: the raw token, or the integer that replaces
    [ListenDrops]. *)
Inductive pyval : Type :=
| PStr (s : string)
| PInt (z : Z).

(** [%s] of a value. *)
Definition str_of (v : pyval) : string :=
  match v with PStr s => s | PInt z => dec z end.

(** [int(v)]. *)
Definition py_int (v : pyval) : M Z :=
  match v with
  | PInt z => ret z
  | PStr s =>
      match int_of_str s with
      | Some z => ret z
      | None => raise (ValueError s)
      end
  end.

(** [int(m.group(name))]: [int(None)] is a [TypeError]. *)
Definition int_of_group (g : option string) : M Z :=
  match g with
  | Some s => py_int (PStr s)
  | None => raise TypeError
  end.

Definition dict_t := list (string * pyval).

(** [d[key] = v]. *)
Fixpoint dict_set (key : string) (v : pyval) (d : dict_t) : dict_t :=
  match d with
  | [] => [(key, v)]
  | (k, v') :: rest =>
      if (k =? key)%string then (k, v) :: rest else (k, v') :: dict_set key v rest
  end.

(** [dict(pairs)]: a later pair replaces an earlier one with its key. *)
Definition dict_of_pairs (pairs : list (string * string)) : dict_t :=
  fold_left (fun d kv => dict_set (fst kv) (PStr (snd kv)) d) pairs [].

(** [statsdikt.setdefault(key, []).append(line)]. *)
Fixpoint setdefault_append (key : string) (line : list string)
  (d : statsdikt_t) : statsdikt_t :=
  match d with
  | [] => [(key, [line])]
  | (k, ls) :: rest =>
      if (k =? key)%string then (k, (ls ++ [line])%list) :: rest
      else (k, ls) :: setdefault_append key line rest
  end.

(* ===================================================================== *)
(** ** [parse_and_print_metrics] *)
(* ===================================================================== *)

(** What one pass reads from its surroundings: [int(time.time())],
    [resource.getpagesize()] and the contents of the two files. *)
Record pass_env : Type := {
  clock : Z;
  page_size : Z;
  sockstat_content : string;
  netstat_content : string
}.

(** The inner function [print_sockstat]; its own [output_file_success]
    parameter defaults to [None], that is to [sys.stdout]. *)
Definition print_sockstat (ts : Z) (metric : string) (value : option pyval)
  (tags : string) (output_file_success : option stream) : M unit :=
  let output_file_success := or_default output_file_success Stdout in
  match value with
  | Some v =>
      print ("net.sockstat." ++ metric ++ " " ++ dec ts ++ " " ++ str_of v ++ tags)
            output_file_success
  | None => ret tt
  end.

(** The inner function [print_netstat]. *)
Definition print_netstat (ts : Z) (statstype metric : string) (value : pyval)
  (tags : option string) (output_file_success : option stream) : M unit :=
  let output_file_success := or_default output_file_success Stdout in
  let '(space, tags) :=
    match tags with
    | Some t => if (t =? "")%string then ("", "") else (" ", t)
    | None => ("", "")
    end in
  print ("net.stat." ++ statstype ++ "." ++ metric ++ " " ++ dec ts ++ " "
         ++ str_of value ++ space ++ tags)
        output_file_success.

Definition group_val (m : captures) (name : string) : option pyval :=
  option_map PStr (group m name).

(** The eleven [print_sockstat] calls that follow a successful match.
    [out] is the resolved success stream of the enclosing function; the
    call for [ip_frag_mem] passes no stream. *)
Definition print_sockstat_metrics (ts page : Z) (m : captures) (out : stream)
  : M unit :=
  print_sockstat ts "num_sockets" (group_val m "tcp_sockets") " type=tcp" (Some out) ;;
  print_sockstat ts "num_timewait" (group_val m "tw_count") "" (Some out) ;;
  print_sockstat ts "sockets_inuse" (group_val m "tcp_inuse") " type=tcp" (Some out) ;;
  print_sockstat ts "sockets_inuse" (group_val m "udp_inuse") " type=udp" (Some out) ;;
  print_sockstat ts "sockets_inuse" (group_val m "udplite_inuse") " type=udplite" (Some out) ;;
  print_sockstat ts "sockets_inuse" (group_val m "raw_inuse") " type=raw" (Some out) ;;
  print_sockstat ts "num_orphans" (group_val m "orphans") "" (Some out) ;;
  tcp_pages <- int_of_group (group m "tcp_pages") ;;
  print_sockstat ts "memory" (Some (PInt (tcp_pages * page))) " type=tcp" (Some out) ;;
  match group m "udp_pages" with
  | Some _ =>
      udp_pages <- int_of_group (group m "udp_pages") ;;
      print_sockstat ts "memory" (Some (PInt (udp_pages * page))) " type=udp" (Some out)
  | None => ret tt
  end ;;
  print_sockstat ts "memory" (group_val m "ip_frag_mem") " type=ipfrag" None ;;
  print_sockstat ts "ipfragqueues" (group_val m "ip_frag_nqueues") "" (Some out).

(** The body of [for line in stats.splitlines()]: [stats] is the raw
    netstat content, [d] the [statsdikt] built so far. *)
Definition netstat_line (stats : string) (err : stream) (text : string)
  (d : statsdikt_t) : M statsdikt_t :=
  match split text with
  | [] => raise IndexError
  | header :: rest =>
      if (header =? "MPTcpExt:")%string then ret d
      else
        match lookup known_netstatstypes header with
        | None =>
            print ("Unrecoginized line in /proc/net/netstat: "
                   ++ repr_list (header :: rest) ++ " (file=" ++ repr stats ++ ")")
                  err ;;
            ret d
        | Some section => ret (setdefault_append section rest d)
        end
  end.

(** The [ListenDrops] fix-up on the dict of one section. *)
Definition undo_double_counting (stats : dict_t) : M dict_t :=
  match lookup stats "ListenDrops" with
  | Some value =>
      drops <- py_int value ;;
      overflows <- py_int match lookup stats "ListenOverflows" with
                          | Some v => v
                          | None => PInt 0
                          end ;;
      ret (dict_set "ListenDrops" (PInt (drops - overflows)) stats)
  | None => ret stats
  end.

(** The body of [for stat, (metric, tags) in known_netstats.items()]. *)
Definition print_known (ts : Z) (statstype : string) (stats : dict_t)
  (out : stream) (entry : string * (string * option string)) : M unit :=
  let '(stat, (metric, tags)) := entry in
  match lookup stats stat with
  | Some value => print_netstat ts statstype metric value tags (Some out)
  | None => ret tt
  end.

(** The body of [for statstype, stats in statsdikt.items()]: the
    assertion [len(stats) == 2] carries [repr(statsdikt)], and
    [zip( *stats)] pairs the two token lists up to the shorter one. *)
Definition netstat_section (ts : Z) (out : stream) (statsdikt : statsdikt_t)
  (item : string * list (list string)) : M unit :=
  let '(statstype, lines) := item in
  match lines with
  | [names; values] =>
      stats <- undo_double_counting (dict_of_pairs (combine names values)) ;;
      for_each (print_known ts statstype stats out) known_netstats
  | _ => raise (AssertionError statsdikt)
  end.

(** The netstat half of the function, from the line loop to the end.
    The final [stats.clear()] is applied to whatever [stats] is bound
    to: the dict of the last section, or still the text that was read
    when no section was collected, and a text has no [clear]. *)
Definition parse_netstat (ts : Z) (stats : string) (out err : stream)
  : M (option Z) :=
  statsdikt <- for_fold (netstat_line stats err) (splitlines stats) [] ;;
  for_each (netstat_section ts out statsdikt) statsdikt ;;
  match statsdikt with
  | [] => raise AttributeError
  | _ :: _ => ret None
  end.

Definition parse_and_print_metrics (env : pass_env)
  (output_file_success output_file_error : option stream) : M (option Z) :=
  let output_file_success := or_default output_file_success Stdout in
  let output_file_error := or_default output_file_error Stderr in
  let page := page_size env in
  emit EvTime ;;
  let ts := clock env in
  emit (EvSeek Sockstat) ;;
  emit (EvSeek Netstat) ;;
  emit (EvRead Sockstat) ;;
  let data := sockstat_content env in
  emit (EvRead Netstat) ;;
  let stats := netstat_content env in
  match re_match REGEXP data with
  | None =>
      print ("Cannot parse sockstat: " ++ repr data) output_file_error ;;
      ret (Some 13)
  | Some m =>
      print_sockstat_metrics ts page m output_file_success ;;
      parse_netstat ts stats output_file_success output_file_error
  end.

(* ===================================================================== *)
(** ** [drop_privileges] and [main] *)
(* ===================================================================== *)

(** What start-up reads from its surroundings.  [pw_nobody] is the
    [(gid, uid)] of [pwd.getpwnam(USER)], [None] for [KeyError];
    [open_sockstat] and [open_netstat] give the text of the [IOError]
    when the [open] fails. *)
Record startup_env : Type := {
  pw_nobody : option (Z * Z);
  getuid : Z;
  setgid_ok : bool;
  setuid_ok : bool;
  open_sockstat : option string;
  open_netstat : option string
}.

Definition drop_privileges (st : startup_env) : M unit :=
  match pw_nobody st with
  | None => ret tt
  | Some (pw_gid, pw_uid) =>
      if negb (getuid st =? 0) then ret tt
      else
        emit (EvSetgid pw_gid) ;;
        (if setgid_ok st then ret tt else raise OSError) ;;
        emit (EvSetuid pw_uid) ;;
        (if setuid_ok st then ret tt else raise OSError)
  end.

(** How far [main] got: it returned a value, or it is still inside
    [while True] after the passes that were run. *)
Inductive progress : Type :=
| Returned (value : Z)
| Looping.

(** [while True] of [main], unrolled [fuel] times from pass [i];
    [ppid i] and [env i] are what pass [i] observes. *)
Fixpoint main_loop (ppid : nat -> Z) (env : nat -> pass_env)
  (fuel : nat) (i : nat) : M progress :=
  match fuel with
  | O => ret Looping
  | S fuel' =>
      emit EvGetppid ;;
      (if ppid i =? 1 then raise (SystemExit 1) else ret tt) ;;
      parse_and_print_metrics (env i) None None ;;
      emit (EvFlush Stdout) ;;
      emit EvSleep ;;
      main_loop ppid env fuel' (S i)
  end.

Definition open_failed (e : string) : M progress :=
  print ("Failed to open /proc/net/sockstat: " ++ e) Stderr ;;
  ret (Returned 13).

Definition main (st : startup_env) (ppid : nat -> Z) (env : nat -> pass_env)
  (fuel : nat) : M progress :=
  drop_privileges st ;;
  emit EvCloseStdin ;;
  emit (EvOpen Sockstat) ;;
  match open_sockstat st with
  | Some e => open_failed e
  | None =>
      emit (EvOpen Netstat) ;;
      match open_netstat st with
      | Some e => open_failed e
      | None => main_loop ppid env fuel 0
      end
  end.

(** The exit status of the process running [sys.exit(main())]: the value
    [main] returned, the code of a [SystemExit], and 1 for any other
    exception that nothing caught; [None] while the loop is running. *)
Definition exit_status (r : result progress) : option Z :=
  match r with
  | Ok (Returned value) => Some value
  | Ok Looping => None
  | Raise (SystemExit c) => Some c
  | Raise _ => Some 1
  end.

(* ===================================================================== *)
(** ** Observations on traces and on netstat contents *)
(* ===================================================================== *)

Definition events {A} (m : M A) : trace := fst m.
Definition outcome {A} (m : M A) : result A := snd m.

(** The number of lines one [print] of [text] adds to its stream. *)
Definition lines_of_print (text : string) : nat := S (count_char LF text).

(** The number of lines a trace writes to the stream [s]. *)
Fixpoint lines_written (s : stream) (t : trace) : nat :=
  match t with
  | [] => 0
  | EvPrint s' text :: t' =>
      ((if stream_eqb s s' then lines_of_print text else 0) + lines_written s t')%nat
  | _ :: t' => lines_written s t'
  end.

Definition starts_with (p text : string) : bool :=
  match strip_prefix p text with Some _ => true | None => false end.

(** [text] is a metric line stamped [ts]: its first field holds no
    blank, its second field is [ts] in decimal. *)
Definition stamped (ts : Z) (text : string) : Prop :=
  exists name rest,
    text = name ++ " " ++ dec ts ++ " " ++ rest /\
    contains_char " " name = false.

(** The text read backwards. *)
Fixpoint rev_string (s : string) : string :=
  match s with
  | EmptyString => ""
  | String c s' => rev_string s' ++ String c ""
  end.

(** [s] holds digits only. *)
Fixpoint all_digits (s : string) : bool :=
  match s with
  | EmptyString => true
  | String c s' => (is_digit c && all_digits s')%bool
  end.

(** The line [text] has [h] as its first token. *)
Definition has_header (h : string) (text : string) : bool :=
  match split text with
  | x :: _ => (x =? h)%string
  | [] => false
  end.

(** The number of lines of [lines] whose first token is [h]. *)
Definition count_header (h : string) (lines : list string) : nat :=
  length (filter (has_header h) lines).

(** The line [text] draws a warning: its first token is neither a known
    header nor the unsupported one. *)
Definition draws_warning (text : string) : bool :=
  match split text with
  | header :: _ =>
      (negb (header =? "MPTcpExt:")%string &&
       match lookup known_netstatstypes header with Some _ => false | None => true end)%bool
  | [] => false
  end.

(** The logical section the line loop files the line [text] under;
    [None] when the line is skipped or has no token. *)
Definition line_section (text : string) : option string :=
  match split text with
  | header :: _ =>
      if (header =? "MPTcpExt:")%string then None
      else lookup known_netstatstypes header
  | [] => None
  end.

Definition files_under (section : string) (text : string) : bool :=
  match line_section text with
  | Some s => (s =? section)%string
  | None => false
  end.

(** The number of lines of [lines] filed under [section]. *)
Definition count_section (section : string) (lines : list string) : nat :=
  length (filter (files_under section) lines).

(** The names in [statsdikt] are logical section names of the table. *)
Definition known_sections (d : statsdikt_t) : Prop :=
  Forall (fun kv => In (fst kv) (map snd known_netstatstypes)) d.

(** A captured group that is a non-empty run of digits. *)
Definition digit_capture (nv : string * string) : Prop :=
  all_digits (snd nv) = true /\ snd nv <> "".

(** A [print] of a metric line stamped [ts]. *)
Definition metric_event (ts : Z) (e : event) : Prop :=
  exists s text, e = EvPrint s text /\ stamped ts text /\
                 starts_with "net." text = true.

(** A [print] to [out] of a [net.stat] metric line stamped [ts]. *)
Definition netstat_event (ts : Z) (out : stream) (e : event) : Prop :=
  exists name rest,
    e = EvPrint out ("net.stat." ++ name ++ " " ++ dec ts ++ " " ++ rest) /\
    contains_char " " name = false.

(** A [print] of a text that is no metric line. *)
Definition diagnostic_event (e : event) : Prop :=
  exists s text, e = EvPrint s text /\ starts_with "net." text = false.

(** The exceptions a pass can end with. *)
Definition pass_exn (e : exn) : Prop :=
  match e with
  | IndexError | AssertionError _ | ValueError _ | AttributeError => True
  | TypeError | OSError | SystemExit _ => False
  end.

(** The warning of the line loop, written to [err]. *)
Definition warning_event (err : stream) (e : event) : Prop :=
  exists msg,
    e = EvPrint err ("Unrecoginized line in /proc/net/netstat: " ++ msg) /\
    count_char LF msg = 0%nat.

(** The token lists collected under a logical section, [[]] when the
    section is not in [statsdikt]. *)
Definition section_lines (d : statsdikt_t) (section : string) : list (list string) :=
  match lookup d section with Some ls => ls | None => [] end.

(** The four ways through the body of the line loop. *)
Inductive line_step (stats : string) (err : stream) (text : string)
  (d : statsdikt_t) : M statsdikt_t -> Prop :=
| step_no_token :
    split text = [] ->
    line_step stats err text d ([], Raise IndexError)
| step_unsupported rest :
    split text = "MPTcpExt:" :: rest ->
    line_step stats err text d ([], Ok d)
| step_unknown header rest :
    split text = header :: rest ->
    header <> "MPTcpExt:" ->
    lookup known_netstatstypes header = None ->
    line_step stats err text d
      ([EvPrint err ("Unrecoginized line in /proc/net/netstat: "
                     ++ repr_list (header :: rest) ++ " (file=" ++ repr stats ++ ")")],
       Ok d)
| step_known header rest section :
    split text = header :: rest ->
    lookup known_netstatstypes header = Some section ->
    line_step stats err text d ([], Ok (setdefault_append section rest d)).

(* ===================================================================== *)
(** ** Concrete surroundings used by the examples *)
(* ===================================================================== *)

(** The netstat content of the specification's [ListenDrops] example. *)
Definition netstat_listen : string :=
  "TcpExt: ListenOverflows ListenDrops" ++ nl ++
  "TcpExt: 3 10" ++ nl.

(** A section with a single line. *)
Definition netstat_lone_line : string := "TcpExt: ListenDrops" ++ nl.

(** A line without a token between two good lines. *)
Definition netstat_blank_line : string :=
  "TcpExt: ListenOverflows ListenDrops" ++ nl ++ nl ++ "TcpExt: 3 10" ++ nl.

(** [Tcp:] and [TcpExt:] together, after a [Udp:] section. *)
Definition netstat_aliased : string :=
  "Udp: InErrs" ++ nl ++ "Udp: 5" ++ nl ++
  "Tcp: OutRsts" ++ nl ++ "Tcp: 1" ++ nl ++
  "TcpExt: ListenDrops" ++ nl ++ "TcpExt: 4" ++ nl.

(** An unknown header and the unsupported one. *)
Definition netstat_unknown : string :=
  "Foo: a b" ++ nl ++ "MPTcpExt: x" ++ nl.

Definition pass_with (sockstat netstat : string) : pass_env :=
  {| clock := 1700000000; page_size := 4096;
     sockstat_content := sockstat; netstat_content := netstat |}.

(** A start-up that opens both files and has no [nobody] account. *)
Definition healthy_startup : startup_env :=
  {| pw_nobody := None; getuid := 1000; setgid_ok := true; setuid_ok := true;
     open_sockstat := None; open_netstat := None |}.

(** A start-up where [/proc/net/netstat] cannot be opened. *)
Definition startup_without_netstat : startup_env :=
  {| pw_nobody := Some (65534, 65534); getuid := 0;
     setgid_ok := true; setuid_ok := true;
     open_sockstat := None;
     open_netstat := Some "[Errno 2] No such file or directory: '/proc/net/netstat'" |}.

(** A parent that stays alive. *)
Definition live_parent : nat -> Z := fun _ => 4242.

(* ===================================================================== *)
(** ** The texts [REGEXP] accepts *)
(* ===================================================================== *)

(** The numbers of a sockstat content, as the digits the kernel wrote;
    [None] for a part the kernel version does not print. *)
Record sockstat_fields : Type := {
  f_used : string;
  f_tcp_inuse : string;
  f_orphans : string;
  f_tw_count : string;
  f_tcp_sockets : string;
  f_tcp_pages : string;
  f_udp_inuse : string;
  f_udp_pages : option string;
  f_udplite_inuse : option string;
  f_raw_inuse : string;
  f_ip_frag_nqueues : string;
  f_ip_frag_mem : string
}.

(** A non-empty run of digits. *)
Definition digits (d : string) : Prop := all_digits d = true /\ d <> "".

Definition digits_opt (d : option string) : Prop :=
  match d with Some d => digits d | None => True end.

Definition fields_ok (f : sockstat_fields) : Prop :=
  digits (f_used f) /\ digits (f_tcp_inuse f) /\ digits (f_orphans f) /\
  digits (f_tw_count f) /\ digits (f_tcp_sockets f) /\ digits (f_tcp_pages f) /\
  digits (f_udp_inuse f) /\ digits_opt (f_udp_pages f) /\
  digits_opt (f_udplite_inuse f) /\ digits (f_raw_inuse f) /\
  digits (f_ip_frag_nqueues f) /\ digits (f_ip_frag_mem f).

(** The content the pattern describes, line by line. *)
Definition sockstat_text (f : sockstat_fields) : string :=
  "sockets: used " ++ f_used f ++ nl ++
  "TCP: inuse " ++ f_tcp_inuse f ++ " orphan " ++ f_orphans f ++
  " tw " ++ f_tw_count f ++ " alloc " ++ f_tcp_sockets f ++
  " mem " ++ f_tcp_pages f ++ nl ++
  "UDP: inuse " ++ f_udp_inuse f ++
  match f_udp_pages f with Some p => " mem " ++ p | None => "" end ++ nl ++
  match f_udplite_inuse f with
  | Some u => "UDPLITE: inuse " ++ u ++ nl
  | None => ""
  end ++
  "RAW: inuse " ++ f_raw_inuse f ++ nl ++
  "FRAG: inuse " ++ f_ip_frag_nqueues f ++ " memory " ++ f_ip_frag_mem f ++ nl.

Definition capture_opt (name : string) (d : option string) : captures :=
  match d with Some d => [(name, d)] | None => [] end.

(** The groups of a match, the last one captured first. *)
Definition sockstat_captures (f : sockstat_fields) : captures :=
  ([("ip_frag_mem", f_ip_frag_mem f);
    ("ip_frag_nqueues", f_ip_frag_nqueues f);
    ("raw_inuse", f_raw_inuse f)] ++
   capture_opt "udplite_inuse" (f_udplite_inuse f) ++
   capture_opt "udp_pages" (f_udp_pages f) ++
   [("udp_inuse", f_udp_inuse f);
    ("tcp_pages", f_tcp_pages f);
    ("tcp_sockets", f_tcp_sockets f);
    ("tw_count", f_tw_count f);
    ("orphans", f_orphans f);
    ("tcp_inuse", f_tcp_inuse f)])%list.

(** The text does not go on with a digit. *)
Definition no_digit_ahead (s : string) : Prop :=
  match s with
  | String c _ => is_digit c = false
  | EmptyString => True
  end.

(** The fields of the specification's example and of a current kernel. *)
Definition fields_example : sockstat_fields :=
  {| f_used := "42"; f_tcp_inuse := "5"; f_orphans := "1"; f_tw_count := "2";
     f_tcp_sockets := "5"; f_tcp_pages := "10"; f_udp_inuse := "3";
     f_udp_pages := None; f_udplite_inuse := None; f_raw_inuse := "0";
     f_ip_frag_nqueues := "0"; f_ip_frag_mem := "0" |}.

Definition fields_full : sockstat_fields :=
  {| f_used := "290"; f_tcp_inuse := "12"; f_orphans := "0"; f_tw_count := "7";
     f_tcp_sockets := "15"; f_tcp_pages := "3"; f_udp_inuse := "4";
     f_udp_pages := Some "2"; f_udplite_inuse := Some "0"; f_raw_inuse := "1";
     f_ip_frag_nqueues := "0"; f_ip_frag_mem := "0" |}.

(** The number a run of digits denotes. *)
Fixpoint number_from (acc : Z) (s : string) : Z :=
  match s with
  | EmptyString => acc
  | String c s' => number_from (10 * acc + digit_val c) s'
  end.

Definition number (d : string) : Z := number_from 0 d.

(** The sockstat metric lines for the fields [f], in the order of the
    calls: [out] is the success stream of the pass; the [ipfrag] memory
    line is the one written to [sys.stdout]. *)
Definition sockstat_metric_events (ts page : Z) (f : sockstat_fields)
  (out : stream) : trace :=
  ([EvPrint out ("net.sockstat.num_sockets " ++ dec ts ++ " " ++ f_tcp_sockets f ++ " type=tcp");
    EvPrint out ("net.sockstat.num_timewait " ++ dec ts ++ " " ++ f_tw_count f);
    EvPrint out ("net.sockstat.sockets_inuse " ++ dec ts ++ " " ++ f_tcp_inuse f ++ " type=tcp");
    EvPrint out ("net.sockstat.sockets_inuse " ++ dec ts ++ " " ++ f_udp_inuse f ++ " type=udp")] ++
   match f_udplite_inuse f with
   | Some u =>
       [EvPrint out ("net.sockstat.sockets_inuse " ++ dec ts ++ " " ++ u ++ " type=udplite")]
   | None => []
   end ++
   [EvPrint out ("net.sockstat.sockets_inuse " ++ dec ts ++ " " ++ f_raw_inuse f ++ " type=raw");
    EvPrint out ("net.sockstat.num_orphans " ++ dec ts ++ " " ++ f_orphans f);
    EvPrint out ("net.sockstat.memory " ++ dec ts ++ " "
                 ++ dec (number (f_tcp_pages f) * page) ++ " type=tcp")] ++
   match f_udp_pages f with
   | Some p =>
       [EvPrint out ("net.sockstat.memory " ++ dec ts ++ " "
                     ++ dec (number p * page) ++ " type=udp")]
   | None => []
   end ++
   [EvPrint Stdout ("net.sockstat.memory " ++ dec ts ++ " " ++ f_ip_frag_mem f ++ " type=ipfrag");
    EvPrint out ("net.sockstat.ipfragqueues " ++ dec ts ++ " " ++ f_ip_frag_nqueues f)])%list.

(* ===================================================================== *)
(** ** Observations on sections and on the loop of [main] *)
(* ===================================================================== *)

(** [int(v)] returns. *)
Definition int_ok (v : pyval) : bool :=
  match v with
  | PInt _ => true
  | PStr s => match int_of_str s with Some _ => true | None => false end
  end.

(** The token lists of a section pass the assertion and the
    [ListenDrops] fix-up. *)
Definition section_ok (lines : list (list string)) : bool :=
  match lines with
  | [names; values] =>
      let stats := dict_of_pairs (combine names values) in
      match lookup stats "ListenDrops" with
      | Some value =>
          (int_ok value &&
           int_ok match lookup stats "ListenOverflows" with
                  | Some v => v
                  | None => PInt 0
                  end)%bool
      | None => true
      end
  | _ => false
  end.

(** The computation returned. *)
Definition returned {A} (r : result A) : bool :=
  match r with Ok _ => true | Raise _ => false end.

(** The events of the turn of [while True] that runs pass [i] to its
    end. *)
Definition turn_events (env : nat -> pass_env) (i : nat) : trace :=
  (EvGetppid :: events (parse_and_print_metrics (env i) None None)
   ++ [EvFlush Stdout; EvSleep])%list.

(** The events of [k] such turns from pass [i] on. *)
Fixpoint turns_events (env : nat -> pass_env) (k i : nat) : trace :=
  match k with
  | O => []
  | S k' => (turn_events env i ++ turns_events env k' (S i))%list
  end.

(** The number of events of a trace that satisfy [p]. *)
Definition count_events (p : event -> bool) (t : trace) : nat :=
  length (filter p t).

Definition is_open (e : event) : bool :=
  match e with EvOpen _ => true | _ => false end.
Definition is_seek (e : event) : bool :=
  match e with EvSeek _ => true | _ => false end.
Definition is_read (e : event) : bool :=
  match e with EvRead _ => true | _ => false end.
Definition is_time (e : event) : bool :=
  match e with EvTime => true | _ => false end.
Definition is_print (e : event) : bool :=
  match e with EvPrint _ _ => true | _ => false end.
Definition is_setid (e : event) : bool :=
  match e with EvSetgid _ | EvSetuid _ => true | _ => false end.

(** The value the last pair with the name [key] gives it. *)
Fixpoint last_value (key : string) (pairs : list (string * string)) : option string :=
  match pairs with
  | [] => None
  | (k, v) :: rest =>
      match last_value key rest with
      | Some v' => Some v'
      | None => if (k =? key)%string then Some v else None
      end
  end.

(** The tokens of a line after its header. *)
Definition counters_of (text : string) : list string := tl (split text).

(** The text holds no white space. *)
Fixpoint no_space (s : string) : bool :=
  match s with
  | EmptyString => true
  | String c s' => (negb (is_space c) && no_space s')%bool
  end.

(** A parent that dies after [k] checks. *)
Definition parent_dies_after (k : nat) : nat -> Z :=
  fun i => if Nat.ltb i k then 4242 else 1.

(** The tags as [print_netstat] appends them. *)
Definition tags_suffix (tags : option string) : string :=
  match tags with
  | Some t => if (t =? "")%string then "" else " " ++ t
  | None => ""
  end.

(** The fix-up and the printing of one section, from its dict on. *)
Definition print_section (ts : Z) (statstype : string) (out : stream)
  (stats : dict_t) : M unit :=
  stats <- undo_double_counting stats ;;
  for_each (print_known ts statstype stats out) known_netstats.

(** The lines of the counters of the table, each with the value of its
    last column, in the order of the table. *)
Definition counter_events (ts : Z) (statstype : string) (out : stream)
  (pairs : list (string * string)) : trace :=
  flat_map
    (fun entry : string * (string * option string) =>
       match last_value (fst entry) pairs with
       | Some v =>
           [EvPrint out ("net.stat." ++ statstype ++ "." ++ fst (snd entry) ++ " "
                         ++ dec ts ++ " " ++ v ++ tags_suffix (snd (snd entry)))]
       | None => []
       end)
    known_netstats.

(** A [print] of a text without a line feed writes one line; the other
    events write none. *)
Definition one_line (e : event) : bool :=
  match e with
  | EvPrint _ text => Nat.eqb (count_char LF text) 0
  | _ => true
  end.

(** The event is a [print] to the stream [s]. *)
Definition prints_to (s : stream) (e : event) : bool :=
  match e with
  | EvPrint s' _ => stream_eqb s s'
  | _ => false
  end.

(** Every token collected in [statsdikt] is free of white space. *)
Definition clean_tokens (d : statsdikt_t) : Prop :=
  Forall (fun kv => Forall (Forall (fun tok => no_space tok = true)) (snd kv)) d.

(** The values a section can print hold no line feed. *)
Definition one_line_values (stats : dict_t) : Prop :=
  forall key v, lookup stats key = Some v -> count_char LF (str_of v) = 0%nat.

(** [TcpExt:] with a [ListenDrops] that is no number, before a [Udp:]
    section of one line. *)
Definition netstat_bad_drops : string :=
  "TcpExt: ListenDrops" ++ nl ++ "TcpExt: x" ++ nl ++ "Udp: InErrs" ++ nl.

(** The event opens, seeks or reads a file, or reads the clock. *)
Definition file_event (e : event) : bool :=
  match e with
  | EvOpen _ | EvSeek _ | EvRead _ | EvTime => true
  | _ => false
  end.

(** What one pass does with the clock and the two files, in order. *)
Definition pass_file_events : trace :=
  [EvTime; EvSeek Sockstat; EvSeek Netstat; EvRead Sockstat; EvRead Netstat].

(** The same for [n] passes in a row. *)
Fixpoint passes_file_events (n : nat) : trace :=
  match n with
  | O => []
  | S n' => (pass_file_events ++ passes_file_events n')%list
  end.

(** The files [main] tries to open: sockstat first, netstat only when
    sockstat was opened, none when [drop_privileges] raised. *)
Definition opens_of (st : startup_env) : trace :=
  match outcome (drop_privileges st) with
  | Raise _ => []
  | Ok _ =>
      match open_sockstat st with
      | Some _ => [EvOpen Sockstat]
      | None => [EvOpen Sockstat; EvOpen Netstat]
      end
  end.

(** Both files were opened, so that [main] enters its loop. *)
Definition enters_loop (st : startup_env) : bool :=
  match outcome (drop_privileges st), open_sockstat st, open_netstat st with
  | Ok _, None, None => true
  | _, _, _ => false
  end.

(* ===================================================================== *)
(** ** Sanity checks of the embedding on concrete inputs *)
(* ===================================================================== *)

Example splitlines_ex :
  splitlines ("a" ++ nl ++ nl ++ "b c" ++ String CR nl) = ["a"; ""; "b c"].
Proof. reflexivity. Qed.

Example split_ex : split "  TcpExt:  3 10 " = ["TcpExt:"; "3"; "10"].
Proof. reflexivity. Qed.

Example split_blank : split "   " = [] /\ split "" = [].
Proof. split; reflexivity. Qed.

Example int_of_str_ex :
  int_of_str "10" = Some 10 /\ int_of_str "-7" = Some (-7) /\
  int_of_str "1_000" = Some 1000 /\ int_of_str "1__0" = None /\
  int_of_str "" = None /\ int_of_str "abc" = None /\ int_of_str "007" = Some 7.
Proof. repeat split; reflexivity. Qed.

Example dec_ex : dec 40960 = "40960" /\ dec 0 = "0" /\ dec (-3) = "-3".
Proof. repeat split; reflexivity. Qed.

Example repr_ex :
  repr ("a" ++ nl ++ "b") = "'a\nb'" /\ repr "it's" = String dquote ("it's" ++ String dquote "") /\
  repr_list ["Foo:"; "1"] = "['Foo:', '1']".
Proof. repeat split; reflexivity. Qed.

Example REGEXP_example :
  option_map (fun m => (group m "tcp_pages", group m "udp_inuse",
                        group m "udp_pages", group m "udplite_inuse"))
             (re_match REGEXP sockstat_example)
  = Some (Some "10", Some "3", None, None).
Proof. reflexivity. Qed.

Example REGEXP_full :
  option_map (fun m => (group m "tcp_pages", group m "udp_pages",
                        group m "udplite_inuse", group m "raw_inuse"))
             (re_match REGEXP sockstat_full)
  = Some (Some "3", Some "2", Some "0", Some "1").
Proof. reflexivity. Qed.

Example REGEXP_garbage : re_match REGEXP "garbage" = None.
Proof. reflexivity. Qed.

Example pass_example :
  parse_and_print_metrics (pass_with sockstat_full netstat_listen) None None =
  ([EvTime; EvSeek Sockstat; EvSeek Netstat; EvRead Sockstat; EvRead Netstat;
    EvPrint Stdout "net.sockstat.num_sockets 1700000000 15 type=tcp";
    EvPrint Stdout "net.sockstat.num_timewait 1700000000 7";
    EvPrint Stdout "net.sockstat.sockets_inuse 1700000000 12 type=tcp";
    EvPrint Stdout "net.sockstat.sockets_inuse 1700000000 4 type=udp";
    EvPrint Stdout "net.sockstat.sockets_inuse 1700000000 0 type=udplite";
    EvPrint Stdout "net.sockstat.sockets_inuse 1700000000 1 type=raw";
    EvPrint Stdout "net.sockstat.num_orphans 1700000000 0";
    EvPrint Stdout "net.sockstat.memory 1700000000 12288 type=tcp";
    EvPrint Stdout "net.sockstat.memory 1700000000 8192 type=udp";
    EvPrint Stdout "net.sockstat.memory 1700000000 0 type=ipfrag";
    EvPrint Stdout "net.sockstat.ipfragqueues 1700000000 0";
    EvPrint Stdout "net.stat.tcp.failed_accept 1700000000 3 reason=full_acceptq";
    EvPrint Stdout "net.stat.tcp.failed_accept 1700000000 7 reason=other"],
   Ok None).
Proof. reflexivity. Qed.

Example pass_unknown_headers :
  parse_netstat 1700000000 netstat_unknown Stdout Stderr =
  ([EvPrint Stderr
      "Unrecoginized line in /proc/net/netstat: ['Foo:', 'a', 'b'] (file='Foo: a b\nMPTcpExt: x\n')"],
   Raise AttributeError).
Proof. reflexivity. Qed.

Example main_two_passes :
  outcome (main healthy_startup live_parent
             (fun _ => pass_with sockstat_example netstat_listen) 2) = Ok Looping /\
  lines_written Stdout
    (events (main healthy_startup live_parent
               (fun _ => pass_with sockstat_example netstat_listen) 2)) = 22%nat.
Proof. split; reflexivity. Qed.

Example main_parent_died :
  main healthy_startup (fun i => if Nat.eqb i 1 then 1 else 4242)
       (fun _ => pass_with "garbage" netstat_listen) 5 =
  ([EvCloseStdin; EvOpen Sockstat; EvOpen Netstat; EvGetppid;
    EvTime; EvSeek Sockstat; EvSeek Netstat; EvRead Sockstat; EvRead Netstat;
    EvPrint Stderr "Cannot parse sockstat: 'garbage'";
    EvFlush Stdout; EvSleep; EvGetppid],
   Raise (SystemExit 1)).
Proof. reflexivity. Qed.

(* ===================================================================== *)
(** ** Laws of the monad and of the loops *)
(* ===================================================================== *)

Section MonadFacts.

Context {A B : Type}.

Lemma events_bind (m : M A) (f : A -> M B) :
  events (bind m f) =
  (events m ++ match outcome m with Ok a => events (f a) | Raise _ => [] end)%list.
Proof.
  destruct m as [t [a | e]]; simpl.
  - destruct (f a); reflexivity.
  - now rewrite app_nil_r.
Qed.

Lemma outcome_bind (m : M A) (f : A -> M B) :
  outcome (bind m f) =
  match outcome m with Ok a => outcome (f a) | Raise e => Raise e end.
Proof.
  destruct m as [t [a | e]]; simpl; [destruct (f a) |]; reflexivity.
Qed.

Lemma bind_ok (t : trace) (a : A) (f : A -> M B) :
  bind (t, Ok a) f = ((t ++ events (f a))%list, outcome (f a)).
Proof. simpl. destruct (f a); reflexivity. Qed.

Lemma bind_raise (t : trace) (e : exn) (f : A -> M B) :
  bind (t, Raise e) f = (t, Raise e).
Proof. reflexivity. Qed.

Lemma M_eta (m : M A) : m = (events m, outcome m).
Proof. now destruct m. Qed.

(** An invariant of every event passes through [bind]. *)
Lemma Forall_events_bind (P : event -> Prop) (m : M A) (f : A -> M B) :
  Forall P (events m) ->
  (forall a, outcome m = Ok a -> Forall P (events (f a))) ->
  Forall P (events (bind m f)).
Proof.
  intros Hm Hf. rewrite events_bind. apply Forall_app. split; [exact Hm |].
  destruct (outcome m) eqn:E; [now apply Hf | constructor].
Qed.

(** So does a bound on the exceptions raised. *)
Lemma raises_bind (Q : exn -> Prop) (m : M A) (f : A -> M B) :
  (forall e', outcome m = Raise e' -> Q e') ->
  (forall a e', outcome m = Ok a -> outcome (f a) = Raise e' -> Q e') ->
  forall e, outcome (bind m f) = Raise e -> Q e.
Proof.
  intros Hm Hf e. rewrite outcome_bind.
  destruct (outcome m) eqn:E; intros H.
  - now apply (Hf a).
  - apply Hm. congruence.
Qed.

End MonadFacts.

Section LoopFacts.

Context {A S : Type}.

Lemma for_each_app (body : A -> M unit) (xs ys : list A) :
  for_each body (xs ++ ys) = (for_each body xs ;; for_each body ys).
Proof.
  induction xs as [| x xs IH]; simpl.
  - destruct (for_each body ys) as [t r]. now destruct r as [[] |].
  - rewrite IH. destruct (body x) as [t [[] | e]]; [| reflexivity].
    rewrite !bind_ok. simpl.
    destruct (for_each body xs) as [t1 [[] | e1]]; simpl.
    + destruct (for_each body ys) as [t2 r2]; simpl. now rewrite app_assoc.
    + reflexivity.
Qed.

Lemma Forall_events_for_each (P : event -> Prop) (body : A -> M unit) xs :
  (forall x, In x xs -> Forall P (events (body x))) ->
  Forall P (events (for_each body xs)).
Proof.
  induction xs as [| x xs IH]; intros H; simpl; [constructor |].
  apply Forall_events_bind; [apply H; now left |].
  intros _ _. apply IH. intros y Hy. apply H. now right.
Qed.

Lemma raises_for_each (Q : exn -> Prop) (body : A -> M unit) xs :
  (forall x e', In x xs -> outcome (body x) = Raise e' -> Q e') ->
  forall e, outcome (for_each body xs) = Raise e -> Q e.
Proof.
  induction xs as [| x xs IH]; intros H e; simpl; [discriminate |].
  apply raises_bind.
  - intros e'. apply H. now left.
  - intros _ e' _. apply IH. intros y e'' Hy. apply H. now right.
Qed.

(** A loop whose bodies all return runs to its end. *)
Lemma for_each_returns (body : A -> M unit) xs :
  (forall x, In x xs -> outcome (body x) = Ok tt) ->
  outcome (for_each body xs) = Ok tt.
Proof.
  induction xs as [| x xs IH]; intros H; simpl; [reflexivity |].
  rewrite outcome_bind, (H x) by now left.
  apply IH. intros y Hy. apply H. now right.
Qed.

(** A loop stops at the first body that raises: what comes after it
    adds no event. *)
Lemma for_each_stops (body : A -> M unit) pre x post e :
  body x = ([], Raise e) ->
  events (for_each body (pre ++ x :: post)) = events (for_each body pre) /\
  exists e', outcome (for_each body (pre ++ x :: post)) = Raise e' /\
             (e' = e \/ outcome (for_each body pre) = Raise e').
Proof.
  intros Hx.
  assert (Hstop : for_each body (x :: post) = ([], Raise e))
    by (simpl; now rewrite Hx).
  rewrite for_each_app, Hstop.
  destruct (for_each body pre) as [t [[] | e1]]; simpl.
  - rewrite app_nil_r. split; [reflexivity |]. exists e. auto.
  - split; [reflexivity |]. exists e1. auto.
Qed.

Lemma Forall_events_for_fold (P : event -> Prop) (body : A -> S -> M S) xs s :
  (forall x s', In x xs -> Forall P (events (body x s'))) ->
  Forall P (events (for_fold body xs s)).
Proof.
  revert s. induction xs as [| x xs IH]; intros s H; simpl; [constructor |].
  apply Forall_events_bind; [apply H; now left |].
  intros s' _. apply IH. intros y s'' Hy. apply H. now right.
Qed.

Lemma raises_for_fold (Q : exn -> Prop) (body : A -> S -> M S) xs s :
  (forall x s' e', In x xs -> outcome (body x s') = Raise e' -> Q e') ->
  forall e, outcome (for_fold body xs s) = Raise e -> Q e.
Proof.
  revert s. induction xs as [| x xs IH]; intros s H e; simpl; [discriminate |].
  apply raises_bind.
  - intros e'. apply H. now left.
  - intros s' e' _. apply IH. intros y s'' e'' Hy. apply H. now right.
Qed.

End LoopFacts.

(* ===================================================================== *)
(** ** Facts about texts *)
(* ===================================================================== *)

Lemma append_assoc (a b c : string) : (a ++ b) ++ c = a ++ b ++ c.
Proof. induction a as [| x a IH]; simpl; [reflexivity | now rewrite IH]. Qed.

Lemma append_nil_r (a : string) : a ++ "" = a.
Proof. induction a as [| x a IH]; simpl; [reflexivity | now rewrite IH]. Qed.

Lemma contains_char_app c (a b : string) :
  contains_char c (a ++ b) = (contains_char c a || contains_char c b)%bool.
Proof.
  induction a as [| x a IH]; simpl; [reflexivity |].
  now rewrite IH, orb_assoc.
Qed.

Lemma count_char_app c (a b : string) :
  count_char c (a ++ b) = (count_char c a + count_char c b)%nat.
Proof.
  induction a as [| x a IH]; simpl; [reflexivity |].
  rewrite IH. lia.
Qed.

Lemma strip_prefix_app (p s : string) : strip_prefix p (p ++ s) = Some s.
Proof.
  induction p as [| x p IH]; simpl; [reflexivity |].
  now rewrite Ascii.eqb_refl.
Qed.

Lemma strip_prefix_inv (p s s' : string) :
  strip_prefix p s = Some s' -> s = p ++ s'.
Proof.
  revert s. induction p as [| x p IH]; intros s; simpl.
  - congruence.
  - destruct s as [| y s]; [discriminate |].
    destruct (Ascii.eqb_spec x y); [| discriminate].
    intros H. subst y. f_equal. now apply IH.
Qed.

(** A decimal numeral holds digits and at most a leading minus sign. *)
Lemma uint_no_blank d : contains_char " " (NilEmpty.string_of_uint d) = false.
Proof. induction d; simpl; auto. Qed.

Lemma dec_no_blank z : contains_char " " (dec z) = false.
Proof.
  unfold dec. destruct (Z.to_int z) as [d | d]; simpl.
  - destruct d; try apply (uint_no_blank (_ d)); reflexivity.
  - destruct d; try apply (uint_no_blank (_ d)); reflexivity.
Qed.

Lemma digit_not_space c : is_digit c = true -> is_space c = false.
Proof.
  destruct c as [[] [] [] [] [] [] [] []]; intros H;
    solve [reflexivity | discriminate H].
Qed.

Lemma all_digits_rstrip d : all_digits d = true -> rstrip d = d.
Proof.
  induction d as [| c d IH]; simpl; [reflexivity |].
  intros H. apply andb_prop in H as [Hc Hd].
  now rewrite (digit_not_space c Hc), (IH Hd).
Qed.

Lemma int_digits_total d :
  all_digits d = true ->
  forall acc after, d <> "" \/ after = true -> exists z, int_digits d acc after = Some z.
Proof.
  induction d as [| c d IH]; simpl; intros H acc after Hne.
  - destruct Hne as [Hne | ->]; [congruence | eauto].
  - apply andb_prop in H as [Hc Hd]. rewrite Hc. apply IH; auto.
Qed.

(** [int] accepts every non-empty run of digits: what [\d+] captured
    converts without a [ValueError]. *)
Lemma int_of_str_digits d :
  all_digits d = true -> d <> "" -> exists z, int_of_str d = Some z.
Proof.
  intros H Hne. destruct d as [| c d]; [congruence |].
  unfold int_of_str.
  assert (Hc : is_digit c = true) by (simpl in H; now apply andb_prop in H).
  replace (lstrip (String c d)) with (String c d)
    by (simpl; now rewrite (digit_not_space c Hc)).
  rewrite (all_digits_rstrip _ H).
  destruct (int_digits_total _ H 0 false) as [z Hz]; [left; congruence |].
  exists z. rewrite <- Hz.
  destruct c as [[] [] [] [] [] [] [] []]; try discriminate Hc; reflexivity.
Qed.

(** [\d+] consumes a non-empty run of digits and hands it to the rest of
    the pattern. *)
Lemma digits_bt_inv {R} s acc (k : string -> string -> option R) r :
  digits_bt s acc k = Some r ->
  exists d s', all_digits d = true /\ d <> "" /\ s = d ++ s' /\
               k (acc ++ d) s' = Some r.
Proof.
  revert acc. induction s as [| c s IH]; simpl; intros acc; [discriminate |].
  destruct (is_digit c) eqn:Hc; [| discriminate].
  destruct (digits_bt s (snoc acc c) k) eqn:Hrec.
  - intros [= <-]. apply IH in Hrec as (d & s' & Hd & _ & -> & Hk).
    exists (String c d), s'. simpl. rewrite Hc, Hd.
    repeat split; [congruence |].
    unfold snoc in Hk. now rewrite append_assoc in Hk.
  - intros Hk. exists (String c ""), s. simpl. rewrite Hc.
    repeat split; [congruence | exact Hk].
Qed.

(** [repr] escapes every line boundary: its result is one line. *)
Lemma repr_char_one_line q c :
  q = apostrophe \/ q = dquote -> count_char LF (repr_char q c) = 0%nat.
Proof.
  intros [-> | ->]; destruct c as [[] [] [] [] [] [] [] []]; reflexivity.
Qed.

Lemma flat_map_repr_one_line q s :
  q = apostrophe \/ q = dquote ->
  count_char LF (flat_map_str (repr_char q) s) = 0%nat.
Proof.
  intros Hq. induction s as [| c s IH]; simpl; [reflexivity |].
  now rewrite count_char_app, repr_char_one_line, IH.
Qed.

Lemma repr_one_line s : count_char LF (repr s) = 0%nat.
Proof.
  unfold repr.
  destruct (contains_char apostrophe s && negb (contains_char dquote s))%bool;
    simpl; rewrite count_char_app, flat_map_repr_one_line; auto.
Qed.

Lemma join_reprs_one_line xs : count_char LF (join ", " (map repr xs)) = 0%nat.
Proof.
  induction xs as [| x xs IH]; [reflexivity |].
  destruct xs as [| y ys]; [simpl; apply repr_one_line |].
  change (join ", " (map repr (x :: y :: ys)))
    with (repr x ++ ", " ++ join ", " (map repr (y :: ys))).
  now rewrite !count_char_app, repr_one_line, IH.
Qed.

Lemma repr_list_one_line xs : count_char LF (repr_list xs) = 0%nat.
Proof.
  unfold repr_list. simpl. now rewrite count_char_app, join_reprs_one_line.
Qed.

(* ===================================================================== *)
(** ** What a match of [REGEXP] captured *)
(* ===================================================================== *)

Lemma group_Forall (P : string * string -> Prop) m name d :
  Forall P m -> group m name = Some d -> exists n, P (n, d).
Proof.
  induction 1 as [| [n v] m Hnv _ IH]; simpl; [discriminate |].
  destruct (n =? name)%string; [intros [= <-]; eauto | exact IH].
Qed.

(** One step of reading a successful match backwards. *)
Ltac invert_match_step :=
  match goal with
  | H : None = Some _ |- _ => discriminate H
  | H : Some _ = Some _ |- _ => injection H as H; try subst
  | H : match strip_prefix ?p ?s with _ => _ end = Some _ |- _ =>
      let E := fresh "E" in
      destruct (strip_prefix p s) eqn:E; [clear E | discriminate H]
  | H : digits_bt _ _ _ = Some _ |- _ =>
      let d := fresh "d" in
      let Hd := fresh "Hd" in
      let Hn := fresh "Hn" in
      apply digits_bt_inv in H as (d & ? & Hd & Hn & _ & H); cbn [append] in H
  | H : match ?X with _ => _ end = Some _ |- _ =>
      let E := fresh "E" in destruct X eqn:E
  end.

(** Every group of a match is a non-empty run of digits, and
    [tcp_pages] took part in it. *)
Lemma REGEXP_captures data m :
  re_match REGEXP data = Some m ->
  Forall digit_capture m /\ exists d, group m "tcp_pages" = Some d.
Proof.
  unfold re_match, REGEXP. cbn [match_seq match_item capture]. intros H.
  repeat invert_match_step;
    (split; [repeat constructor; assumption | simpl; eauto]).
Qed.

Lemma REGEXP_group_digits data m name d :
  re_match REGEXP data = Some m -> group m name = Some d ->
  exists z, int_of_str d = Some z.
Proof.
  intros Hm Hg. apply REGEXP_captures in Hm as [Hall _].
  destruct (group_Forall _ _ _ _ Hall Hg) as (n & Hd & Hne).
  now apply int_of_str_digits.
Qed.

(* ===================================================================== *)
(** ** The sockstat metrics *)
(* ===================================================================== *)

Lemma outcome_ret {A} (a : A) : outcome (ret a) = Ok a.
Proof. reflexivity. Qed.

Lemma print_sockstat_returns ts metric value tags o :
  outcome (print_sockstat ts metric value tags o) = Ok tt.
Proof. unfold print_sockstat. now destruct value. Qed.

Lemma print_sockstat_events ts metric value tags o :
  contains_char " " metric = false ->
  Forall (metric_event ts) (events (print_sockstat ts metric value tags o)).
Proof.
  intros Hm. unfold print_sockstat. destruct value as [v |]; simpl; [| constructor].
  repeat constructor. eexists _, _. split; [reflexivity |]. split; [| reflexivity].
  exists ("net.sockstat." ++ metric), (str_of v ++ tags). split.
  - now rewrite append_assoc.
  - now rewrite contains_char_app, Hm.
Qed.

Lemma int_of_group_digits data m name d :
  re_match REGEXP data = Some m -> group m name = Some d ->
  exists z, int_of_group (group m name) = ret z.
Proof.
  intros Hm Hg. destruct (REGEXP_group_digits _ _ _ _ Hm Hg) as [z Hz].
  exists z. rewrite Hg. simpl. now rewrite Hz.
Qed.

(** After a match the sockstat metrics are printed to the end: no
    conversion of a captured group can fail. *)
Lemma print_sockstat_metrics_returns ts page data m out :
  re_match REGEXP data = Some m ->
  outcome (print_sockstat_metrics ts page m out) = Ok tt.
Proof.
  intros Hm. unfold print_sockstat_metrics.
  destruct (REGEXP_captures _ _ Hm) as [_ [d Hd]].
  destruct (int_of_group_digits _ _ _ _ Hm Hd) as [z ->].
  destruct (group m "udp_pages") as [u |] eqn:Hu.
  - destruct (int_of_group_digits _ _ _ _ Hm Hu) as [zu Hzu].
    rewrite Hu in Hzu. rewrite Hzu.
    repeat (rewrite outcome_bind;
            rewrite ?print_sockstat_returns, ?outcome_ret; cbv beta iota).
    reflexivity.
  - repeat (rewrite outcome_bind;
            rewrite ?print_sockstat_returns, ?outcome_ret; cbv beta iota).
    reflexivity.
Qed.

Lemma int_of_group_silent g : events (int_of_group g) = [].
Proof.
  destruct g as [s |]; simpl; [| reflexivity].
  now destruct (int_of_str s).
Qed.

(** Every event of the sockstat metrics is a metric line stamped with
    the timestamp of the pass. *)
Lemma print_sockstat_metrics_events ts page m out :
  Forall (metric_event ts) (events (print_sockstat_metrics ts page m out)).
Proof.
  unfold print_sockstat_metrics.
  repeat (apply Forall_events_bind;
          [first [ now apply print_sockstat_events
                 | rewrite int_of_group_silent; constructor ]
          | intros ? _ ]).
  apply Forall_events_bind.
  - destruct (group m "udp_pages"); [| constructor].
    apply Forall_events_bind;
      [rewrite int_of_group_silent; constructor | intros ? _].
    now apply print_sockstat_events.
  - intros _ _.
    apply Forall_events_bind; [| intros _ _]; now apply print_sockstat_events.
Qed.

(* ===================================================================== *)
(** ** The line loop over the netstat content *)
(* ===================================================================== *)

Lemma known_header_supported h section :
  lookup known_netstatstypes h = Some section -> (h =? "MPTcpExt:")%string = false.
Proof.
  intros H. destruct (String.eqb_spec h "MPTcpExt:") as [-> |]; [| reflexivity].
  discriminate H.
Qed.

Lemma netstat_line_step stats err text d :
  line_step stats err text d (netstat_line stats err text d).
Proof.
  unfold netstat_line.
  destruct (split text) as [| header rest] eqn:Hs; [now constructor |].
  destruct (String.eqb_spec header "MPTcpExt:") as [-> | Hne].
  - now apply step_unsupported with rest.
  - destruct (lookup known_netstatstypes header) as [section |] eqn:Hl.
    + now apply step_known with header.
    + now apply step_unknown.
Qed.

Lemma warning_one_line header rest stats :
  count_char LF (repr_list (header :: rest) ++ " (file=" ++ repr stats ++ ")") = 0%nat.
Proof.
  now rewrite !count_char_app, repr_list_one_line, repr_one_line.
Qed.

Lemma netstat_line_events stats err text d :
  Forall (warning_event err) (events (netstat_line stats err text d)).
Proof.
  destruct (netstat_line_step stats err text d); simpl; repeat constructor.
  eexists. split; [reflexivity | apply warning_one_line].
Qed.

Lemma netstat_line_raises stats err text d e :
  outcome (netstat_line stats err text d) = Raise e ->
  e = IndexError /\ split text = [].
Proof.
  destruct (netstat_line_step stats err text d); simpl; try discriminate.
  intros [= <-]. auto.
Qed.

Lemma netstat_line_returns stats err text d :
  split text <> [] -> exists d', outcome (netstat_line stats err text d) = Ok d'.
Proof.
  destruct (netstat_line_step stats err text d); simpl; eauto. congruence.
Qed.

(** The loop is stopped by its first line without a token, and by
    nothing else. *)
Lemma line_loop_raises stats err lines d e :
  outcome (for_fold (netstat_line stats err) lines d) = Raise e ->
  e = IndexError.
Proof.
  revert e.
  apply (raises_for_fold (fun e => e = IndexError)). intros x s' e' _ H.
  now apply netstat_line_raises in H.
Qed.

Lemma line_loop_no_token stats err lines :
  (exists text, In text lines /\ split text = []) ->
  forall d, outcome (for_fold (netstat_line stats err) lines d) = Raise IndexError.
Proof.
  intros (text & Hin & Hs).
  induction lines as [| x lines IH]; intros d; [destruct Hin |].
  simpl. rewrite outcome_bind.
  destruct (outcome (netstat_line stats err x d)) as [d' | e] eqn:Hx.
  - destruct Hin as [-> | Hin]; [| now apply IH].
    destruct (netstat_line_step stats err text d); simpl in Hx; congruence.
  - apply netstat_line_raises in Hx as [-> _]. reflexivity.
Qed.

Lemma line_loop_returns stats err lines :
  Forall (fun text => split text <> []) lines ->
  forall d, exists d', outcome (for_fold (netstat_line stats err) lines d) = Ok d'.
Proof.
  induction 1 as [| x lines Hx _ IH]; intros d; simpl; [eauto |].
  rewrite outcome_bind.
  destruct (netstat_line_returns stats err x d Hx) as [d' ->]. apply IH.
Qed.

Lemma line_loop_events stats err lines d :
  Forall (warning_event err) (events (for_fold (netstat_line stats err) lines d)).
Proof.
  apply Forall_events_for_fold. intros. apply netstat_line_events.
Qed.

(** [setdefault(...).append(...)] on the collected lines. *)
Lemma section_lines_setdefault key line d section :
  section_lines (setdefault_append key line d) section =
  if (key =? section)%string then (section_lines d section ++ [line])%list
  else section_lines d section.
Proof.
  unfold section_lines.
  induction d as [| [k ls] d IH]; simpl.
  - now destruct (key =? section)%string.
  - destruct (String.eqb_spec k key) as [-> | Hk]; simpl.
    + now destruct (key =? section)%string.
    + destruct (String.eqb_spec k section) as [-> | Hs].
      * destruct (String.eqb_spec key section); [congruence | reflexivity].
      * exact IH.
Qed.

Lemma netstat_line_files stats err text d d' section :
  outcome (netstat_line stats err text d) = Ok d' ->
  length (section_lines d' section) =
  (length (section_lines d section)
   + if files_under section text then 1 else 0)%nat.
Proof.
  unfold files_under, line_section.
  destruct (netstat_line_step stats err text d) as [Hs | rest Hs | h rest Hs Hne Hl | h rest sec Hs Hl];
    cbn [outcome snd]; try discriminate; intros [= <-]; rewrite Hs.
  - rewrite String.eqb_refl. lia.
  - apply String.eqb_neq in Hne. rewrite Hne, Hl. lia.
  - rewrite (known_header_supported _ _ Hl), Hl, section_lines_setdefault.
    destruct (sec =? section)%string; [rewrite length_app; simpl |]; lia.
Qed.

(** When the loop ends, each logical section holds one more token list
    for every line that was filed under it. *)
Lemma line_loop_files stats err lines section :
  forall d d',
  outcome (for_fold (netstat_line stats err) lines d) = Ok d' ->
  length (section_lines d' section) =
  (length (section_lines d section) + count_section section lines)%nat.
Proof.
  unfold count_section.
  induction lines as [| x lines IH]; intros d d'; simpl.
  - intros [= <-]. lia.
  - rewrite outcome_bind.
    destruct (outcome (netstat_line stats err x d)) as [d1 |] eqn:Hx; [| discriminate].
    intros H. rewrite (IH _ _ H), (netstat_line_files _ _ _ _ _ section Hx).
    destruct (files_under section x); simpl; lia.
Qed.

Lemma lookup_In {V} (table : list (string * V)) key v :
  lookup table key = Some v -> In (key, v) table.
Proof.
  induction table as [| [k v'] table IH]; simpl; [discriminate |].
  destruct (String.eqb_spec k key) as [-> |]; [intros [= ->]; now left | auto].
Qed.

Lemma setdefault_known key line d :
  In key (map snd known_netstatstypes) -> known_sections d ->
  known_sections (setdefault_append key line d).
Proof.
  intros Hk. unfold known_sections.
  induction 1 as [| [k ls] d Hx Hd IH]; cbn [setdefault_append].
  - constructor; [exact Hk | constructor].
  - destruct (k =? key)%string; constructor;
      solve [exact Hx | exact Hd | exact IH].
Qed.

Lemma line_loop_known stats err lines :
  forall d d', known_sections d ->
  outcome (for_fold (netstat_line stats err) lines d) = Ok d' ->
  known_sections d'.
Proof.
  induction lines as [| x lines IH]; intros d d' Hd; cbn [for_fold].
  - now intros [= <-].
  - rewrite outcome_bind.
    destruct (outcome (netstat_line stats err x d)) as [d1 |] eqn:Hx; [| discriminate].
    apply IH.
    destruct (netstat_line_step stats err x d) as [| | | h rest sec Hs Hl];
      cbn [outcome snd] in Hx; try discriminate; injection Hx as <-; auto.
    apply setdefault_known; [| assumption].
    apply lookup_In in Hl. now apply (in_map snd) in Hl.
Qed.

(** Two distinct headers of one logical section file their lines
    together. *)
Lemma has_header_files h section text :
  lookup known_netstatstypes h = Some section ->
  has_header h text = true -> files_under section text = true.
Proof.
  unfold has_header, files_under, line_section. intros Hl.
  destruct (split text) as [| x rest]; [discriminate |].
  intros Hx. apply String.eqb_eq in Hx. subst x.
  now rewrite (known_header_supported _ _ Hl), Hl, String.eqb_refl.
Qed.

Lemma has_header_exclusive h1 h2 text :
  h1 <> h2 -> has_header h1 text = true -> has_header h2 text = false.
Proof.
  unfold has_header. intros Hne.
  destruct (split text) as [| x rest]; [discriminate |].
  intros Hx. apply String.eqb_eq in Hx. subst x. now apply String.eqb_neq.
Qed.

Lemma count_aliased h1 h2 section lines :
  h1 <> h2 ->
  lookup known_netstatstypes h1 = Some section ->
  lookup known_netstatstypes h2 = Some section ->
  (count_header h1 lines + count_header h2 lines <= count_section section lines)%nat.
Proof.
  intros Hne H1 H2. unfold count_header, count_section.
  induction lines as [| x lines IH]; simpl; [lia |].
  destruct (has_header h1 x) eqn:E1.
  - rewrite (has_header_exclusive _ _ _ Hne E1), (has_header_files _ _ _ H1 E1).
    simpl. lia.
  - destruct (has_header h2 x) eqn:E2.
    + rewrite (has_header_files _ _ _ H2 E2). simpl. lia.
    + destruct (files_under section x); simpl; lia.
Qed.

(* ===================================================================== *)
(** ** The emission of one logical section *)
(* ===================================================================== *)

Lemma py_int_events v : events (py_int v) = [].
Proof. destruct v as [s | z]; simpl; [now destruct (int_of_str s) | reflexivity]. Qed.

Lemma py_int_raises v e : outcome (py_int v) = Raise e -> exists s, e = ValueError s.
Proof.
  destruct v as [s | z]; simpl; [| discriminate].
  destruct (int_of_str s); simpl; [discriminate | intros [= <-]; eauto].
Qed.

Lemma undo_double_counting_events stats : events (undo_double_counting stats) = [].
Proof.
  unfold undo_double_counting. destruct (lookup stats "ListenDrops"); [| reflexivity].
  rewrite events_bind, py_int_events.
  destruct (outcome (py_int p)); [| reflexivity].
  rewrite events_bind, py_int_events.
  now destruct (outcome (py_int _)).
Qed.

Lemma undo_double_counting_raises stats e :
  outcome (undo_double_counting stats) = Raise e -> exists s, e = ValueError s.
Proof.
  unfold undo_double_counting. destruct (lookup stats "ListenDrops"); [| discriminate].
  revert e. apply (raises_bind (fun e => exists s, e = ValueError s)).
  - apply py_int_raises.
  - intros drops e _. revert e.
    apply (raises_bind (fun e => exists s, e = ValueError s)).
    + apply py_int_raises.
    + discriminate.
Qed.

Lemma lookup_dict_set_same key v d : lookup (dict_set key v d) key = Some v.
Proof.
  induction d as [| [k v'] d IH]; simpl.
  - now rewrite String.eqb_refl.
  - destruct (k =? key)%string eqn:E; simpl; rewrite E; [reflexivity | exact IH].
Qed.

Lemma lookup_dict_set_other key v d k :
  key <> k -> lookup (dict_set key v d) k = lookup d k.
Proof.
  intros Hne. induction d as [| [k' v'] d IH]; simpl.
  - apply String.eqb_neq in Hne. now rewrite Hne.
  - destruct (String.eqb_spec k' key) as [-> | Hk]; simpl.
    + apply String.eqb_neq in Hne. now rewrite Hne.
    + now rewrite IH.
Qed.

(** The line [print_netstat] writes. *)
Lemma print_netstat_line ts statstype metric value tags out :
  exists tail,
    print_netstat ts statstype metric value tags (Some out) =
    ([EvPrint out ("net.stat." ++ statstype ++ "." ++ metric ++ " " ++ dec ts
                   ++ " " ++ str_of value ++ tail)], Ok tt).
Proof.
  unfold print_netstat. destruct tags as [t |].
  - destruct (t =? "")%string; [exists "" | exists (" " ++ t)]; reflexivity.
  - exists "". reflexivity.
Qed.

Lemma known_metrics_no_blank :
  Forall (fun entry => contains_char " " (fst (snd entry)) = false) known_netstats.
Proof. repeat constructor. Qed.

Lemma known_sections_no_blank :
  Forall (fun section => contains_char " " section = false)
         (map snd known_netstatstypes).
Proof. repeat constructor. Qed.

Lemma print_known_returns ts statstype stats out entry :
  outcome (print_known ts statstype stats out entry) = Ok tt.
Proof.
  destruct entry as [stat [metric tags]]. unfold print_known.
  destruct (lookup stats stat) as [v |]; [| reflexivity].
  now destruct (print_netstat_line ts statstype metric v tags out) as [tail ->].
Qed.

Lemma print_known_events ts statstype stats out entry :
  contains_char " " statstype = false ->
  In entry known_netstats ->
  Forall (netstat_event ts out) (events (print_known ts statstype stats out entry)).
Proof.
  intros Hs Hin.
  pose proof (proj1 (Forall_forall _ _) known_metrics_no_blank _ Hin) as Hm.
  destruct entry as [stat [metric tags]]. unfold print_known. simpl in Hm.
  destruct (lookup stats stat) as [v |]; [| constructor].
  destruct (print_netstat_line ts statstype metric v tags out) as [tail ->].
  repeat constructor.
  exists (statstype ++ "." ++ metric), (str_of v ++ tail). split.
  - now rewrite !append_assoc.
  - now rewrite !contains_char_app, Hs, Hm.
Qed.

Lemma for_each_ext {A} (f g : A -> M unit) xs :
  (forall x, In x xs -> f x = g x) -> for_each f xs = for_each g xs.
Proof.
  induction xs as [| x xs IH]; intros H; simpl; [reflexivity |].
  rewrite (H x) by now left.
  rewrite IH; [reflexivity |]. intros y Hy. apply H. now right.
Qed.

Lemma for_each_print_known_returns ts statstype stats out entries :
  outcome (for_each (print_known ts statstype stats out) entries) = Ok tt.
Proof. apply for_each_returns. intros. apply print_known_returns. Qed.

(** A section with a number of lines other than two fails the
    assertion before anything is printed for it. *)
Lemma netstat_section_assert ts out d statstype lines :
  length lines <> 2%nat ->
  netstat_section ts out d (statstype, lines) = ([], Raise (AssertionError d)).
Proof.
  intros H. unfold netstat_section.
  destruct lines as [| a [| b [| c rest]]]; try reflexivity.
  now contradiction H.
Qed.

Lemma netstat_section_raises ts out d item e :
  outcome (netstat_section ts out d item) = Raise e ->
  e = AssertionError d \/ exists s, e = ValueError s.
Proof.
  destruct item as [statstype lines]. unfold netstat_section.
  destruct lines as [| names [| values [| c rest]]];
    try (intros [= <-]; now left).
  rewrite outcome_bind.
  destruct (outcome (undo_double_counting _)) as [stats |] eqn:Hu.
  - now rewrite for_each_print_known_returns.
  - intros [= <-]. right. now apply undo_double_counting_raises in Hu.
Qed.

Lemma netstat_section_events ts out d item :
  contains_char " " (fst item) = false ->
  Forall (netstat_event ts out) (events (netstat_section ts out d item)).
Proof.
  destruct item as [statstype lines]. cbn [fst]. intros Hs. unfold netstat_section.
  destruct lines as [| names [| values [| c rest]]]; try (now constructor).
  apply Forall_events_bind.
  - rewrite undo_double_counting_events. constructor.
  - intros stats _. apply Forall_events_for_each.
    intros entry Hin. now apply print_known_events.
Qed.

Lemma known_sections_no_blank_in d item :
  known_sections d -> In item d -> contains_char " " (fst item) = false.
Proof.
  intros Hd Hin.
  pose proof (proj1 (Forall_forall _ _) Hd _ Hin) as Hk.
  exact (proj1 (Forall_forall _ _) known_sections_no_blank _ Hk).
Qed.

(* ===================================================================== *)
(** ** The netstat half, the whole pass and the loop of [main] *)
(* ===================================================================== *)

Lemma line_loop_from_empty_known stats err d :
  outcome (for_fold (netstat_line stats err) (splitlines stats) []) = Ok d ->
  known_sections d.
Proof. apply line_loop_known. constructor. Qed.

Lemma section_loop_raises ts out d items e :
  outcome (for_each (netstat_section ts out d) items) = Raise e ->
  e = AssertionError d \/ exists s, e = ValueError s.
Proof.
  revert e.
  apply (raises_for_each (fun e => e = AssertionError d \/ exists s, e = ValueError s)).
  intros x e _. apply netstat_section_raises.
Qed.

Lemma section_loop_events ts out d items :
  (forall item, In item items -> contains_char " " (fst item) = false) ->
  Forall (netstat_event ts out) (events (for_each (netstat_section ts out d) items)).
Proof.
  intros H. apply Forall_events_for_each.
  intros item Hin. apply netstat_section_events. now apply H.
Qed.

(** The events and the outcome of the netstat half in terms of its two
    loops. *)
Lemma parse_netstat_unfold ts stats out err :
  let loop := for_fold (netstat_line stats err) (splitlines stats) [] in
  events (parse_netstat ts stats out err) =
    (events loop ++
     match outcome loop with
     | Ok d => events (for_each (netstat_section ts out d) d)
     | Raise _ => []
     end)%list /\
  outcome (parse_netstat ts stats out err) =
    match outcome loop with
    | Ok d =>
        match outcome (for_each (netstat_section ts out d) d) with
        | Ok _ => match d with [] => Raise AttributeError | _ :: _ => Ok None end
        | Raise e => Raise e
        end
    | Raise e => Raise e
    end.
Proof.
  unfold parse_netstat. cbv zeta. rewrite events_bind, outcome_bind.
  destruct (outcome (for_fold _ _ _)) as [d | e]; [| split; reflexivity].
  rewrite events_bind, outcome_bind.
  destruct (outcome (for_each _ d)) as [[] | e].
  - split; [| now destruct d]. destruct d; simpl; now rewrite app_nil_r.
  - rewrite app_nil_r. split; reflexivity.
Qed.

Lemma parse_netstat_raises ts stats out err e :
  outcome (parse_netstat ts stats out err) = Raise e -> pass_exn e.
Proof.
  rewrite (proj2 (parse_netstat_unfold ts stats out err)).
  destruct (outcome (for_fold _ _ _)) as [d | e0] eqn:Hloop.
  - destruct (outcome (for_each _ d)) as [[] | e1] eqn:Hsec.
    + destruct d; intros [= <-]. exact I.
    + intros [= <-].
      apply section_loop_raises in Hsec as [-> | [s ->]]; exact I.
  - intros [= <-]. apply line_loop_raises in Hloop as ->. exact I.
Qed.

Lemma parse_netstat_events ts stats out err :
  Forall (fun e => netstat_event ts out e \/ warning_event err e)
         (events (parse_netstat ts stats out err)).
Proof.
  rewrite (proj1 (parse_netstat_unfold ts stats out err)).
  apply Forall_app. split.
  - eapply Forall_impl; [| apply line_loop_events]. intros e H. now right.
  - destruct (outcome (for_fold _ _ _)) as [d | e0] eqn:Hloop; [| constructor].
    eapply Forall_impl; [| apply section_loop_events].
    + intros e H. left. exact H.
    + intros item Hin.
      apply (known_sections_no_blank_in d); [| exact Hin].
      now apply (line_loop_from_empty_known stats err).
Qed.

(** The events of a whole pass. *)
Lemma pass_events env ofs ofe :
  events (parse_and_print_metrics env ofs ofe) =
  ([EvTime; EvSeek Sockstat; EvSeek Netstat; EvRead Sockstat; EvRead Netstat] ++
   match re_match REGEXP (sockstat_content env) with
   | None => [EvPrint (or_default ofe Stderr)
                ("Cannot parse sockstat: " ++ repr (sockstat_content env))]
   | Some m =>
       events (print_sockstat_metrics (clock env) (page_size env) m
                 (or_default ofs Stdout) ;;
               parse_netstat (clock env) (netstat_content env)
                 (or_default ofs Stdout) (or_default ofe Stderr))
   end)%list.
Proof.
  unfold parse_and_print_metrics. cbv zeta.
  destruct (re_match REGEXP (sockstat_content env)); [| reflexivity].
  destruct (_ ;; parse_netstat _ _ _ _) as [t r]. reflexivity.
Qed.

Lemma pass_outcome env ofs ofe :
  outcome (parse_and_print_metrics env ofs ofe) =
  match re_match REGEXP (sockstat_content env) with
  | None => Ok (Some 13)
  | Some m =>
      outcome (parse_netstat (clock env) (netstat_content env)
                 (or_default ofs Stdout) (or_default ofe Stderr))
  end.
Proof.
  unfold parse_and_print_metrics. cbv zeta.
  destruct (re_match REGEXP (sockstat_content env)) as [m |] eqn:Hm; [| reflexivity].
  pose proof (print_sockstat_metrics_returns (clock env) (page_size env) _ m
                (or_default ofs Stdout) Hm) as Hok.
  destruct (print_sockstat_metrics _ _ _ _) as [t1 [[] | e1]]; [| discriminate Hok].
  rewrite bind_ok. simpl. now destruct (parse_netstat _ _ _ _).
Qed.

Lemma pass_raises env ofs ofe e :
  outcome (parse_and_print_metrics env ofs ofe) = Raise e -> pass_exn e.
Proof.
  rewrite pass_outcome. destruct (re_match _ _); [| discriminate].
  apply parse_netstat_raises.
Qed.

Lemma pass_exn_exit e : pass_exn e -> exit_status (Raise e) = Some 1.
Proof. destruct e; simpl; intros H; solve [reflexivity | destruct H]. Qed.

(** One turn of [while True]. *)
Lemma main_loop_turn ppid env fuel i :
  main_loop ppid env (S fuel) i =
  (emit EvGetppid ;;
   (if ppid i =? 1 then raise (SystemExit 1) else ret tt) ;;
   parse_and_print_metrics (env i) None None ;;
   emit (EvFlush Stdout) ;;
   emit EvSleep ;;
   main_loop ppid env fuel (S i)).
Proof. reflexivity. Qed.

(** A pass that raises ends the process: nothing in [main] catches the
    exception, and nothing is done after it. *)
Lemma main_loop_pass_raises ppid env fuel i e :
  ppid i <> 1 ->
  outcome (parse_and_print_metrics (env i) None None) = Raise e ->
  main_loop ppid env (S fuel) i =
  (EvGetppid :: events (parse_and_print_metrics (env i) None None), Raise e).
Proof.
  intros Hp He. rewrite main_loop_turn.
  apply Z.eqb_neq in Hp. rewrite Hp.
  destruct (parse_and_print_metrics (env i) None None) as [t r].
  simpl in He. subst r. reflexivity.
Qed.

(** Whatever stops the loop, the exit status is 1. *)
Lemma main_loop_exit ppid env fuel :
  forall i c, exit_status (outcome (main_loop ppid env fuel i)) = Some c -> c = 1.
Proof.
  induction fuel as [| fuel IH]; intros i c; [discriminate |].
  rewrite main_loop_turn.
  destruct (ppid i =? 1); [now intros [= <-] |].
  rewrite !outcome_bind. cbn [emit ret outcome snd].
  destruct (outcome (parse_and_print_metrics (env i) None None)) as [v | e] eqn:Hp.
  - apply IH.
  - apply pass_raises, pass_exn_exit in Hp. rewrite Hp. now intros [= <-].
Qed.

Lemma drop_privileges_outcome st :
  outcome (drop_privileges st) = Ok tt \/ outcome (drop_privileges st) = Raise OSError.
Proof.
  unfold drop_privileges.
  destruct (pw_nobody st) as [[g u] |]; [| now left].
  destruct (negb (getuid st =? 0)); [now left |].
  destruct (setgid_ok st), (setuid_ok st); simpl; auto.
Qed.

(** When the section loop returns. *)
Lemma for_each_returns_inv {A} (body : A -> M unit) xs :
  outcome (for_each body xs) = Ok tt ->
  forall x, In x xs -> outcome (body x) = Ok tt.
Proof.
  induction xs as [| y xs IH]; simpl; intros H x Hin; [destruct Hin |].
  rewrite outcome_bind in H.
  destruct (outcome (body y)) as [[] |] eqn:Hy; [| discriminate].
  destruct Hin as [<- | Hin]; [exact Hy | now apply IH].
Qed.

Lemma py_int_returned v : returned (outcome (py_int v)) = int_ok v.
Proof. destruct v as [s | z]; simpl; [now destruct (int_of_str s) | reflexivity]. Qed.

Lemma undo_double_counting_returned stats :
  returned (outcome (undo_double_counting stats)) =
  match lookup stats "ListenDrops" with
  | Some value =>
      (int_ok value &&
       int_ok match lookup stats "ListenOverflows" with
              | Some v => v
              | None => PInt 0
              end)%bool
  | None => true
  end.
Proof.
  unfold undo_double_counting.
  destruct (lookup stats "ListenDrops") as [value |]; [| reflexivity].
  rewrite outcome_bind, <- !py_int_returned.
  destruct (outcome (py_int value)); [| reflexivity].
  rewrite outcome_bind. cbn [returned andb].
  now destruct (outcome (py_int _)).
Qed.

Lemma netstat_section_returns_iff ts out d statstype lines :
  outcome (netstat_section ts out d (statstype, lines)) = Ok tt <->
  section_ok lines = true.
Proof.
  unfold netstat_section, section_ok.
  destruct lines as [| names [| values [| c rest]]];
    try (split; discriminate).
  cbv zeta. rewrite <- undo_double_counting_returned, outcome_bind.
  destruct (outcome (undo_double_counting _)) as [stats' | e]; cbn [returned].
  - rewrite for_each_print_known_returns. split; reflexivity.
  - split; discriminate.
Qed.

Lemma section_loop_returns_iff ts out d items :
  outcome (for_each (netstat_section ts out d) items) = Ok tt <->
  forallb (fun item => section_ok (snd item)) items = true.
Proof.
  rewrite forallb_forall. split.
  - intros H [statstype lines] Hin.
    apply (for_each_returns_inv _ _ H) in Hin.
    now apply netstat_section_returns_iff in Hin.
  - intros H. apply for_each_returns. intros [statstype lines] Hin.
    apply netstat_section_returns_iff. exact (H _ Hin).
Qed.

(* ===================================================================== *)
(** ** Claims on the flow of failures *)
(* ===================================================================== *)

(** C1, as stated, fails: when the sockstat content does not match,
    the pass that would have printed the corrected [ListenDrops] of
    [netstat_listen] prints the diagnostic, returns 13 and emits no
    netstat metric. *)
Lemma sockstat_mismatch_skips_netstat :
  re_match REGEXP "garbage" = None /\
  In (EvPrint Stdout "net.stat.tcp.failed_accept 1700000000 7 reason=other")
     (events (parse_netstat 1700000000 netstat_listen Stdout Stderr)) /\
  parse_and_print_metrics (pass_with "garbage" netstat_listen) None None =
  ([EvTime; EvSeek Sockstat; EvSeek Netstat; EvRead Sockstat; EvRead Netstat;
    EvPrint Stderr "Cannot parse sockstat: 'garbage'"],
   Ok (Some 13)).
Proof.
  split; [reflexivity |]. split; [| reflexivity].
  vm_compute. auto.
Qed.

(** C1, amended: when the sockstat content does not match [REGEXP], the
    pass prints the raw content (its [repr]) to the error stream and
    returns 13 at once; it emits no metric and does not parse the
    netstat content. *)
Theorem sockstat_mismatch_returns_13 :
  forall env ofs ofe,
    re_match REGEXP (sockstat_content env) = None ->
    parse_and_print_metrics env ofs ofe =
    ([EvTime; EvSeek Sockstat; EvSeek Netstat; EvRead Sockstat; EvRead Netstat;
      EvPrint (or_default ofe Stderr)
              ("Cannot parse sockstat: " ++ repr (sockstat_content env))],
     Ok (Some 13)).
Proof.
  intros env ofs ofe Hm.
  rewrite (M_eta (parse_and_print_metrics env ofs ofe)).
  now rewrite pass_events, pass_outcome, Hm.
Qed.

Lemma sockstat_mismatch_returns_13_witness :
  parse_and_print_metrics (pass_with "garbage" netstat_listen) (Some (Handle 1)) None =
  ([EvTime; EvSeek Sockstat; EvSeek Netstat; EvRead Sockstat; EvRead Netstat;
    EvPrint Stderr ("Cannot parse sockstat: " ++ repr "garbage")],
   Ok (Some 13)).
Proof.
  apply (sockstat_mismatch_returns_13 (pass_with "garbage" netstat_listen)).
  reflexivity.
Defined.

(** C2, as stated, fails: with a [TcpExt:] section of one line the
    first pass raises the [AssertionError], [main] does not catch it,
    and the process ends with status 1 although three turns of the loop
    were allowed; no second pass is begun. *)
Lemma lone_line_ends_process :
  main healthy_startup live_parent
       (fun _ => pass_with sockstat_example netstat_lone_line) 3 =
  ([EvCloseStdin; EvOpen Sockstat; EvOpen Netstat; EvGetppid;
    EvTime; EvSeek Sockstat; EvSeek Netstat; EvRead Sockstat; EvRead Netstat;
    EvPrint Stdout "net.sockstat.num_sockets 1700000000 5 type=tcp";
    EvPrint Stdout "net.sockstat.num_timewait 1700000000 2";
    EvPrint Stdout "net.sockstat.sockets_inuse 1700000000 5 type=tcp";
    EvPrint Stdout "net.sockstat.sockets_inuse 1700000000 3 type=udp";
    EvPrint Stdout "net.sockstat.sockets_inuse 1700000000 0 type=raw";
    EvPrint Stdout "net.sockstat.num_orphans 1700000000 1";
    EvPrint Stdout "net.sockstat.memory 1700000000 40960 type=tcp";
    EvPrint Stdout "net.sockstat.memory 1700000000 0 type=ipfrag";
    EvPrint Stdout "net.sockstat.ipfragqueues 1700000000 0"],
   Raise (AssertionError [("tcp", [["ListenDrops"]])])) /\
  exit_status (Raise (AssertionError [("tcp", [["ListenDrops"]])])) = Some 1.
Proof. split; reflexivity. Qed.

(** The section loop over a [statsdikt] that holds a section with a
    number of lines other than two stops at that section at the latest:
    it raises what an earlier section raised, and the [AssertionError]
    when every earlier section returned. *)
Lemma section_loop_miscount ts out d pre section lines post :
  length lines <> 2%nat ->
  outcome (for_each (netstat_section ts out d) (pre ++ (section, lines) :: post)%list) =
  Raise match outcome (for_each (netstat_section ts out d) pre) with
        | Ok _ => AssertionError d
        | Raise earlier => earlier
        end.
Proof.
  intros Hlen.
  pose proof (netstat_section_assert ts out d section lines Hlen) as Hx.
  rewrite for_each_app, outcome_bind.
  destruct (outcome (for_each (netstat_section ts out d) pre)) as [[] | e];
    [| reflexivity].
  cbn [for_each]. rewrite outcome_bind, Hx. reflexivity.
Qed.

(** An earlier section can raise first: with a [ListenDrops] that is
    no number in the section seen first, the pass raises that
    [ValueError] and never reaches the assertion on the one-line [udp]
    section. *)
Example earlier_section_raises_first :
  for_fold (netstat_line netstat_bad_drops Stderr) (splitlines netstat_bad_drops) [] =
    ([], Ok [("tcp", [["ListenDrops"]; ["x"]]); ("udp", [["InErrs"]])]) /\
  outcome (parse_and_print_metrics (pass_with sockstat_example netstat_bad_drops)
             None None) = Raise (ValueError "x").
Proof. split; reflexivity. Qed.

(** C2, amended: in a pass whose sockstat content matches and whose
    line loop runs to its end, a logical section with a number of lines
    other than two makes the pass raise.  The exception is the
    [AssertionError] that carries [statsdikt], unless an earlier section
    raised first, which only the [ListenDrops] conversion does, with a
    [ValueError]: then it is that [ValueError].  It is the
    [AssertionError] whenever every earlier section has two lines and
    counters that [int] accepts.  [main] catches neither: the loop
    stops inside that pass and the process exits with status 1. *)
Theorem section_miscount_ends_process :
  forall ppid env fuel i t pre section lines post,
    ppid i <> 1 ->
    re_match REGEXP (sockstat_content (env i)) <> None ->
    for_fold (netstat_line (netstat_content (env i)) Stderr)
             (splitlines (netstat_content (env i))) [] =
      (t, Ok (pre ++ (section, lines) :: post)%list) ->
    length lines <> 2%nat ->
    exists e,
      e = match outcome (for_each (netstat_section (clock (env i)) Stdout
                                     (pre ++ (section, lines) :: post)%list) pre) with
          | Ok _ => AssertionError (pre ++ (section, lines) :: post)%list
          | Raise earlier => earlier
          end /\
      (e = AssertionError (pre ++ (section, lines) :: post)%list \/
       exists s,
         e = ValueError s /\
         outcome (for_each (netstat_section (clock (env i)) Stdout
                              (pre ++ (section, lines) :: post)%list) pre)
         = Raise (ValueError s)) /\
      (forallb (fun item => section_ok (snd item)) pre = true ->
       e = AssertionError (pre ++ (section, lines) :: post)%list) /\
      main_loop ppid env (S fuel) i =
        (EvGetppid :: events (parse_and_print_metrics (env i) None None), Raise e) /\
      exit_status (Raise e) = Some 1.
Proof.
  intros ppid env fuel i t pre section lines post Hp Hm Hloop Hlen.
  set (d := (pre ++ (section, lines) :: post)%list) in *.
  pose proof (section_loop_miscount (clock (env i)) Stdout d pre section lines post Hlen)
    as Hsec.
  fold d in Hsec.
  set (earlier := outcome (for_each (netstat_section (clock (env i)) Stdout d) pre)) in *.
  set (e := match earlier with Ok _ => AssertionError d | Raise x => x end) in *.
  assert (Hkind : e = AssertionError d \/
                  exists s, e = ValueError s /\ earlier = Raise (ValueError s)).
  { subst e. destruct earlier as [[] | x] eqn:He; [now left |].
    destruct (section_loop_raises _ _ _ _ _ He) as [-> | [s ->]]; [now left |].
    right. now exists s. }
  assert (Hpass : outcome (parse_and_print_metrics (env i) None None) = Raise e).
  { rewrite pass_outcome.
    destruct (re_match REGEXP (sockstat_content (env i))); [| congruence].
    rewrite (proj2 (parse_netstat_unfold _ _ _ _)). simpl or_default.
    rewrite Hloop. cbn [outcome snd]. fold d. now rewrite Hsec. }
  exists e. split; [reflexivity |]. split; [exact Hkind |]. split; [| split].
  - intros Hok. apply (section_loop_returns_iff (clock (env i)) Stdout d) in Hok.
    subst e earlier. now rewrite Hok.
  - now apply main_loop_pass_raises.
  - apply pass_exn_exit. now destruct Hkind as [-> | [s [-> _]]].
Qed.

Lemma section_miscount_ends_process_witness :
  exists e,
    e = AssertionError [("tcp", [["ListenDrops"]])] /\
    (e = AssertionError [("tcp", [["ListenDrops"]])] \/
     exists s,
       e = ValueError s /\
       outcome (for_each (netstat_section 1700000000 Stdout
                            [("tcp", [["ListenDrops"]])]) [])
       = Raise (ValueError s)) /\
    (forallb (fun item : string * list (list string) => section_ok (snd item)) []
     = true ->
     e = AssertionError [("tcp", [["ListenDrops"]])]) /\
    main_loop live_parent (fun _ => pass_with sockstat_example netstat_lone_line) 3 0 =
      (EvGetppid ::
         events (parse_and_print_metrics
                   (pass_with sockstat_example netstat_lone_line) None None),
       Raise e) /\
    exit_status (Raise e) = Some 1.
Proof.
  apply (section_miscount_ends_process live_parent
           (fun _ => pass_with sockstat_example netstat_lone_line) 2 0
           [] [] "tcp" [["ListenDrops"]] []).
  - discriminate.
  - discriminate.
  - reflexivity.
  - discriminate.
Defined.

(** C9, as stated, fails: the netstat content is parsed only in a pass
    whose sockstat content matches.  With a sockstat content that does
    not match, a netstat content with a line without a token is never
    split: each pass prints the diagnostic and returns 13, nothing is
    raised, and [main] is still in its loop after the two turns it was
    given. *)
Lemma tokenless_line_unread_after_mismatch :
  (exists text, In text (splitlines netstat_blank_line) /\ split text = []) /\
  re_match REGEXP "garbage" = None /\
  parse_and_print_metrics (pass_with "garbage" netstat_blank_line) None None =
    ([EvTime; EvSeek Sockstat; EvSeek Netstat; EvRead Sockstat; EvRead Netstat;
      EvPrint Stderr "Cannot parse sockstat: 'garbage'"],
     Ok (Some 13)) /\
  main healthy_startup live_parent
       (fun _ => pass_with "garbage" netstat_blank_line) 2 =
    ([EvCloseStdin; EvOpen Sockstat; EvOpen Netstat;
      EvGetppid;
      EvTime; EvSeek Sockstat; EvSeek Netstat; EvRead Sockstat; EvRead Netstat;
      EvPrint Stderr "Cannot parse sockstat: 'garbage'";
      EvFlush Stdout; EvSleep;
      EvGetppid;
      EvTime; EvSeek Sockstat; EvSeek Netstat; EvRead Sockstat; EvRead Netstat;
      EvPrint Stderr "Cannot parse sockstat: 'garbage'";
      EvFlush Stdout; EvSleep],
     Ok Looping) /\
  exit_status (Ok Looping) = None.
Proof.
  split; [exists ""; split; [right; left |]; reflexivity |].
  repeat split; reflexivity.
Qed.

(** C9, amended: a netstat content with a line without a token makes
    the netstat half raise [IndexError] at [line[0]]; in a pass whose
    sockstat content matches, the exception leaves
    [parse_and_print_metrics], [main] does not catch it, and the
    process ends with status 1. *)
Theorem tokenless_line_ends_process :
  forall ppid env fuel i,
    ppid i <> 1 ->
    re_match REGEXP (sockstat_content (env i)) <> None ->
    (exists text, In text (splitlines (netstat_content (env i))) /\ split text = []) ->
    (forall ts out err,
       outcome (parse_netstat ts (netstat_content (env i)) out err) = Raise IndexError) /\
    (forall ofs ofe,
       outcome (parse_and_print_metrics (env i) ofs ofe) = Raise IndexError) /\
    main_loop ppid env (S fuel) i =
      (EvGetppid :: events (parse_and_print_metrics (env i) None None),
       Raise IndexError) /\
    exit_status (outcome (main_loop ppid env (S fuel) i)) = Some 1.
Proof.
  intros ppid env fuel i Hp Hm Hblank.
  assert (Hnet : forall ts out err,
             outcome (parse_netstat ts (netstat_content (env i)) out err)
             = Raise IndexError).
  { intros ts out err. rewrite (proj2 (parse_netstat_unfold _ _ _ _)).
    now rewrite (line_loop_no_token _ err _ Hblank []). }
  assert (Hpass : forall ofs ofe,
             outcome (parse_and_print_metrics (env i) ofs ofe) = Raise IndexError).
  { intros ofs ofe. rewrite pass_outcome.
    destruct (re_match REGEXP (sockstat_content (env i))); [apply Hnet | congruence]. }
  pose proof (main_loop_pass_raises ppid env fuel i _ Hp (Hpass None None)) as Hmain.
  repeat split; auto. now rewrite Hmain.
Qed.

Lemma tokenless_line_ends_process_witness :
  (forall ts out err,
     outcome (parse_netstat ts netstat_blank_line out err) = Raise IndexError) /\
  (forall ofs ofe,
     outcome (parse_and_print_metrics
                (pass_with sockstat_example netstat_blank_line) ofs ofe)
     = Raise IndexError) /\
  main_loop live_parent (fun _ => pass_with sockstat_example netstat_blank_line) 2 0 =
    (EvGetppid ::
       events (parse_and_print_metrics
                 (pass_with sockstat_example netstat_blank_line) None None),
     Raise IndexError) /\
  exit_status (outcome (main_loop live_parent
                          (fun _ => pass_with sockstat_example netstat_blank_line) 2 0))
  = Some 1.
Proof.
  apply (tokenless_line_ends_process live_parent
           (fun _ => pass_with sockstat_example netstat_blank_line) 1 0).
  - discriminate.
  - discriminate.
  - exists "". split; [right; left |]; reflexivity.
Defined.

(** C10, as stated, fails: with [Tcp:] and [TcpExt:] both present the
    assertion does fail, but the [udp] section, first seen before
    [tcp], has been emitted by then. *)
Lemma aliased_headers_emit_earlier_section :
  count_header "Tcp:" (splitlines netstat_aliased) = 2%nat /\
  count_header "TcpExt:" (splitlines netstat_aliased) = 2%nat /\
  parse_netstat 1700000000 netstat_aliased Stdout Stderr =
  ([EvPrint Stdout "net.stat.udp.errors 1700000000 5 direction=in"],
   Raise (AssertionError
            [("udp", [["InErrs"]; ["5"]]);
             ("tcp", [["OutRsts"]; ["1"]; ["ListenDrops"]; ["4"]])])).
Proof. repeat split; reflexivity. Qed.

Lemma lookup_split {V} (table : list (string * V)) key v :
  lookup table key = Some v ->
  exists pre post, table = (pre ++ (key, v) :: post)%list /\ lookup pre key = None.
Proof.
  induction table as [| [k v'] table IH]; simpl; [discriminate |].
  destruct (String.eqb_spec k key) as [-> | Hk].
  - intros [= ->]. now exists [], table.
  - intros H. destruct (IH H) as (pre & post & -> & Hpre).
    exists ((k, v') :: pre), post. split; [reflexivity |].
    simpl. apply String.eqb_neq in Hk. now rewrite Hk.
Qed.

(** C10, amended: when the line loop runs to its end over a content
    with two lines for each of two raw headers of one logical section,
    that section holds at least four token lists and fails the
    two-lines assertion; the netstat half raises (this
    [AssertionError], unless an earlier section raised first) and
    prints nothing for that section or for a section first seen after
    it, while the sections first seen before it are emitted. *)
Theorem aliased_headers_fail_assertion :
  forall ts stats out err h1 h2 section t statsdikt,
    h1 <> h2 ->
    lookup known_netstatstypes h1 = Some section ->
    lookup known_netstatstypes h2 = Some section ->
    (2 <= count_header h1 (splitlines stats))%nat ->
    (2 <= count_header h2 (splitlines stats))%nat ->
    for_fold (netstat_line stats err) (splitlines stats) [] = (t, Ok statsdikt) ->
    exists pre lines post,
      statsdikt = (pre ++ (section, lines) :: post)%list /\
      lookup pre section = None /\
      (4 <= length lines)%nat /\
      netstat_section ts out statsdikt (section, lines)
        = ([], Raise (AssertionError statsdikt)) /\
      events (parse_netstat ts stats out err)
        = (t ++ events (for_each (netstat_section ts out statsdikt) pre))%list /\
      exists e, outcome (parse_netstat ts stats out err) = Raise e /\
                (e = AssertionError statsdikt \/ exists s, e = ValueError s).
Proof.
  intros ts stats out err h1 h2 section t d Hne H1 H2 Hc1 Hc2 Hloop.
  assert (Hlen : (4 <= length (section_lines d section))%nat).
  { assert (Ho : outcome (for_fold (netstat_line stats err) (splitlines stats) [])
                 = Ok d) by now rewrite Hloop.
    rewrite (line_loop_files _ _ _ section _ _ Ho).
    pose proof (count_aliased h1 h2 section (splitlines stats) Hne H1 H2). lia. }
  unfold section_lines in Hlen.
  destruct (lookup d section) as [lines |] eqn:Hl; [| simpl in Hlen; lia].
  destruct (lookup_split _ _ _ Hl) as (pre & post & Hd & Hpre).
  assert (Hx : netstat_section ts out d (section, lines)
               = ([], Raise (AssertionError d)))
    by (apply netstat_section_assert; lia).
  destruct (for_each_stops (netstat_section ts out d) pre _ post _ Hx)
    as [Hev (e & He & Hcase)].
  rewrite <- Hd in Hev, He.
  exists pre, lines, post. repeat split; auto.
  - rewrite (proj1 (parse_netstat_unfold _ _ _ _)), Hloop.
    cbn [events outcome fst snd]. now rewrite Hev.
  - exists e. split.
    + rewrite (proj2 (parse_netstat_unfold _ _ _ _)), Hloop.
      cbn [outcome snd]. now rewrite He.
    + destruct Hcase as [-> | Hp]; [now left |].
      now apply section_loop_raises in Hp.
Qed.

Lemma aliased_headers_fail_assertion_witness :
  exists pre lines post,
    [("udp", [["InErrs"]; ["5"]]);
     ("tcp", [["OutRsts"]; ["1"]; ["ListenDrops"]; ["4"]])]
      = (pre ++ ("tcp", lines) :: post)%list /\
    lookup pre "tcp" = None /\
    (4 <= length lines)%nat /\
    netstat_section 1700000000 Stdout
        [("udp", [["InErrs"]; ["5"]]);
         ("tcp", [["OutRsts"]; ["1"]; ["ListenDrops"]; ["4"]])] ("tcp", lines)
      = ([], Raise (AssertionError
                      [("udp", [["InErrs"]; ["5"]]);
                       ("tcp", [["OutRsts"]; ["1"]; ["ListenDrops"]; ["4"]])])) /\
    events (parse_netstat 1700000000 netstat_aliased Stdout Stderr)
      = ([] ++ events (for_each
                         (netstat_section 1700000000 Stdout
                            [("udp", [["InErrs"]; ["5"]]);
                             ("tcp", [["OutRsts"]; ["1"]; ["ListenDrops"]; ["4"]])])
                         pre))%list /\
    exists e, outcome (parse_netstat 1700000000 netstat_aliased Stdout Stderr) = Raise e /\
              (e = AssertionError
                     [("udp", [["InErrs"]; ["5"]]);
                      ("tcp", [["OutRsts"]; ["1"]; ["ListenDrops"]; ["4"]])]
               \/ exists s, e = ValueError s).
Proof.
  apply (aliased_headers_fail_assertion 1700000000 netstat_aliased Stdout Stderr
           "Tcp:" "TcpExt:" "tcp").
  - discriminate.
  - reflexivity.
  - reflexivity.
  - vm_compute. lia.
  - vm_compute. lia.
  - reflexivity.
Defined.

Lemma drop_privileges_events st :
  Forall (fun e => exists n, e = EvSetgid n \/ e = EvSetuid n)
         (events (drop_privileges st)).
Proof.
  unfold drop_privileges.
  destruct (pw_nobody st) as [[g u] |]; [| constructor].
  destruct (negb (getuid st =? 0)); [constructor |].
  destruct (setgid_ok st), (setuid_ok st); simpl; repeat constructor; eauto.
Qed.

(** What [main] does after [drop_privileges] has returned. *)
Lemma main_after_drop st ppid env fuel :
  outcome (drop_privileges st) = Ok tt ->
  main st ppid env fuel =
  match open_sockstat st, open_netstat st with
  | Some e, _ =>
      ((events (drop_privileges st) ++
        [EvCloseStdin; EvOpen Sockstat;
         EvPrint Stderr ("Failed to open /proc/net/sockstat: " ++ e)])%list,
       Ok (Returned 13))
  | None, Some e =>
      ((events (drop_privileges st) ++
        [EvCloseStdin; EvOpen Sockstat; EvOpen Netstat;
         EvPrint Stderr ("Failed to open /proc/net/sockstat: " ++ e)])%list,
       Ok (Returned 13))
  | None, None =>
      ((events (drop_privileges st) ++
        [EvCloseStdin; EvOpen Sockstat; EvOpen Netstat] ++
        events (main_loop ppid env fuel 0))%list,
       outcome (main_loop ppid env fuel 0))
  end.
Proof.
  intros Hdp. unfold main.
  rewrite (M_eta (drop_privileges st)), Hdp, bind_ok.
  destruct (open_sockstat st) as [e |]; [reflexivity |].
  destruct (open_netstat st) as [e |]; [reflexivity |].
  simpl. now destruct (main_loop ppid env fuel 0).
Qed.

Lemma main_drop_raises st ppid env fuel :
  outcome (drop_privileges st) = Raise OSError ->
  outcome (main st ppid env fuel) = Raise OSError.
Proof.
  intros Hdp. unfold main.
  now rewrite (M_eta (drop_privileges st)), Hdp, bind_raise.
Qed.

(** C7: when [drop_privileges] has returned and either [open] fails,
    [main] returns 13 before the loop is entered, so the process exits
    with status 13; every exit on another path -- the parent has died,
    a pass raised, [drop_privileges] raised -- has status 1. *)
Theorem open_failure_exits_13 :
  (forall st ppid env fuel,
     outcome (drop_privileges st) = Ok tt ->
     open_sockstat st <> None \/ open_netstat st <> None ->
     exit_status (outcome (main st ppid env fuel)) = Some 13 /\
     ~ In EvGetppid (events (main st ppid env fuel))) /\
  (forall st ppid env fuel c,
     outcome (drop_privileges st) <> Ok tt \/
     (open_sockstat st = None /\ open_netstat st = None) ->
     exit_status (outcome (main st ppid env fuel)) = Some c ->
     c = 1) /\
  13 <> 1.
Proof.
  split; [| split; [| discriminate]].
  - intros st ppid env fuel Hdp Hopen.
    assert (Hquiet : forall tail,
               ~ In EvGetppid tail ->
               ~ In EvGetppid (events (drop_privileges st) ++ tail)%list).
    { intros tail Htail Hin. apply in_app_or in Hin as [Hin | Hin]; [| auto].
      pose proof (proj1 (Forall_forall _ _) (drop_privileges_events st) _ Hin)
        as [n [Hn | Hn]]; discriminate Hn. }
    rewrite (main_after_drop _ _ _ _ Hdp).
    destruct (open_sockstat st) as [e |]; [| destruct (open_netstat st) as [e |]].
    + split; [reflexivity |]. apply Hquiet. simpl. intuition discriminate.
    + split; [reflexivity |]. apply Hquiet. simpl. intuition discriminate.
    + destruct Hopen; congruence.
  - intros st ppid env fuel c Hcase.
    destruct (drop_privileges_outcome st) as [Hdp | Hdp].
    + destruct Hcase as [Hno | [Hs Hn]]; [congruence |].
      rewrite (main_after_drop _ _ _ _ Hdp), Hs, Hn. apply main_loop_exit.
    + rewrite (main_drop_raises _ _ _ _ Hdp). now intros [= <-].
Qed.

Lemma open_failure_exits_13_witness :
  exit_status (outcome (main startup_without_netstat live_parent
                          (fun _ => pass_with sockstat_example netstat_listen) 5))
  = Some 13 /\
  ~ In EvGetppid (events (main startup_without_netstat live_parent
                            (fun _ => pass_with sockstat_example netstat_listen) 5)).
Proof.
  apply (proj1 open_failure_exits_13 startup_without_netstat).
  - reflexivity.
  - right. discriminate.
Defined.

(* ===================================================================== *)
(** ** Claims on what is printed, and where *)
(* ===================================================================== *)

Lemma stream_eqb_refl s : stream_eqb s s = true.
Proof. destruct s; simpl; auto using Nat.eqb_refl. Qed.

Lemma stream_eqb_neq a b : a <> b -> stream_eqb a b = false.
Proof.
  destruct a, b; simpl; try congruence. intros H.
  apply Nat.eqb_neq. congruence.
Qed.



Lemma lines_written_app s (t1 t2 : trace) :
  lines_written s (t1 ++ t2)%list = (lines_written s t1 + lines_written s t2)%nat.
Proof.
  induction t1 as [| e t1 IH]; simpl; [reflexivity |].
  destruct e; try exact IH. rewrite IH. lia.
Qed.

Lemma netstat_line_warnings stats err text d :
  lines_written err (events (netstat_line stats err text d)) =
    (if draws_warning text then 1 else 0)%nat /\
  forall out, out <> err ->
    lines_written out (events (netstat_line stats err text d)) = 0%nat.
Proof.
  unfold draws_warning.
  destruct (netstat_line_step stats err text d)
    as [Hs | rest Hs | h rest Hs Hne Hl | h rest sec Hs Hl];
    rewrite Hs; cbn [events fst lines_written].
  - auto.
  - rewrite String.eqb_refl. auto.
  - apply String.eqb_neq in Hne. rewrite Hne, Hl, stream_eqb_refl.
    unfold lines_of_print. rewrite count_char_app, warning_one_line. split.
    + reflexivity.
    + intros out Hout. now rewrite (stream_eqb_neq _ _ Hout).
  - rewrite Hl. destruct (negb _); auto.
Qed.

(** Over the whole line loop: one line on the error stream for each
    line that draws a warning, up to the line that stops the loop, and
    nothing on any other stream. *)
Lemma line_loop_warnings stats err lines :
  forall d d',
    outcome (for_fold (netstat_line stats err) lines d) = Ok d' ->
    lines_written err (events (for_fold (netstat_line stats err) lines d)) =
      length (filter draws_warning lines) /\
    forall out, out <> err ->
      lines_written out (events (for_fold (netstat_line stats err) lines d)) = 0%nat.
Proof.
  induction lines as [| x lines IH]; intros d d'; cbn [for_fold].
  - intros _. split; [reflexivity | auto].
  - rewrite outcome_bind, events_bind.
    destruct (outcome (netstat_line stats err x d)) as [d1 |] eqn:Hx; [| discriminate].
    intros H. destruct (IH _ _ H) as [Herr Hout].
    destruct (netstat_line_warnings stats err x d) as [Hxe Hxo].
    split.
    + rewrite lines_written_app, Hxe, Herr. cbn [filter].
      now destruct (draws_warning x).
    + intros out Hne. now rewrite lines_written_app, (Hxo out Hne), (Hout out Hne).
Qed.

Lemma bind_ret_l {A B} (a : A) (f : A -> M B) : bind (ret a) f = f a.
Proof. unfold ret, bind. now destruct (f a). Qed.

Lemma print_known_other ts statstype stats v out entry :
  fst entry <> "ListenDrops" ->
  print_known ts statstype (dict_set "ListenDrops" v stats) out entry =
  print_known ts statstype stats out entry.
Proof.
  destruct entry as [stat [metric tags]]. cbn [fst]. intros Hne.
  unfold print_known. rewrite lookup_dict_set_other; [reflexivity | congruence].
Qed.

Lemma for_each_print_known_other ts statstype stats v out entries :
  Forall (fun entry => fst entry <> "ListenDrops") entries ->
  for_each (print_known ts statstype (dict_set "ListenDrops" v stats) out) entries =
  for_each (print_known ts statstype stats out) entries.
Proof.
  intros H. apply for_each_ext. intros entry Hin.
  apply print_known_other. exact (proj1 (Forall_forall _ _) H _ Hin).
Qed.

(** C3: in a section of two lines that holds [ListenDrops], the line
    printed for it carries [int(ListenDrops) - int(ListenOverflows)]
    (0 for a missing [ListenOverflows]), between the unchanged lines of
    the counters before and after it in [known_netstats]; on the
    specification's example the corrected value is 7. *)
Theorem listen_drops_corrected :
  (forall ts out statsdikt statstype names values value drops overflows,
     let stats := dict_of_pairs (combine names values) in
     lookup stats "ListenDrops" = Some value ->
     py_int value = ret drops ->
     py_int match lookup stats "ListenOverflows" with
            | Some v => v
            | None => PInt 0
            end = ret overflows ->
     netstat_section ts out statsdikt (statstype, [names; values]) =
     ((events (for_each (print_known ts statstype stats out)
                        (firstn 9 known_netstats)) ++
       EvPrint out ("net.stat." ++ statstype ++ ".failed_accept " ++ dec ts ++ " "
                    ++ dec (drops - overflows) ++ " reason=other") ::
       events (for_each (print_known ts statstype stats out)
                        (skipn 10 known_netstats)))%list,
      Ok tt)) /\
  (forall ts out err,
     parse_netstat ts netstat_listen out err =
     ([EvPrint out ("net.stat.tcp.failed_accept " ++ dec ts ++ " 3 reason=full_acceptq");
       EvPrint out ("net.stat.tcp.failed_accept " ++ dec ts ++ " 7 reason=other")],
      Ok None)).
Proof.
  split.
  - intros ts out d statstype names values value drops overflows stats Hv Hd Ho.
    unfold netstat_section, undo_double_counting. fold stats.
    rewrite Hv, Hd, bind_ret_l, Ho, !bind_ret_l.
    set (before := firstn 9 known_netstats).
    set (after := skipn 10 known_netstats).
    set (stats' := dict_set "ListenDrops" (PInt (drops - overflows)) stats).
    change known_netstats
      with (before ++ ("ListenDrops", ("failed_accept", Some "reason=other")) :: after)%list.
    rewrite (M_eta (for_each _ (before ++ _ :: after))).
    rewrite for_each_print_known_returns. f_equal.
    rewrite for_each_app, events_bind, for_each_print_known_returns.
    unfold stats'.
    rewrite for_each_print_known_other by (repeat constructor; discriminate).
    f_equal. cbn [for_each]. rewrite events_bind.
    unfold print_known at 1 2.
    rewrite lookup_dict_set_same. cbn [print_netstat or_default print emit events outcome fst snd].
    rewrite for_each_print_known_other by (repeat constructor; discriminate).
    reflexivity.
  - intros ts out err. reflexivity.
Qed.

Lemma listen_drops_corrected_witness :
  netstat_section 1700000000 Stdout [] ("tcp", [["ListenOverflows"; "ListenDrops"]; ["3"; "10"]]) =
  ((events (for_each (print_known 1700000000 "tcp"
                        (dict_of_pairs (combine ["ListenOverflows"; "ListenDrops"] ["3"; "10"]))
                        Stdout)
                     (firstn 9 known_netstats)) ++
    EvPrint Stdout ("net.stat." ++ "tcp" ++ ".failed_accept " ++ dec 1700000000 ++ " "
                    ++ dec (10 - 3) ++ " reason=other") ::
    events (for_each (print_known 1700000000 "tcp"
                        (dict_of_pairs (combine ["ListenOverflows"; "ListenDrops"] ["3"; "10"]))
                        Stdout)
                     (skipn 10 known_netstats)))%list,
   Ok tt).
Proof.
  apply (proj1 listen_drops_corrected 1700000000 Stdout [] "tcp"
           ["ListenOverflows"; "ListenDrops"] ["3"; "10"] (PStr "10") 10 3).
  - reflexivity.
  - reflexivity.
  - reflexivity.
Defined.

Lemma rev_string_app (a b : string) :
  rev_string (a ++ b) = rev_string b ++ rev_string a.
Proof.
  induction a as [| c a IH]; simpl.
  - now rewrite append_nil_r.
  - now rewrite IH, append_assoc.
Qed.

Lemma append_inv_head (a b c : string) : a ++ b = a ++ c -> b = c.
Proof. induction a as [| x a IH]; simpl; [auto | intros [= H]; auto]. Qed.

(** The groups of the specification's sockstat example. *)
Lemma sockstat_example_match :
  re_match REGEXP sockstat_example =
  Some [("ip_frag_mem", "0"); ("ip_frag_nqueues", "0"); ("raw_inuse", "0");
        ("udp_inuse", "3"); ("tcp_pages", "10"); ("tcp_sockets", "5");
        ("tw_count", "2"); ("orphans", "1"); ("tcp_inuse", "5")].
Proof. reflexivity. Qed.

(** The events of a pass over the sockstat example, for any timestamp
    and any netstat content. *)
Lemma sockstat_example_events ts stats ofs ofe :
  let out := or_default ofs Stdout in
  events (parse_and_print_metrics
            {| clock := ts; page_size := 4096;
               sockstat_content := sockstat_example; netstat_content := stats |}
            ofs ofe) =
  ([EvTime; EvSeek Sockstat; EvSeek Netstat; EvRead Sockstat; EvRead Netstat;
    EvPrint out ("net.sockstat.num_sockets " ++ dec ts ++ " 5 type=tcp");
    EvPrint out ("net.sockstat.num_timewait " ++ dec ts ++ " 2");
    EvPrint out ("net.sockstat.sockets_inuse " ++ dec ts ++ " 5 type=tcp");
    EvPrint out ("net.sockstat.sockets_inuse " ++ dec ts ++ " 3 type=udp");
    EvPrint out ("net.sockstat.sockets_inuse " ++ dec ts ++ " 0 type=raw");
    EvPrint out ("net.sockstat.num_orphans " ++ dec ts ++ " 1");
    EvPrint out ("net.sockstat.memory " ++ dec ts ++ " 40960 type=tcp");
    EvPrint Stdout ("net.sockstat.memory " ++ dec ts ++ " 0 type=ipfrag");
    EvPrint out ("net.sockstat.ipfragqueues " ++ dec ts ++ " 0")] ++
   events (parse_netstat ts stats out (or_default ofe Stderr)))%list.
Proof.
  intros out. rewrite pass_events.
  cbn [sockstat_content clock page_size netstat_content].
  rewrite sockstat_example_match, events_bind. reflexivity.
Qed.

(** C4 is violated at this input: with the success stream [Handle 1]
    configured, the [ipfrag] memory line is written to [sys.stdout];
    every other metric line goes to [Handle 1]. *)
Theorem ipfrag_memory_goes_to_stdout :
  parse_and_print_metrics (pass_with sockstat_example netstat_listen)
                          (Some (Handle 1)) (Some (Handle 2)) =
  ([EvTime; EvSeek Sockstat; EvSeek Netstat; EvRead Sockstat; EvRead Netstat;
    EvPrint (Handle 1) "net.sockstat.num_sockets 1700000000 5 type=tcp";
    EvPrint (Handle 1) "net.sockstat.num_timewait 1700000000 2";
    EvPrint (Handle 1) "net.sockstat.sockets_inuse 1700000000 5 type=tcp";
    EvPrint (Handle 1) "net.sockstat.sockets_inuse 1700000000 3 type=udp";
    EvPrint (Handle 1) "net.sockstat.sockets_inuse 1700000000 0 type=raw";
    EvPrint (Handle 1) "net.sockstat.num_orphans 1700000000 1";
    EvPrint (Handle 1) "net.sockstat.memory 1700000000 40960 type=tcp";
    EvPrint Stdout "net.sockstat.memory 1700000000 0 type=ipfrag";
    EvPrint (Handle 1) "net.sockstat.ipfragqueues 1700000000 0";
    EvPrint (Handle 1) "net.stat.tcp.failed_accept 1700000000 3 reason=full_acceptq";
    EvPrint (Handle 1) "net.stat.tcp.failed_accept 1700000000 7 reason=other"],
   Ok None) /\
  lines_written Stdout
    (events (parse_and_print_metrics (pass_with sockstat_example netstat_listen)
               (Some (Handle 1)) (Some (Handle 2)))) = 1%nat.
Proof. split; reflexivity. Qed.

(** Two lines with the same head and different tags differ. *)
Lemma tagged_line_differs (a value tag tail : string) :
  starts_with (rev_string tag) (rev_string tail) = false ->
  a ++ " " ++ value ++ tag <> a ++ tail.
Proof.
  intros Hend H.
  apply append_inv_head in H.
  apply (f_equal rev_string) in H.
  change (" " ++ value ++ tag) with ((" " ++ value) ++ tag) in H.
  rewrite rev_string_app in H. rewrite <- H in Hend.
  unfold starts_with in Hend. now rewrite strip_prefix_app in Hend.
Qed.

(** C5: on the specification's sockstat example with a page size of
    4096 the pass prints the three metric lines to the success stream,
    and, whatever the timestamp and the netstat content are, no
    [net.sockstat.memory] line tagged [type=udp] and no line tagged
    [type=udplite] to any stream: [print_sockstat] prints nothing for a
    value that is [None]. *)
Theorem sockstat_example_metrics :
  forall ts stats ofs ofe,
    let pass := parse_and_print_metrics
                  {| clock := ts; page_size := 4096;
                     sockstat_content := sockstat_example;
                     netstat_content := stats |} ofs ofe in
    let out := or_default ofs Stdout in
    In (EvPrint out ("net.sockstat.memory " ++ dec ts ++ " 40960 type=tcp")) (events pass) /\
    In (EvPrint out ("net.sockstat.sockets_inuse " ++ dec ts ++ " 5 type=tcp")) (events pass) /\
    In (EvPrint out ("net.sockstat.sockets_inuse " ++ dec ts ++ " 3 type=udp")) (events pass) /\
    (forall s value,
       ~ In (EvPrint s ("net.sockstat.memory " ++ dec ts ++ " " ++ value ++ " type=udp"))
            (events pass)) /\
    (forall s value,
       ~ In (EvPrint s ("net.sockstat.sockets_inuse " ++ dec ts ++ " " ++ value
                        ++ " type=udplite"))
            (events pass)) /\
    (forall metric tags o, print_sockstat ts metric None tags o = ([], Ok tt)).
Proof.
  intros ts stats ofs ofe pass out. unfold pass.
  rewrite sockstat_example_events. fold out.
  assert (Hnet : forall s text,
             In (EvPrint s text)
                (events (parse_netstat ts stats out (or_default ofe Stderr))) ->
             starts_with "net.sockstat." text = false).
  { intros s text Hin.
    pose proof (proj1 (Forall_forall _ _)
                  (parse_netstat_events ts stats out (or_default ofe Stderr)) _ Hin)
      as [(name & rest & He & _) | (msg & He & _)];
      injection He as _ ->; reflexivity. }
  repeat split.
  - apply in_or_app. left. simpl. tauto.
  - apply in_or_app. left. simpl. tauto.
  - apply in_or_app. left. simpl. tauto.
  - intros s value Hin. apply in_app_or in Hin as [Hin | Hin].
    + simpl in Hin.
      repeat (destruct Hin as [Hin | Hin]; [try discriminate Hin |]); try exact Hin.
      * injection Hin as _ Hin. symmetry in Hin. revert Hin.
        now apply (tagged_line_differs (dec ts) value " type=udp" " 40960 type=tcp").
      * injection Hin as _ Hin. symmetry in Hin. revert Hin.
        now apply (tagged_line_differs (dec ts) value " type=udp" " 0 type=ipfrag").
    + apply Hnet in Hin. discriminate Hin.
  - intros s value Hin. apply in_app_or in Hin as [Hin | Hin].
    + simpl in Hin.
      repeat (destruct Hin as [Hin | Hin]; [try discriminate Hin |]); try exact Hin.
      * injection Hin as _ Hin. symmetry in Hin. revert Hin.
        now apply (tagged_line_differs (dec ts) value " type=udplite" " 5 type=tcp").
      * injection Hin as _ Hin. symmetry in Hin. revert Hin.
        now apply (tagged_line_differs (dec ts) value " type=udplite" " 3 type=udp").
      * injection Hin as _ Hin. symmetry in Hin. revert Hin.
        now apply (tagged_line_differs (dec ts) value " type=udplite" " 0 type=raw").
    + apply Hnet in Hin. discriminate Hin.
Qed.

Lemma netstat_event_metric ts out e : netstat_event ts out e -> metric_event ts e.
Proof.
  intros (name & rest & -> & Hname).
  eexists _, _. split; [reflexivity |]. split; [| reflexivity].
  exists ("net.stat." ++ name), rest. split.
  - now rewrite append_assoc.
  - now rewrite contains_char_app, Hname.
Qed.

Lemma warning_event_diagnostic err e : warning_event err e -> diagnostic_event e.
Proof. intros (msg & -> & _). eexists _, _. split; reflexivity. Qed.

(** C8: a pass reads the clock once, before it seeks and reads the two
    files; every event after the reads is a print, and every metric
    line among them, sockstat or netstat, is stamped with that one
    clock value. *)
Theorem one_timestamp_per_pass :
  forall env ofs ofe,
  exists rest,
    events (parse_and_print_metrics env ofs ofe) =
      ([EvTime; EvSeek Sockstat; EvSeek Netstat; EvRead Sockstat; EvRead Netstat]
       ++ rest)%list /\
    ~ In EvTime rest /\
    Forall (fun e => metric_event (clock env) e \/ diagnostic_event e) rest.
Proof.
  intros env ofs ofe. rewrite pass_events. eexists. split; [reflexivity |].
  match goal with |- ~ In _ ?r /\ Forall ?P ?r =>
    assert (Hall : Forall P r); [| split; [| exact Hall]]
  end.
  - destruct (re_match REGEXP (sockstat_content env)) as [m |].
    + apply Forall_events_bind.
      * eapply Forall_impl; [| apply print_sockstat_metrics_events].
        intros e H. cbv beta. now left.
      * intros _ _. eapply Forall_impl; [| apply parse_netstat_events].
        cbv beta. intros e [H | H].
        -- left. now apply netstat_event_metric in H.
        -- right. now apply warning_event_diagnostic in H.
    + constructor; [| constructor]. right. eexists _, _. split; reflexivity.
  - intros Hin.
    pose proof (proj1 (Forall_forall _ _) Hall _ Hin)
      as [(s & text & He & _) | (s & text & He & _)]; discriminate He.
Qed.

(* ===================================================================== *)
(** ** [REGEXP] and the sockstat texts *)
(* ===================================================================== *)

Example sockstat_text_example : sockstat_text fields_example = sockstat_example.
Proof. reflexivity. Qed.

Example sockstat_text_full : sockstat_text fields_full = sockstat_full.
Proof. reflexivity. Qed.

(** [\d+] before a text that does not go on with a digit takes the
    whole run, provided the rest of the pattern then matches. *)
Lemma digits_bt_complete {R} d s acc (k : string -> string -> option R) r :
  digits d -> no_digit_ahead s ->
  k (acc ++ d) s = Some r ->
  digits_bt (d ++ s) acc k = Some r.
Proof.
  intros [Hd Hne]. revert acc.
  induction d as [| c d IH]; [congruence |]. intros acc Hs Hk.
  simpl in Hd. apply andb_prop in Hd as [Hc Hd].
  cbn [append digits_bt]. rewrite Hc.
  destruct d as [| c' d].
  - cbn [append]. unfold snoc.
    destruct s as [| x s]; cbn [digits_bt].
    + exact Hk.
    + simpl in Hs. rewrite Hs. exact Hk.
  - rewrite (IH Hd ltac:(congruence) (snoc acc c) Hs).
    + reflexivity.
    + unfold snoc. now rewrite append_assoc.
Qed.

Lemma append_empty_l (s : string) : "" ++ s = s.
Proof. reflexivity. Qed.

Ltac match_literal :=
  cbn [match_seq match_item capture]; rewrite strip_prefix_app.

Ltac after_digits :=
  cbv beta;
  try match goal with
      | |- context [EmptyString ++ ?d] => change (EmptyString ++ d) with d
      end.

Ltac match_digits H :=
  cbn [match_seq match_item capture];
  apply digits_bt_complete; [exact H | simpl; reflexivity | after_digits].

(** An optional group that is present: its literal, then its digits. *)
Ltac match_present H :=
  cbn [match_seq match_item capture]; rewrite strip_prefix_app;
  erewrite digits_bt_complete; [reflexivity | exact H | simpl; reflexivity | after_digits].

(** An optional group that is absent: its literal does not match. *)
Ltac match_absent :=
  cbn [match_seq match_item capture];
  match goal with
  | |- context [strip_prefix ?p (?a ++ ?x)] =>
      replace (strip_prefix p (a ++ x)) with (@None string) by reflexivity
  end;
  cbv beta iota.

(** Every text of the grammar matches, with the fields as groups,
    whatever follows it. *)
Lemma REGEXP_matches_text f rest :
  fields_ok f ->
  re_match REGEXP (sockstat_text f ++ rest) = Some (sockstat_captures f).
Proof.
  intros (H0 & H1 & H2 & H3 & H4 & H5 & H6 & H7 & H8 & H9 & H10 & H11).
  unfold sockstat_text, sockstat_captures, re_match, REGEXP.
  destruct f as [used ti orp tw ts tp ui up ul ri fq fm]; cbn [f_used f_tcp_inuse
    f_orphans f_tw_count f_tcp_sockets f_tcp_pages f_udp_inuse f_udp_pages
    f_udplite_inuse f_raw_inuse f_ip_frag_nqueues f_ip_frag_mem] in *.
  rewrite !append_assoc.
  match_literal. match_digits H0. match_literal.
  match_literal. match_digits H1.
  match_literal. match_digits H2.
  match_literal. match_digits H3.
  match_literal. match_digits H4.
  match_literal. match_digits H5. match_literal.
  match_literal.
  destruct up as [up |], ul as [ul |]; cbn [digits_opt capture_opt] in *;
    rewrite ?append_assoc, ?append_empty_l; match_digits H6.
  - match_present H7. match_literal. match_present H8. match_literal.
    match_literal. match_digits H9. match_literal.
    match_literal. match_digits H10. match_literal. match_digits H11.
    match_literal. reflexivity.
  - match_present H7. match_literal. match_absent.
    match_literal. match_digits H9. match_literal.
    match_literal. match_digits H10. match_literal. match_digits H11.
    match_literal. reflexivity.
  - match_absent. match_literal. match_present H8. match_literal.
    match_literal. match_digits H9. match_literal.
    match_literal. match_digits H10. match_literal. match_digits H11.
    match_literal. reflexivity.
  - match_absent. match_literal. match_absent.
    match_literal. match_digits H9. match_literal.
    match_literal. match_digits H10. match_literal. match_digits H11.
    match_literal. reflexivity.
Qed.

(** One step of reading a match backwards, keeping what was read. *)
Ltac read_match_step :=
  match goal with
  | H : None = Some _ |- _ => discriminate H
  | H : match strip_prefix ?p ?s with _ => _ end = Some _ |- _ =>
      let E := fresh "E" in
      destruct (strip_prefix p s) eqn:E;
      [apply strip_prefix_inv in E | discriminate H]
  | H : digits_bt _ _ _ = Some _ |- _ =>
      apply digits_bt_inv in H as (? & ? & ? & ? & ? & H); cbn [append] in H
  | H : match ?X with _ => _ end = Some _ |- _ =>
      let E := fresh "E" in destruct X eqn:E
  end.

Ltac choose_fields :=
  match goal with
  | |- exists f rest, _ /\ "sockets: used " ++ ?used ++ _ = _ /\ ?caps = _ =>
      lazymatch caps with
      | [(_, ?fm); (_, ?fq); (_, ?ri); ("udplite_inuse", ?ul); ("udp_pages", ?up);
         (_, ?ui); (_, ?tp); (_, ?ts); (_, ?tw); (_, ?orp); (_, ?ti)] =>
          exists (Build_sockstat_fields used ti orp tw ts tp ui (Some up) (Some ul) ri fq fm)
      | [(_, ?fm); (_, ?fq); (_, ?ri); ("udplite_inuse", ?ul);
         (_, ?ui); (_, ?tp); (_, ?ts); (_, ?tw); (_, ?orp); (_, ?ti)] =>
          exists (Build_sockstat_fields used ti orp tw ts tp ui None (Some ul) ri fq fm)
      | [(_, ?fm); (_, ?fq); (_, ?ri); ("udp_pages", ?up);
         (_, ?ui); (_, ?tp); (_, ?ts); (_, ?tw); (_, ?orp); (_, ?ti)] =>
          exists (Build_sockstat_fields used ti orp tw ts tp ui (Some up) None ri fq fm)
      | [(_, ?fm); (_, ?fq); (_, ?ri);
         (_, ?ui); (_, ?tp); (_, ?ts); (_, ?tw); (_, ?orp); (_, ?ti)] =>
          exists (Build_sockstat_fields used ti orp tw ts tp ui None None ri fq fm)
      end
  end.

(** A match reads a text of the grammar: the content starts with the
    text of some fields, and the groups are those fields. *)
Lemma REGEXP_match_reads data m :
  re_match REGEXP data = Some m ->
  exists f rest,
    fields_ok f /\ data = sockstat_text f ++ rest /\ m = sockstat_captures f.
Proof.
  unfold re_match, REGEXP. cbn [match_seq match_item capture]. intros H.
  repeat read_match_step;
    repeat match goal with E : Some _ = Some _ |- _ => injection E as E end;
    subst;
    choose_fields; eexists;
    (split;
     [ unfold fields_ok, digits, digits_opt; cbn; repeat split; assumption
     | split;
       [ unfold sockstat_text; cbn [f_used f_tcp_inuse f_orphans f_tw_count
           f_tcp_sockets f_tcp_pages f_udp_inuse f_udp_pages f_udplite_inuse
           f_raw_inuse f_ip_frag_nqueues f_ip_frag_mem];
         rewrite ?append_assoc, ?append_empty_l; reflexivity
       | reflexivity ] ]).
Qed.

Lemma int_digits_number d :
  all_digits d = true ->
  forall acc after, d <> "" \/ after = true ->
  int_digits d acc after = Some (number_from acc d).
Proof.
  induction d as [| c d IH]; simpl; intros H acc after Hne.
  - destruct Hne as [Hne | ->]; [congruence | reflexivity].
  - apply andb_prop in H as [Hc Hd]. rewrite Hc. apply IH; auto.
Qed.

(** [int] of a run of digits is the number it denotes. *)
Lemma int_of_str_number d : digits d -> int_of_str d = Some (number d).
Proof.
  intros [H Hne]. destruct d as [| c d]; [congruence |].
  unfold int_of_str, number.
  assert (Hc : is_digit c = true) by (simpl in H; now apply andb_prop in H).
  replace (lstrip (String c d)) with (String c d)
    by (simpl; now rewrite (digit_not_space c Hc)).
  rewrite (all_digits_rstrip _ H).
  rewrite <- (int_digits_number _ H 0 false) by (left; congruence).
  destruct c as [[] [] [] [] [] [] [] []]; try discriminate Hc; reflexivity.
Qed.

Lemma groups_of_fields f :
  let m := sockstat_captures f in
  group m "tcp_inuse" = Some (f_tcp_inuse f) /\
  group m "orphans" = Some (f_orphans f) /\
  group m "tw_count" = Some (f_tw_count f) /\
  group m "tcp_sockets" = Some (f_tcp_sockets f) /\
  group m "tcp_pages" = Some (f_tcp_pages f) /\
  group m "udp_inuse" = Some (f_udp_inuse f) /\
  group m "udp_pages" = f_udp_pages f /\
  group m "udplite_inuse" = f_udplite_inuse f /\
  group m "raw_inuse" = Some (f_raw_inuse f) /\
  group m "ip_frag_nqueues" = Some (f_ip_frag_nqueues f) /\
  group m "ip_frag_mem" = Some (f_ip_frag_mem f).
Proof.
  destruct f as [used ti orp tw ts tp ui [up |] [ul |] ri fq fm];
    repeat split; reflexivity.
Qed.

(** The eleven calls over the groups of a text of the grammar. *)
Lemma print_sockstat_metrics_of_fields ts page f out :
  fields_ok f ->
  print_sockstat_metrics ts page (sockstat_captures f) out =
  (sockstat_metric_events ts page f out, Ok tt).
Proof.
  intros (H0 & H1 & H2 & H3 & H4 & H5 & H6 & H7 & H8 & H9 & H10 & H11).
  destruct (groups_of_fields f)
    as (G1 & G2 & G3 & G4 & G5 & G6 & G7 & G8 & G9 & G10 & G11).
  unfold print_sockstat_metrics, group_val, sockstat_metric_events.
  rewrite G1, G2, G3, G4, G5, G6, G7, G8, G9, G10, G11.
  unfold int_of_group, py_int. rewrite (int_of_str_number _ H5).
  destruct (f_udp_pages f) as [up |], (f_udplite_inuse f) as [ul |];
    cbn [digits_opt] in H7; rewrite ?(int_of_str_number _ H7);
    unfold print_sockstat, print, emit, ret, bind, or_default;
    cbn [app option_map str_of]; rewrite !append_nil_r; reflexivity.
Qed.

(** X1: every text of the sockstat grammar matches [REGEXP], whatever
    follows its last line, and the match is lossless: each field is
    read back by [m.group], [None] for an optional part the text does
    not hold. *)
Theorem sockstat_text_matches :
  forall f rest,
    fields_ok f ->
    exists m,
      re_match REGEXP (sockstat_text f ++ rest) = Some m /\
      group m "tcp_inuse" = Some (f_tcp_inuse f) /\
      group m "orphans" = Some (f_orphans f) /\
      group m "tw_count" = Some (f_tw_count f) /\
      group m "tcp_sockets" = Some (f_tcp_sockets f) /\
      group m "tcp_pages" = Some (f_tcp_pages f) /\
      group m "udp_inuse" = Some (f_udp_inuse f) /\
      group m "udp_pages" = f_udp_pages f /\
      group m "udplite_inuse" = f_udplite_inuse f /\
      group m "raw_inuse" = Some (f_raw_inuse f) /\
      group m "ip_frag_nqueues" = Some (f_ip_frag_nqueues f) /\
      group m "ip_frag_mem" = Some (f_ip_frag_mem f).
Proof.
  intros f rest Hf. exists (sockstat_captures f). split.
  - now apply REGEXP_matches_text.
  - apply groups_of_fields.
Qed.

Lemma sockstat_text_matches_witness :
  exists m,
    re_match REGEXP (sockstat_text fields_full ++ "trailing text") = Some m /\
    group m "tcp_inuse" = Some "12" /\
    group m "orphans" = Some "0" /\
    group m "tw_count" = Some "7" /\
    group m "tcp_sockets" = Some "15" /\
    group m "tcp_pages" = Some "3" /\
    group m "udp_inuse" = Some "4" /\
    group m "udp_pages" = Some "2" /\
    group m "udplite_inuse" = Some "0" /\
    group m "raw_inuse" = Some "1" /\
    group m "ip_frag_nqueues" = Some "0" /\
    group m "ip_frag_mem" = Some "0".
Proof.
  apply (sockstat_text_matches fields_full "trailing text").
  unfold fields_ok, digits; cbn; repeat split; discriminate.
Defined.

(** X2: a content that [REGEXP] matches starts with a text of the
    grammar: there are fields, each a non-empty run of digits, whose
    text the content begins with, and the groups of the match are
    exactly those fields. *)
Theorem sockstat_match_is_text :
  forall data m,
    re_match REGEXP data = Some m ->
    exists f rest,
      fields_ok f /\
      data = sockstat_text f ++ rest /\
      group m "tcp_inuse" = Some (f_tcp_inuse f) /\
      group m "orphans" = Some (f_orphans f) /\
      group m "tw_count" = Some (f_tw_count f) /\
      group m "tcp_sockets" = Some (f_tcp_sockets f) /\
      group m "tcp_pages" = Some (f_tcp_pages f) /\
      group m "udp_inuse" = Some (f_udp_inuse f) /\
      group m "udp_pages" = f_udp_pages f /\
      group m "udplite_inuse" = f_udplite_inuse f /\
      group m "raw_inuse" = Some (f_raw_inuse f) /\
      group m "ip_frag_nqueues" = Some (f_ip_frag_nqueues f) /\
      group m "ip_frag_mem" = Some (f_ip_frag_mem f).
Proof.
  intros data m Hm.
  destruct (REGEXP_match_reads data m Hm) as (f & rest & Hf & Hdata & ->).
  exists f, rest. split; [exact Hf |]. split; [exact Hdata |].
  apply groups_of_fields.
Qed.

Lemma sockstat_match_is_text_witness :
  exists f rest,
    fields_ok f /\
    sockstat_example = sockstat_text f ++ rest /\
    group (sockstat_captures fields_example) "tcp_inuse" = Some (f_tcp_inuse f) /\
    group (sockstat_captures fields_example) "orphans" = Some (f_orphans f) /\
    group (sockstat_captures fields_example) "tw_count" = Some (f_tw_count f) /\
    group (sockstat_captures fields_example) "tcp_sockets" = Some (f_tcp_sockets f) /\
    group (sockstat_captures fields_example) "tcp_pages" = Some (f_tcp_pages f) /\
    group (sockstat_captures fields_example) "udp_inuse" = Some (f_udp_inuse f) /\
    group (sockstat_captures fields_example) "udp_pages" = f_udp_pages f /\
    group (sockstat_captures fields_example) "udplite_inuse" = f_udplite_inuse f /\
    group (sockstat_captures fields_example) "raw_inuse" = Some (f_raw_inuse f) /\
    group (sockstat_captures fields_example) "ip_frag_nqueues" = Some (f_ip_frag_nqueues f) /\
    group (sockstat_captures fields_example) "ip_frag_mem" = Some (f_ip_frag_mem f).
Proof.
  apply (sockstat_match_is_text sockstat_example (sockstat_captures fields_example)).
  reflexivity.
Defined.

(** X3: in every pass whose sockstat content matches, the content
    begins with the text of some fields and the pass prints, after its
    reads and before anything of the netstat half, exactly the lines of
    those fields: one per field that is present, the raw digits for the
    counts, pages times the page size for the two memory lines. *)
Theorem matching_pass_prints_fields :
  forall env ofs ofe m,
    re_match REGEXP (sockstat_content env) = Some m ->
    exists f rest,
      fields_ok f /\
      sockstat_content env = sockstat_text f ++ rest /\
      events (parse_and_print_metrics env ofs ofe) =
      ([EvTime; EvSeek Sockstat; EvSeek Netstat; EvRead Sockstat; EvRead Netstat] ++
       sockstat_metric_events (clock env) (page_size env) f (or_default ofs Stdout) ++
       events (parse_netstat (clock env) (netstat_content env)
                 (or_default ofs Stdout) (or_default ofe Stderr)))%list.
Proof.
  intros env ofs ofe m Hm.
  destruct (REGEXP_match_reads _ m Hm) as (f & rest & Hf & Hdata & ->).
  exists f, rest. split; [exact Hf |]. split; [exact Hdata |].
  rewrite pass_events, Hm, events_bind.
  now rewrite (print_sockstat_metrics_of_fields _ _ _ _ Hf).
Qed.

Lemma matching_pass_prints_fields_witness :
  exists f rest,
    fields_ok f /\
    sockstat_full = sockstat_text f ++ rest /\
    events (parse_and_print_metrics (pass_with sockstat_full netstat_listen)
              (Some (Handle 1)) None) =
    ([EvTime; EvSeek Sockstat; EvSeek Netstat; EvRead Sockstat; EvRead Netstat] ++
     sockstat_metric_events 1700000000 4096 f (Handle 1) ++
     events (parse_netstat 1700000000 netstat_listen (Handle 1) Stderr))%list.
Proof.
  apply (matching_pass_prints_fields (pass_with sockstat_full netstat_listen)
           (Some (Handle 1)) None (sockstat_captures fields_full)).
  reflexivity.
Defined.

(* ===================================================================== *)
(** ** How a pass ends *)
(* ===================================================================== *)



Lemma netstat_line_skipped stats err text d :
  split text <> [] -> line_section text = None ->
  outcome (netstat_line stats err text d) = Ok d.
Proof.
  unfold line_section. intros Hne Hsec.
  destruct (netstat_line_step stats err text d)
    as [Hs | rest Hs | h rest Hs Hh Hl | h rest sec Hs Hl]; try reflexivity.
  - congruence.
  - rewrite Hs, (known_header_supported _ _ Hl), Hl in Hsec. discriminate Hsec.
Qed.

Lemma line_loop_skips stats err lines :
  Forall (fun text => split text <> [] /\ line_section text = None) lines ->
  forall d, outcome (for_fold (netstat_line stats err) lines d) = Ok d.
Proof.
  induction 1 as [| x lines [Hne Hsec] _ IH]; intros d; cbn [for_fold]; [reflexivity |].
  now rewrite outcome_bind, (netstat_line_skipped _ _ _ _ Hne Hsec).
Qed.

(** X5: when the sockstat content matches and no line of the netstat
    content is filed under a section (the content is empty, or holds
    only unknown and unsupported headers), the final [stats.clear()]
    is applied to the text that was read: the pass raises
    [AttributeError] after printing the sockstat metrics and the
    warnings, no [net.stat] line is printed, and [main] exits with
    status 1. *)
Theorem sectionless_netstat_raises :
  forall ppid env fuel i,
    ppid i <> 1 ->
    re_match REGEXP (sockstat_content (env i)) <> None ->
    Forall (fun text => split text <> [] /\ line_section text = None)
           (splitlines (netstat_content (env i))) ->
    (forall ofs ofe,
       outcome (parse_and_print_metrics (env i) ofs ofe) = Raise AttributeError) /\
    (forall ts out err,
       Forall (warning_event err)
              (events (parse_netstat ts (netstat_content (env i)) out err))) /\
    main_loop ppid env (S fuel) i =
      (EvGetppid :: events (parse_and_print_metrics (env i) None None),
       Raise AttributeError) /\
    exit_status (outcome (main_loop ppid env (S fuel) i)) = Some 1.
Proof.
  intros ppid env fuel i Hp Hm Hlines.
  assert (Hloop : forall err,
             outcome (for_fold (netstat_line (netstat_content (env i)) err)
                               (splitlines (netstat_content (env i))) []) = Ok [])
    by (intros err; now apply line_loop_skips).
  assert (Hpass : forall ofs ofe,
             outcome (parse_and_print_metrics (env i) ofs ofe) = Raise AttributeError).
  { intros ofs ofe. rewrite pass_outcome.
    destruct (re_match REGEXP (sockstat_content (env i))); [| congruence].
    now rewrite (proj2 (parse_netstat_unfold _ _ _ _)), Hloop. }
  pose proof (main_loop_pass_raises ppid env fuel i _ Hp (Hpass None None)) as Hmain.
  repeat split; auto.
  - intros ts out err.
    rewrite (proj1 (parse_netstat_unfold _ _ _ _)), Hloop.
    cbn [for_each ret events fst]. rewrite app_nil_r. apply line_loop_events.
  - now rewrite Hmain.
Qed.

Lemma sectionless_netstat_raises_witness :
  (forall ofs ofe,
     outcome (parse_and_print_metrics (pass_with sockstat_example netstat_unknown) ofs ofe)
     = Raise AttributeError) /\
  (forall ts out err,
     Forall (warning_event err) (events (parse_netstat ts netstat_unknown out err))) /\
  main_loop live_parent (fun _ => pass_with sockstat_example netstat_unknown) 3 0 =
    (EvGetppid ::
       events (parse_and_print_metrics
                 (pass_with sockstat_example netstat_unknown) None None),
     Raise AttributeError) /\
  exit_status (outcome (main_loop live_parent
                          (fun _ => pass_with sockstat_example netstat_unknown) 3 0))
  = Some 1.
Proof.
  apply (sectionless_netstat_raises live_parent
           (fun _ => pass_with sockstat_example netstat_unknown) 2 0).
  - discriminate.
  - discriminate.
  - repeat constructor; discriminate.
Defined.

(* ===================================================================== *)
(** ** The turns of [while True] *)
(* ===================================================================== *)

(** A turn whose pass returns goes on to the next turn. *)
Lemma main_loop_turn_returns ppid env fuel i v :
  ppid i <> 1 ->
  outcome (parse_and_print_metrics (env i) None None) = Ok v ->
  main_loop ppid env (S fuel) i =
  ((turn_events env i ++ events (main_loop ppid env fuel (S i)))%list,
   outcome (main_loop ppid env fuel (S i))).
Proof.
  intros Hp Hv. rewrite main_loop_turn. apply Z.eqb_neq in Hp. rewrite Hp.
  unfold turn_events.
  destruct (parse_and_print_metrics (env i) None None) as [t r].
  simpl in Hv. subst r.
  destruct (main_loop ppid env fuel (S i)) as [t' r']. simpl.
  now rewrite <- !app_assoc.
Qed.

Lemma main_loop_parent_died ppid env fuel i :
  ppid i = 1 ->
  main_loop ppid env (S fuel) i = ([EvGetppid], Raise (SystemExit 1)).
Proof. intros Hp. rewrite main_loop_turn, Hp. reflexivity. Qed.

Lemma main_loop_runs ppid env k :
  forall i fuel,
    (forall j, (j < k)%nat ->
       ppid (i + j)%nat <> 1 /\
       returned (outcome (parse_and_print_metrics (env (i + j)%nat) None None)) = true) ->
    main_loop ppid env (k + fuel) i =
    ((turns_events env k i ++ events (main_loop ppid env fuel (i + k)))%list,
     outcome (main_loop ppid env fuel (i + k))).
Proof.
  induction k as [| k IH]; intros i fuel H.
  - rewrite Nat.add_0_r. cbn [turns_events Nat.add app]. apply M_eta.
  - destruct (H 0%nat ltac:(lia)) as [Hp Hr]. rewrite Nat.add_0_r in Hp, Hr.
    destruct (outcome (parse_and_print_metrics (env i) None None)) as [v |] eqn:Hv;
      [| discriminate Hr].
    change (S k + fuel)%nat with (S (k + fuel)).
    rewrite (main_loop_turn_returns _ _ _ _ _ Hp Hv).
    rewrite (IH (S i) fuel).
    + cbn [turns_events events outcome fst snd].
      replace (S i + k)%nat with (i + S k)%nat by lia.
      now rewrite app_assoc.
    + intros j Hj. replace (S i + j)%nat with (i + S j)%nat by lia.
      apply H. lia.
Qed.

(** X6: a pass whose sockstat content does not match does not stop the
    collector: [main] ignores the 13 the pass returns, flushes, sleeps
    and goes on to the next turn. *)
Theorem sockstat_mismatch_keeps_looping :
  forall ppid env fuel i,
    ppid i <> 1 ->
    re_match REGEXP (sockstat_content (env i)) = None ->
    main_loop ppid env (S fuel) i =
    (([EvGetppid; EvTime; EvSeek Sockstat; EvSeek Netstat; EvRead Sockstat;
       EvRead Netstat;
       EvPrint Stderr ("Cannot parse sockstat: " ++ repr (sockstat_content (env i)));
       EvFlush Stdout; EvSleep]
      ++ events (main_loop ppid env fuel (S i)))%list,
     outcome (main_loop ppid env fuel (S i))).
Proof.
  intros ppid env fuel i Hp Hm.
  assert (Hv : outcome (parse_and_print_metrics (env i) None None) = Ok (Some 13))
    by now rewrite pass_outcome, Hm.
  rewrite (main_loop_turn_returns _ _ _ _ _ Hp Hv).
  unfold turn_events. now rewrite pass_events, Hm.
Qed.

Lemma sockstat_mismatch_keeps_looping_witness :
  main_loop live_parent (fun _ => pass_with "garbage" netstat_listen) 2 0 =
  (([EvGetppid; EvTime; EvSeek Sockstat; EvSeek Netstat; EvRead Sockstat;
     EvRead Netstat;
     EvPrint Stderr ("Cannot parse sockstat: " ++ repr "garbage");
     EvFlush Stdout; EvSleep]
    ++ events (main_loop live_parent (fun _ => pass_with "garbage" netstat_listen) 1 1))%list,
   outcome (main_loop live_parent (fun _ => pass_with "garbage" netstat_listen) 1 1)).
Proof.
  apply (sockstat_mismatch_keeps_looping live_parent
           (fun _ => pass_with "garbage" netstat_listen) 1 0).
  - discriminate.
  - reflexivity.
Defined.

(** X7: while the parent lives and the passes return, each turn of the
    loop is one check of the parent, one pass, one flush of
    [sys.stdout] and one sleep; when the check that follows [k] such
    turns finds the parent dead, the process exits with status 1
    without beginning another pass, and when the turns allowed are
    used up the loop is still running. *)
Theorem loop_turns :
  forall ppid env k i,
    (forall j, (j < k)%nat ->
       ppid (i + j)%nat <> 1 /\
       returned (outcome (parse_and_print_metrics (env (i + j)%nat) None None)) = true) ->
    main_loop ppid env k i = (turns_events env k i, Ok Looping) /\
    (ppid (i + k)%nat = 1 ->
     forall fuel,
       main_loop ppid env (k + S fuel) i =
         ((turns_events env k i ++ [EvGetppid])%list, Raise (SystemExit 1)) /\
       exit_status (outcome (main_loop ppid env (k + S fuel) i)) = Some 1).
Proof.
  intros ppid env k i H. split.
  - rewrite <- (Nat.add_0_r k) at 1. rewrite (main_loop_runs _ _ _ _ 0%nat H).
    cbn [main_loop ret events outcome fst snd]. now rewrite app_nil_r.
  - intros Hdead fuel.
    rewrite (main_loop_runs _ _ _ _ (S fuel) H).
    rewrite (main_loop_parent_died _ _ _ _ Hdead). split; reflexivity.
Qed.

Lemma loop_turns_witness :
  main_loop (parent_dies_after 2) (fun _ => pass_with sockstat_example netstat_listen) 2 0
  = (turns_events (fun _ => pass_with sockstat_example netstat_listen) 2 0, Ok Looping) /\
  (parent_dies_after 2 (0 + 2)%nat = 1 ->
   forall fuel,
     main_loop (parent_dies_after 2)
               (fun _ => pass_with sockstat_example netstat_listen) (2 + S fuel) 0 =
       ((turns_events (fun _ => pass_with sockstat_example netstat_listen) 2 0
         ++ [EvGetppid])%list, Raise (SystemExit 1)) /\
     exit_status (outcome (main_loop (parent_dies_after 2)
                             (fun _ => pass_with sockstat_example netstat_listen)
                             (2 + S fuel) 0)) = Some 1).
Proof.
  apply (loop_turns (parent_dies_after 2)
           (fun _ => pass_with sockstat_example netstat_listen) 2 0).
  intros j Hj.
  destruct j as [| [| j]]; [split; [discriminate | reflexivity] ..| lia].
Defined.

(* ===================================================================== *)
(** ** The dict of a section and what is printed from it *)
(* ===================================================================== *)

Lemma lookup_dict_set key v d k :
  lookup (dict_set key v d) k = if (key =? k)%string then Some v else lookup d k.
Proof.
  destruct (String.eqb_spec key k) as [<- | Hne].
  - apply lookup_dict_set_same.
  - now apply lookup_dict_set_other.
Qed.

Lemma lookup_fold_dict_set pairs :
  forall d key,
    lookup (fold_left (fun d kv => dict_set (fst kv) (PStr (snd kv)) d) pairs d) key =
    match last_value key pairs with
    | Some v => Some (PStr v)
    | None => lookup d key
    end.
Proof.
  induction pairs as [| [k v] pairs IH]; intros d key; cbn [fold_left last_value fst snd].
  - reflexivity.
  - rewrite IH. destruct (last_value key pairs); [reflexivity |].
    rewrite lookup_dict_set. now destruct (k =? key)%string.
Qed.

(** [dict(zip(names, values))]: the last column with a name gives its
    value. *)
Lemma lookup_dict_of_pairs pairs key :
  lookup (dict_of_pairs pairs) key = option_map PStr (last_value key pairs).
Proof.
  unfold dict_of_pairs. rewrite lookup_fold_dict_set.
  now destruct (last_value key pairs).
Qed.

Lemma netstat_section_two_lines ts out d statstype names values :
  netstat_section ts out d (statstype, [names; values]) =
  print_section ts statstype out (dict_of_pairs (combine names values)).
Proof. reflexivity. Qed.

Lemma print_netstat_text ts statstype metric value tags out :
  print_netstat ts statstype metric value tags (Some out) =
  ([EvPrint out ("net.stat." ++ statstype ++ "." ++ metric ++ " " ++ dec ts
                 ++ " " ++ str_of value ++ tags_suffix tags)], Ok tt).
Proof.
  unfold print_netstat, tags_suffix. destruct tags as [t |].
  - destruct (t =? "")%string; cbn [or_default print emit];
      rewrite ?append_nil_r; reflexivity.
  - cbn [or_default print emit]. now rewrite !append_nil_r.
Qed.

Lemma bind_assoc {A B C} (m : M A) (f : A -> M B) (g : B -> M C) :
  bind (bind m f) g = bind m (fun a => bind (f a) g).
Proof.
  destruct m as [t [a | e]]; [| reflexivity]. cbn [bind].
  destruct (f a) as [t1 [b | e]]; [| reflexivity]. cbn [bind].
  destruct (g b) as [t2 r]. now rewrite app_assoc.
Qed.

Lemma bind_ext {A B} (m : M A) (f g : A -> M B) :
  (forall a, f a = g a) -> bind m f = bind m g.
Proof. intros H. destruct m as [t [a | e]]; [| reflexivity]. cbn [bind]. now rewrite H. Qed.

(** Two dicts that agree on the counters of the table print the same
    section. *)
Lemma print_section_ext ts statstype out s1 s2 :
  (forall key, In key (map fst known_netstats) -> lookup s1 key = lookup s2 key) ->
  print_section ts statstype out s1 = print_section ts statstype out s2.
Proof.
  intros H. unfold print_section, undo_double_counting.
  rewrite <- (H "ListenDrops") by (simpl; tauto).
  rewrite <- (H "ListenOverflows") by (simpl; tauto).
  assert (Hprint : forall s1' s2',
             (forall key, In key (map fst known_netstats) ->
                          lookup s1' key = lookup s2' key) ->
             for_each (print_known ts statstype s1' out) known_netstats =
             for_each (print_known ts statstype s2' out) known_netstats).
  { intros s1' s2' H'. apply for_each_ext. intros [stat [metric tags]] Hin.
    unfold print_known. rewrite (H' stat); [reflexivity |].
    now apply (in_map fst) in Hin. }
  destruct (lookup s1 "ListenDrops") as [value |].
  - rewrite !bind_assoc. apply bind_ext. intros drops.
    rewrite !bind_assoc. apply bind_ext. intros overflows.
    rewrite !bind_ret_l. apply Hprint.
    intros key Hin. now rewrite !lookup_dict_set, (H key Hin).
  - rewrite !bind_ret_l. now apply Hprint.
Qed.

(** X8: what a section prints, and whether it raises, depends only on
    the counters of [known_netstats]: two header and value lines that
    give every counter of the table the same value (or none) yield
    the same events and the same outcome, so a counter that is not in
    the table is dropped without a trace. *)
Theorem unmapped_counters_ignored :
  forall ts out statsdikt statstype names1 values1 names2 values2,
    (forall counter, In counter (map fst known_netstats) ->
       last_value counter (combine names1 values1) =
       last_value counter (combine names2 values2)) ->
    netstat_section ts out statsdikt (statstype, [names1; values1]) =
    netstat_section ts out statsdikt (statstype, [names2; values2]).
Proof.
  intros ts out d statstype n1 v1 n2 v2 H.
  rewrite !netstat_section_two_lines. apply print_section_ext.
  intros key Hin. now rewrite !lookup_dict_of_pairs, (H key Hin).
Qed.

Lemma unmapped_counters_ignored_witness :
  netstat_section 1700000000 Stdout []
    ("tcp", [["TCPHPHits"; "ListenOverflows"; "PAWSActive"; "ListenDrops"];
             ["99"; "3"; "x"; "10"]]) =
  netstat_section 1700000000 Stdout []
    ("tcp", [["ListenOverflows"; "ListenDrops"]; ["3"; "10"]]).
Proof.
  apply (unmapped_counters_ignored 1700000000 Stdout [] "tcp").
  intros counter Hin. simpl in Hin.
  repeat (destruct Hin as [<- | Hin]; [reflexivity |]). destruct Hin.
Defined.

Lemma combine_app_left {A B} (xs extra : list A) (ys : list B) :
  length xs = length ys -> combine (xs ++ extra) ys = combine xs ys.
Proof.
  revert ys. induction xs as [| x xs IH]; intros [| y ys] Hlen;
    try discriminate Hlen; simpl.
  - now destruct extra.
  - f_equal. apply IH. now injection Hlen.
Qed.

Lemma combine_app_right {A B} (xs : list A) (ys extra : list B) :
  length xs = length ys -> combine xs (ys ++ extra) = combine xs ys.
Proof.
  revert ys. induction xs as [| x xs IH]; intros [| y ys] Hlen;
    try discriminate Hlen; simpl.
  - reflexivity.
  - f_equal. apply IH. now injection Hlen.
Qed.

(** X9: the two lines of a section are paired by [zip] up to the
    shorter one: names without a value, or values without a name, at
    the end of a line are dropped without any error. *)
Theorem surplus_tokens_dropped :
  forall ts out statsdikt statstype names values extra,
    length names = length values ->
    netstat_section ts out statsdikt (statstype, [(names ++ extra)%list; values]) =
      netstat_section ts out statsdikt (statstype, [names; values]) /\
    netstat_section ts out statsdikt (statstype, [names; (values ++ extra)%list]) =
      netstat_section ts out statsdikt (statstype, [names; values]).
Proof.
  intros ts out d statstype names values extra Hlen.
  rewrite !netstat_section_two_lines.
  now rewrite combine_app_left, combine_app_right.
Qed.

Lemma surplus_tokens_dropped_witness :
  netstat_section 1700000000 Stdout []
    ("udp", [(["InErrs"] ++ ["OutRsts"; "ListenDrops"])%list; ["5"]]) =
    netstat_section 1700000000 Stdout [] ("udp", [["InErrs"]; ["5"]]) /\
  netstat_section 1700000000 Stdout []
    ("udp", [["InErrs"]; (["5"] ++ ["OutRsts"; "ListenDrops"])%list]) =
    netstat_section 1700000000 Stdout [] ("udp", [["InErrs"]; ["5"]]).
Proof.
  apply (surplus_tokens_dropped 1700000000 Stdout [] "udp" ["InErrs"] ["5"]).
  reflexivity.
Defined.

(** X10: a [ListenDrops] value, or the [ListenOverflows] value beside a
    good [ListenDrops], that [int] rejects makes the section raise
    [ValueError] before any of its lines is printed; left uncaught, it
    ends the process with status 1. *)
Theorem listen_drops_not_a_number :
  forall ts out statsdikt statstype names values drops,
    last_value "ListenDrops" (combine names values) = Some drops ->
    (int_of_str drops = None ->
     netstat_section ts out statsdikt (statstype, [names; values]) =
       ([], Raise (ValueError drops))) /\
    (forall overflows,
       int_of_str drops <> None ->
       last_value "ListenOverflows" (combine names values) = Some overflows ->
       int_of_str overflows = None ->
       netstat_section ts out statsdikt (statstype, [names; values]) =
         ([], Raise (ValueError overflows))) /\
    (forall s, exit_status (Raise (ValueError s)) = Some 1).
Proof.
  intros ts out d statstype names values drops Hd.
  rewrite netstat_section_two_lines.
  unfold print_section, undo_double_counting.
  rewrite !lookup_dict_of_pairs, Hd. cbn [option_map py_int].
  split; [| split].
  - intros Hbad. now rewrite Hbad.
  - intros overflows Hgood Ho Hbad.
    destruct (int_of_str drops) as [z |]; [| congruence].
    rewrite bind_ret_l, Ho. cbn [option_map py_int]. now rewrite Hbad.
  - reflexivity.
Qed.

Lemma listen_drops_not_a_number_witness :
  (int_of_str "many" = None ->
   netstat_section 1700000000 Stdout []
     ("tcp", [["SyncookiesSent"; "ListenDrops"]; ["4"; "many"]]) =
     ([], Raise (ValueError "many"))) /\
  (forall overflows,
     int_of_str "many" <> None ->
     last_value "ListenOverflows"
       (combine ["SyncookiesSent"; "ListenDrops"] ["4"; "many"]) = Some overflows ->
     int_of_str overflows = None ->
     netstat_section 1700000000 Stdout []
       ("tcp", [["SyncookiesSent"; "ListenDrops"]; ["4"; "many"]]) =
       ([], Raise (ValueError overflows))) /\
  (forall s, exit_status (Raise (ValueError s)) = Some 1).
Proof.
  apply (listen_drops_not_a_number 1700000000 Stdout [] "tcp"
           ["SyncookiesSent"; "ListenDrops"] ["4"; "many"] "many").
  reflexivity.
Defined.

Lemma for_each_print_known_events ts statstype out stats entries :
  for_each (print_known ts statstype stats out) entries =
  (flat_map
     (fun entry : string * (string * option string) =>
        match lookup stats (fst entry) with
        | Some v =>
            [EvPrint out ("net.stat." ++ statstype ++ "." ++ fst (snd entry) ++ " "
                          ++ dec ts ++ " " ++ str_of v
                          ++ tags_suffix (snd (snd entry)))]
        | None => []
        end)
     entries,
   Ok tt).
Proof.
  induction entries as [| [stat [metric tags]] entries IH]; [reflexivity |].
  cbn [for_each flat_map fst snd]. rewrite IH. unfold print_known.
  destruct (lookup stats stat) as [v |].
  - now rewrite print_netstat_text.
  - reflexivity.
Qed.

(** X11: a section of two lines without a [ListenDrops] column prints,
    in the order of [known_netstats] and not of the file, one line for
    each counter of the table that has a column, with the token of its
    last column as it stands -- no value is converted or checked -- and
    it returns. *)
Theorem section_prints_table_counters :
  forall ts out statsdikt statstype names values,
    last_value "ListenDrops" (combine names values) = None ->
    netstat_section ts out statsdikt (statstype, [names; values]) =
    (counter_events ts statstype out (combine names values), Ok tt).
Proof.
  intros ts out d statstype names values Hnone.
  rewrite netstat_section_two_lines.
  unfold print_section, undo_double_counting.
  rewrite lookup_dict_of_pairs, Hnone. cbn [option_map].
  rewrite bind_ret_l, for_each_print_known_events.
  unfold counter_events. f_equal. apply flat_map_ext.
  intros entry. rewrite lookup_dict_of_pairs.
  now destruct (last_value (fst entry) (combine names values)).
Qed.

Lemma section_prints_table_counters_witness :
  netstat_section 1700000000 Stdout []
    ("tcp", [["InErrs"; "TCPAbortFailed"; "Other"; "SyncookiesSent"; "InErrs"];
             ["1"; "n/a"; "2"; "3"; "4"]]) =
  (counter_events 1700000000 "tcp" Stdout
     (combine ["InErrs"; "TCPAbortFailed"; "Other"; "SyncookiesSent"; "InErrs"]
              ["1"; "n/a"; "2"; "3"; "4"]),
   Ok tt).
Proof.
  apply (section_prints_table_counters 1700000000 Stdout [] "tcp").
  reflexivity.
Defined.

Example counter_events_example :
  counter_events 1700000000 "tcp" Stdout
    (combine ["InErrs"; "TCPAbortFailed"; "Other"; "SyncookiesSent"; "InErrs"]
             ["1"; "n/a"; "2"; "3"; "4"]) =
  [EvPrint Stdout "net.stat.tcp.syncookies 1700000000 3 type=sent";
   EvPrint Stdout "net.stat.tcp.abort.failed 1700000000 n/a";
   EvPrint Stdout "net.stat.tcp.errors 1700000000 4 direction=in"].
Proof. reflexivity. Qed.

(* ===================================================================== *)
(** ** What the line loop collects *)
(* ===================================================================== *)

Lemma lookup_setdefault key line d section :
  lookup (setdefault_append key line d) section =
  if (key =? section)%string then Some (section_lines d section ++ [line])%list
  else lookup d section.
Proof.
  unfold section_lines.
  induction d as [| [k ls] d IH]; cbn [setdefault_append lookup].
  - destruct (key =? section)%string; reflexivity.
  - destruct (String.eqb_spec k key) as [-> | Hk]; cbn [lookup].
    + destruct (key =? section)%string; reflexivity.
    + destruct (String.eqb_spec k section) as [-> | Hs].
      * destruct (String.eqb_spec key section); [congruence | reflexivity].
      * exact IH.
Qed.

Lemma netstat_line_lookup stats err text d d' section :
  outcome (netstat_line stats err text d) = Ok d' ->
  lookup d' section =
  if files_under section text
  then Some (section_lines d section ++ [counters_of text])%list
  else lookup d section.
Proof.
  unfold files_under, line_section, counters_of.
  destruct (netstat_line_step stats err text d)
    as [Hs | rest Hs | h rest Hs Hne Hl | h rest sec Hs Hl];
    cbn [outcome snd]; try discriminate; intros [= <-]; rewrite Hs.
  - now rewrite String.eqb_refl.
  - apply String.eqb_neq in Hne. now rewrite Hne, Hl.
  - rewrite (known_header_supported _ _ Hl), Hl. apply lookup_setdefault.
Qed.

Lemma line_loop_lookup stats err lines section :
  forall d d',
    outcome (for_fold (netstat_line stats err) lines d) = Ok d' ->
    lookup d' section =
    match filter (files_under section) lines with
    | [] => lookup d section
    | filed => Some (section_lines d section ++ map counters_of filed)%list
    end.
Proof.
  induction lines as [| x lines IH]; intros d d'; cbn [for_fold filter].
  - now intros [= <-].
  - rewrite outcome_bind.
    destruct (outcome (netstat_line stats err x d)) as [d1 |] eqn:Hx; [| discriminate].
    intros H. rewrite (IH _ _ H).
    pose proof (netstat_line_lookup _ _ _ _ _ section Hx) as H1.
    unfold section_lines at 1. rewrite H1.
    destruct (files_under section x).
    + destruct (filter (files_under section) lines); cbn [map].
      * reflexivity.
      * now rewrite <- app_assoc.
    + reflexivity.
Qed.

(** X12: when the line loop runs to its end, [statsdikt] holds under a
    logical section exactly the lines whose header folds into it, in
    the order of the file and without their header token; a section no
    line folds into is not in [statsdikt], and the lines with an
    unknown or the unsupported header are in none. *)
Theorem line_loop_groups_by_section :
  forall stats err statsdikt section,
    outcome (for_fold (netstat_line stats err) (splitlines stats) []) = Ok statsdikt ->
    lookup statsdikt section =
    match filter (files_under section) (splitlines stats) with
    | [] => None
    | filed => Some (map counters_of filed)
    end.
Proof.
  intros stats err d section H.
  now rewrite (line_loop_lookup _ _ _ section _ _ H).
Qed.

Lemma line_loop_groups_by_section_witness :
  lookup [("udp", [["InErrs"]; ["5"]]);
          ("tcp", [["OutRsts"]; ["1"]; ["ListenDrops"]; ["4"]])] "tcp" =
  match filter (files_under "tcp") (splitlines netstat_aliased) with
  | [] => None
  | filed => Some (map counters_of filed)
  end.
Proof.
  apply (line_loop_groups_by_section netstat_aliased Stderr).
  reflexivity.
Defined.

Lemma lines_written_none s t :
  Forall (fun e => forall text, e <> EvPrint s text) t -> lines_written s t = 0%nat.
Proof.
  induction 1 as [| e t He _ IH]; [reflexivity |].
  destruct e; cbn [lines_written]; try exact IH.
  destruct s, s0; cbn [stream_eqb]; try exact IH.
  - now contradiction (He text).
  - now contradiction (He text).
  - destruct (Nat.eqb_spec n n0) as [-> |]; [now contradiction (He text) | exact IH].
Qed.

(** X13: when the line loop runs to its end and the two streams
    differ, the netstat half writes to the error stream exactly one
    line for each line whose header is neither known nor the
    unsupported one, and nothing else, whether or not a section raises
    afterwards. *)
Theorem netstat_error_lines :
  forall ts stats out err statsdikt,
    out <> err ->
    outcome (for_fold (netstat_line stats err) (splitlines stats) []) = Ok statsdikt ->
    lines_written err (events (parse_netstat ts stats out err)) =
    length (filter draws_warning (splitlines stats)).
Proof.
  intros ts stats out err d Hne Hloop.
  rewrite (proj1 (parse_netstat_unfold _ _ _ _)), Hloop, lines_written_app.
  rewrite (proj1 (line_loop_warnings _ _ _ _ _ Hloop)).
  rewrite lines_written_none; [lia |].
  eapply Forall_impl; [| apply section_loop_events].
  - intros e (name & rest & -> & _) text [= Heq _]. congruence.
  - intros item Hin. apply (known_sections_no_blank_in d); [| exact Hin].
    now apply (line_loop_from_empty_known stats err).
Qed.

Lemma netstat_error_lines_witness :
  lines_written Stderr
    (events (parse_netstat 1700000000
               ("Foo: a" ++ nl ++ netstat_lone_line ++ "MPTcpExt: x" ++ nl ++ "Bar: 1" ++ nl)
               Stdout Stderr)) =
  length (filter draws_warning
            (splitlines ("Foo: a" ++ nl ++ netstat_lone_line ++ "MPTcpExt: x" ++ nl
                         ++ "Bar: 1" ++ nl))).
Proof.
  apply (netstat_error_lines 1700000000 _ Stdout Stderr [("tcp", [["ListenDrops"]])]).
  - discriminate.
  - reflexivity.
Defined.

(* ===================================================================== *)
(** ** The system calls of [main] *)
(* ===================================================================== *)

Lemma count_events_app p (a b : trace) :
  count_events p (a ++ b)%list = (count_events p a + count_events p b)%nat.
Proof. unfold count_events. now rewrite filter_app, length_app. Qed.

Lemma count_events_none p (t : trace) :
  Forall (fun e => p e = false) t -> count_events p t = 0%nat.
Proof.
  unfold count_events. induction 1 as [| e t He _ IH]; [reflexivity |].
  cbn [filter]. now rewrite He.
Qed.

(** After its reads a pass only prints. *)
Lemma pass_prints_after_reads env ofs ofe :
  exists rest,
    events (parse_and_print_metrics env ofs ofe) =
      ([EvTime; EvSeek Sockstat; EvSeek Netstat; EvRead Sockstat; EvRead Netstat]
       ++ rest)%list /\
    Forall (fun e => is_print e = true) rest.
Proof.
  rewrite pass_events. eexists. split; [reflexivity |].
  destruct (re_match REGEXP (sockstat_content env)) as [m |].
  - apply Forall_events_bind.
    + eapply Forall_impl; [| apply print_sockstat_metrics_events].
      intros e (s & text & -> & _). reflexivity.
    + intros _ _. eapply Forall_impl; [| apply parse_netstat_events].
      cbv beta. intros e [(name & rest & -> & _) | (msg & -> & _)]; reflexivity.
  - repeat constructor.
Qed.

Lemma prints_counted p (t : trace) :
  (forall s text, p (EvPrint s text) = false) ->
  Forall (fun e => is_print e = true) t -> count_events p t = 0%nat.
Proof.
  intros Hp H. apply count_events_none.
  eapply Forall_impl; [| exact H].
  intros e He. destruct e; try discriminate He. apply Hp.
Qed.

Lemma pass_counts env ofs ofe :
  let t := events (parse_and_print_metrics env ofs ofe) in
  count_events is_open t = 0%nat /\ count_events is_setid t = 0%nat /\
  count_events is_seek t = 2%nat /\ count_events is_read t = 2%nat /\
  count_events is_time t = 1%nat.
Proof.
  destruct (pass_prints_after_reads env ofs ofe) as (rest & -> & Hrest).
  cbv zeta. rewrite !count_events_app.
  rewrite !(prints_counted _ rest) by (auto; reflexivity).
  repeat split; reflexivity.
Qed.

(** The events of one turn, whatever its pass does. *)
Lemma main_loop_events_step ppid env fuel i :
  events (main_loop ppid env (S fuel) i) =
  (EvGetppid ::
   if ppid i =? 1 then []
   else events (parse_and_print_metrics (env i) None None) ++
        match outcome (parse_and_print_metrics (env i) None None) with
        | Ok _ => [EvFlush Stdout; EvSleep] ++ events (main_loop ppid env fuel (S i))
        | Raise _ => []
        end)%list.
Proof.
  rewrite main_loop_turn. destruct (ppid i =? 1); [reflexivity |].
  destruct (parse_and_print_metrics (env i) None None) as [t [v | e]].
  - destruct (main_loop ppid env fuel (S i)) as [t' r']. reflexivity.
  - cbn. now rewrite app_nil_r.
Qed.

Lemma main_loop_counts ppid env fuel :
  forall i,
    let t := events (main_loop ppid env fuel i) in
    count_events is_open t = 0%nat /\ count_events is_setid t = 0%nat /\
    count_events is_seek t = (2 * count_events is_time t)%nat /\
    count_events is_read t = (2 * count_events is_time t)%nat /\
    (count_events is_time t <= fuel)%nat.
Proof.
  induction fuel as [| fuel IH]; intros i; cbv zeta.
  - cbn. repeat split; lia.
  - rewrite main_loop_events_step.
    destruct (ppid i =? 1); [cbn; repeat split; lia |].
    destruct (pass_counts (env i) None None) as (Po & Pi & Ps & Pr & Pt).
    destruct (IH (S i)) as (Lo & Li & Ls & Lr & Lt).
    change (EvGetppid :: ?x) with ([EvGetppid] ++ x)%list.
    destruct (outcome (parse_and_print_metrics (env i) None None));
      rewrite !count_events_app, ?Po, ?Pi, ?Ps, ?Pr, ?Pt, ?Lo, ?Li, ?Ls, ?Lr;
      cbn [count_events filter length is_open is_setid is_seek is_read is_time];
      repeat split; lia.
Qed.

Lemma drop_privileges_calls st :
  events (drop_privileges st) =
  match pw_nobody st with
  | Some (pw_gid, pw_uid) =>
      if getuid st =? 0
      then if setgid_ok st then [EvSetgid pw_gid; EvSetuid pw_uid] else [EvSetgid pw_gid]
      else []
  | None => []
  end.
Proof.
  unfold drop_privileges. destruct (pw_nobody st) as [[g u] |]; [| reflexivity].
  destruct (getuid st =? 0); [| reflexivity]. cbn [negb].
  destruct (setgid_ok st), (setuid_ok st); reflexivity.
Qed.

(** What [main] does after [drop_privileges], in all cases. *)
Lemma main_events st ppid env fuel :
  events (main st ppid env fuel) =
  (events (drop_privileges st) ++
   match outcome (drop_privileges st) with
   | Raise _ => []
   | Ok _ =>
       [EvCloseStdin; EvOpen Sockstat] ++
       match open_sockstat st, open_netstat st with
       | Some e, _ => [EvPrint Stderr ("Failed to open /proc/net/sockstat: " ++ e)]
       | None, Some e =>
           [EvOpen Netstat; EvPrint Stderr ("Failed to open /proc/net/sockstat: " ++ e)]
       | None, None => EvOpen Netstat :: events (main_loop ppid env fuel 0)
       end
   end)%list.
Proof.
  destruct (drop_privileges_outcome st) as [Hdp | Hdp]; rewrite Hdp.
  - rewrite (main_after_drop _ _ _ _ Hdp).
    destruct (open_sockstat st), (open_netstat st); reflexivity.
  - unfold main. now rewrite events_bind, Hdp.
Qed.

(** X14: [main] changes the identity of the process before anything
    else and never afterwards: only when it runs as root and the
    account exists, the group before the user, the user only after the
    group was changed, and when either call fails nothing further is
    done -- no file is opened -- and the process exits with status
    1. *)
Theorem privileges_dropped_first :
  forall st ppid env fuel,
  exists later,
    events (main st ppid env fuel) = (events (drop_privileges st) ++ later)%list /\
    count_events is_setid later = 0%nat /\
    events (drop_privileges st) =
      match pw_nobody st with
      | Some (pw_gid, pw_uid) =>
          if getuid st =? 0
          then if setgid_ok st then [EvSetgid pw_gid; EvSetuid pw_uid]
               else [EvSetgid pw_gid]
          else []
      | None => []
      end /\
    (outcome (drop_privileges st) <> Ok tt ->
     later = [] /\ exit_status (outcome (main st ppid env fuel)) = Some 1).
Proof.
  intros st ppid env fuel. rewrite main_events. eexists. split; [reflexivity |].
  split; [| split; [apply drop_privileges_calls |]].
  - destruct (outcome (drop_privileges st)); [| reflexivity].
    destruct (main_loop_counts ppid env fuel 0%nat) as (_ & Li & _).
    destruct (open_sockstat st), (open_netstat st); try reflexivity.
    change (EvOpen Netstat :: ?x) with ([EvOpen Netstat] ++ x)%list.
    rewrite !count_events_app, Li. reflexivity.
  - intros Hbad.
    destruct (drop_privileges_outcome st) as [Hdp | Hdp]; [congruence |].
    rewrite Hdp, (main_drop_raises _ _ _ _ Hdp). split; reflexivity.
Qed.

(** What a pass does with the clock and the files, whatever it
    prints. *)
Lemma pass_file_events_filter env ofs ofe :
  filter file_event (events (parse_and_print_metrics env ofs ofe)) = pass_file_events.
Proof.
  destruct (pass_prints_after_reads env ofs ofe) as (rest & -> & Hrest).
  rewrite filter_app. cbn [filter file_event app].
  assert (Hnone : filter file_event rest = []).
  { induction Hrest as [| e rest He _ IH]; [reflexivity |].
    destruct e; try discriminate He. exact IH. }
  now rewrite Hnone.
Qed.

Lemma main_loop_file_events ppid env fuel :
  forall i, exists n,
    (n <= fuel)%nat /\
    filter file_event (events (main_loop ppid env fuel i)) = passes_file_events n.
Proof.
  induction fuel as [| fuel IH]; intros i.
  - exists 0%nat. split; [lia | reflexivity].
  - rewrite main_loop_events_step. cbn [filter file_event].
    destruct (ppid i =? 1); [exists 0%nat; split; [lia | reflexivity] |].
    rewrite filter_app, pass_file_events_filter.
    destruct (outcome (parse_and_print_metrics (env i) None None)).
    + destruct (IH (S i)) as (n & Hn & Hf). exists (S n). split; [lia |].
      rewrite filter_app. cbn [filter file_event app]. now rewrite Hf.
    + exists 1%nat. split; [lia | reflexivity].
Qed.

(** X15: the opens, seeks, reads and clock readings of a run of [main]
    are, in this order: the open of sockstat and then that of netstat,
    each tried once at most -- netstat only when sockstat was opened,
    neither when [drop_privileges] raised --, and then, for each pass
    that was begun, one clock reading, the seek of sockstat, the seek
    of netstat, the read of sockstat and the read of netstat.  No file
    is opened again between passes; there is at most one pass per turn
    of the loop, and none unless both files were opened. *)
Theorem files_opened_once_read_each_pass :
  forall st ppid env fuel,
  exists n,
    filter file_event (events (main st ppid env fuel)) =
      (opens_of st ++ passes_file_events n)%list /\
    (n <= fuel)%nat /\
    (enters_loop st = false -> n = 0%nat).
Proof.
  intros st ppid env fuel. rewrite main_events, filter_app.
  assert (Hdp : filter file_event (events (drop_privileges st)) = []).
  { rewrite drop_privileges_calls.
    destruct (pw_nobody st) as [[g u] |]; [| reflexivity].
    destruct (getuid st =? 0); [| reflexivity].
    now destruct (setgid_ok st). }
  rewrite Hdp. unfold opens_of, enters_loop.
  destruct (outcome (drop_privileges st));
    [| exists 0%nat; repeat split; lia].
  destruct (open_sockstat st);
    [exists 0%nat; repeat split; lia |].
  destruct (open_netstat st);
    [exists 0%nat; repeat split; lia |].
  destruct (main_loop_file_events ppid env fuel 0%nat) as (n & Hn & Hf).
  exists n. cbn [app filter file_event]. rewrite Hf.
  repeat split; [exact Hn | discriminate].
Qed.

(* ===================================================================== *)
(** ** Every print is one line *)
(* ===================================================================== *)

Lemma uint_one_line d : count_char LF (NilEmpty.string_of_uint d) = 0%nat.
Proof. induction d; simpl; auto. Qed.

Lemma dec_one_line z : count_char LF (dec z) = 0%nat.
Proof.
  unfold dec. destruct (Z.to_int z) as [d | d]; simpl;
    destruct d; try apply (uint_one_line (_ d)); reflexivity.
Qed.

Lemma no_space_one_line s : no_space s = true -> count_char LF s = 0%nat.
Proof.
  induction s as [| c s IH]; [reflexivity |]. cbn [no_space count_char].
  intros H. apply andb_prop in H as [Hc Hs]. rewrite (IH Hs).
  destruct (Ascii.eqb_spec LF c) as [<- |]; [discriminate Hc | reflexivity].
Qed.

Lemma digits_one_line d : digits d -> count_char LF d = 0%nat.
Proof.
  intros [H _]. induction d as [| c d IH]; [reflexivity |].
  cbn [all_digits count_char] in *. apply andb_prop in H as [Hc Hd].
  rewrite (IH Hd).
  destruct (Ascii.eqb_spec LF c) as [<- |]; [discriminate Hc | reflexivity].
Qed.

Lemma no_space_snoc cur c :
  no_space cur = true -> is_space c = false -> no_space (snoc cur c) = true.
Proof.
  intros Hcur Hc. unfold snoc.
  induction cur as [| x cur IH]; cbn [append no_space] in *.
  - now rewrite Hc.
  - apply andb_prop in Hcur as [Hx Hcur]. now rewrite Hx, IH.
Qed.

(** The tokens of [split] hold no white space. *)
Lemma split_from_no_space s :
  forall cur, no_space cur = true ->
              Forall (fun tok => no_space tok = true) (split_from cur s).
Proof.
  induction s as [| c s IH]; intros cur Hcur; cbn [split_from].
  - destruct (cur =? "")%string; repeat constructor; assumption.
  - destruct (is_space c) eqn:Hc.
    + destruct (cur =? "")%string; [| constructor; [assumption |]]; now apply IH.
    + apply IH. now apply no_space_snoc.
Qed.

Lemma split_no_space text : Forall (fun tok => no_space tok = true) (split text).
Proof. now apply split_from_no_space. Qed.

Lemma setdefault_clean key line d :
  Forall (fun tok => no_space tok = true) line -> clean_tokens d ->
  clean_tokens (setdefault_append key line d).
Proof.
  intros Hline. unfold clean_tokens.
  induction 1 as [| [k ls] d Hx Hd IH]; cbn [setdefault_append].
  - repeat constructor. exact Hline.
  - destruct (k =? key)%string; constructor; try assumption.
    cbn [snd] in *. apply Forall_app. split; [exact Hx | now repeat constructor].
Qed.

Lemma line_loop_clean stats err lines :
  forall d d', clean_tokens d ->
  outcome (for_fold (netstat_line stats err) lines d) = Ok d' ->
  clean_tokens d'.
Proof.
  induction lines as [| x lines IH]; intros d d' Hd; cbn [for_fold].
  - now intros [= <-].
  - rewrite outcome_bind.
    destruct (outcome (netstat_line stats err x d)) as [d1 |] eqn:Hx; [| discriminate].
    apply IH.
    destruct (netstat_line_step stats err x d) as [| | | h rest sec Hs Hl];
      cbn [outcome snd] in Hx; try discriminate; injection Hx as <-; auto.
    apply setdefault_clean; [| assumption].
    pose proof (split_no_space x) as Hall. rewrite Hs in Hall.
    now inversion Hall.
Qed.

Lemma last_value_In key pairs v :
  last_value key pairs = Some v -> In v (map snd pairs).
Proof.
  induction pairs as [| [k w] pairs IH]; cbn [last_value map snd]; [discriminate |].
  destruct (last_value key pairs) as [v' |].
  - intros [= <-]. right. now apply IH.
  - destruct (k =? key)%string; [intros [= <-]; now left | discriminate].
Qed.

Lemma combine_values_In {A B} (xs : list A) (ys : list B) y :
  In y (map snd (combine xs ys)) -> In y ys.
Proof.
  revert ys. induction xs as [| x xs IH]; intros [| y' ys]; simpl; try tauto.
  intros [<- | H]; [now left | right; now apply IH].
Qed.

Lemma dict_of_pairs_one_line names values :
  Forall (fun tok => no_space tok = true) values ->
  one_line_values (dict_of_pairs (combine names values)).
Proof.
  intros Hvalues key v. rewrite lookup_dict_of_pairs.
  destruct (last_value key (combine names values)) as [s |] eqn:Hs; [| discriminate].
  intros [= <-]. cbn [str_of]. apply no_space_one_line.
  apply last_value_In, combine_values_In in Hs.
  exact (proj1 (Forall_forall _ _) Hvalues _ Hs).
Qed.

Lemma undo_double_counting_one_line stats stats' :
  one_line_values stats ->
  outcome (undo_double_counting stats) = Ok stats' ->
  one_line_values stats'.
Proof.
  intros Hstats. unfold undo_double_counting.
  destruct (lookup stats "ListenDrops"); [| now intros [= <-]].
  rewrite outcome_bind. destruct (outcome (py_int p)) as [drops |]; [| discriminate].
  rewrite outcome_bind. destruct (outcome (py_int _)) as [overflows |]; [| discriminate].
  intros [= <-] key v. rewrite lookup_dict_set.
  destruct ("ListenDrops" =? key)%string; [| apply Hstats].
  intros [= <-]. apply dec_one_line.
Qed.

Lemma known_tables_one_line :
  Forall (fun entry : string * (string * option string) =>
            count_char LF (fst (snd entry)) = 0%nat /\
            count_char LF (tags_suffix (snd (snd entry))) = 0%nat)
         known_netstats /\
  Forall (fun section => count_char LF section = 0%nat)
         (map snd known_netstatstypes).
Proof. split; repeat constructor. Qed.

Lemma netstat_section_one_line ts out d item :
  In (fst item) (map snd known_netstatstypes) ->
  Forall (Forall (fun tok => no_space tok = true)) (snd item) ->
  Forall (fun e => one_line e = true) (events (netstat_section ts out d item)).
Proof.
  destruct item as [statstype lines]. cbn [fst snd]. intros Hsec Hclean.
  pose proof (proj1 (Forall_forall _ _) (proj2 known_tables_one_line) _ Hsec) as Hs.
  unfold netstat_section.
  destruct lines as [| names [| values [| c rest]]]; try (now constructor).
  assert (Hvalues : Forall (fun tok => no_space tok = true) values)
    by (inversion Hclean as [| ? ? _ H2]; now inversion H2).
  apply Forall_events_bind.
  - rewrite undo_double_counting_events. constructor.
  - intros stats' Hu.
    pose proof (undo_double_counting_one_line _ _
                  (dict_of_pairs_one_line names values Hvalues) Hu) as Hone.
    rewrite for_each_print_known_events. cbn [events fst].
    apply Forall_flat_map, Forall_forall. intros entry Hin.
    pose proof (proj1 (Forall_forall _ _) (proj1 known_tables_one_line) _ Hin)
      as [Hm Ht].
    destruct (lookup stats' (fst entry)) as [v |] eqn:Hv; [| constructor].
    repeat constructor. cbn [one_line]. apply Nat.eqb_eq.
    now rewrite !count_char_app, Hs, Hm, Ht, dec_one_line, (Hone _ _ Hv).
Qed.

Lemma parse_netstat_one_line ts stats out err :
  Forall (fun e => one_line e = true) (events (parse_netstat ts stats out err)).
Proof.
  rewrite (proj1 (parse_netstat_unfold _ _ _ _)). apply Forall_app. split.
  - eapply Forall_impl; [| apply line_loop_events].
    intros e (msg & -> & Hmsg). cbn [one_line]. apply Nat.eqb_eq.
    now rewrite count_char_app, Hmsg.
  - destruct (outcome (for_fold _ _ _)) as [d | e0] eqn:Hloop; [| constructor].
    pose proof (line_loop_from_empty_known _ _ _ Hloop) as Hknown.
    assert (Hclean : clean_tokens d)
      by (apply (line_loop_clean stats err (splitlines stats) [] d);
          [constructor | exact Hloop]).
    apply Forall_events_for_each. intros item Hin.
    apply netstat_section_one_line.
    + exact (proj1 (Forall_forall _ _) Hknown _ Hin).
    + exact (proj1 (Forall_forall _ _) Hclean _ Hin).
Qed.

Lemma sockstat_metric_events_one_line ts page f out :
  fields_ok f ->
  Forall (fun e => one_line e = true) (sockstat_metric_events ts page f out).
Proof.
  intros (H0 & H1 & H2 & H3 & H4 & H5 & H6 & H7 & H8 & H9 & H10 & H11).
  unfold sockstat_metric_events.
  destruct (f_udp_pages f) as [up |], (f_udplite_inuse f) as [ul |];
    cbn [digits_opt app] in *;
    repeat constructor; cbn [one_line]; apply Nat.eqb_eq;
    rewrite !count_char_app, ?dec_one_line,
      ?(digits_one_line _ H1), ?(digits_one_line _ H2), ?(digits_one_line _ H3),
      ?(digits_one_line _ H4), ?(digits_one_line _ H6), ?(digits_one_line _ H8),
      ?(digits_one_line _ H9), ?(digits_one_line _ H10), ?(digits_one_line _ H11);
    reflexivity.
Qed.

Lemma lines_written_prints s (t : trace) :
  Forall (fun e => one_line e = true) t ->
  lines_written s t = count_events (prints_to s) t.
Proof.
  unfold count_events.
  induction 1 as [| e t He _ IH]; [reflexivity |].
  destruct e; cbn [lines_written filter prints_to]; try exact IH.
  cbn [one_line] in He. apply Nat.eqb_eq in He.
  unfold lines_of_print. rewrite He, IH.
  now destruct (stream_eqb s s0).
Qed.

(** X16: every text a pass prints -- metric line, warning or
    diagnostic -- holds no line feed, so each [print] adds exactly one
    line to its stream: the number of lines written to a stream is the
    number of prints to it. *)
Theorem every_print_is_one_line :
  forall env ofs ofe,
    Forall (fun e => one_line e = true)
           (events (parse_and_print_metrics env ofs ofe)) /\
    forall s,
      lines_written s (events (parse_and_print_metrics env ofs ofe)) =
      count_events (prints_to s) (events (parse_and_print_metrics env ofs ofe)).
Proof.
  intros env ofs ofe.
  assert (Hall : Forall (fun e => one_line e = true)
                        (events (parse_and_print_metrics env ofs ofe))).
  { rewrite pass_events. apply Forall_app. split; [repeat constructor |].
    destruct (re_match REGEXP (sockstat_content env)) as [m |] eqn:Hm.
    - destruct (REGEXP_match_reads _ m Hm) as (f & rest & Hf & _ & ->).
      apply Forall_events_bind.
      + rewrite (print_sockstat_metrics_of_fields _ _ _ _ Hf).
        now apply sockstat_metric_events_one_line.
      + intros _ _. apply parse_netstat_one_line.
    - repeat constructor. cbn [one_line]. apply Nat.eqb_eq.
      now rewrite count_char_app, repr_one_line. }
  split; [exact Hall |]. intros s. now apply lines_written_prints.
Qed.
